(** * RaggedArray: offsets + values encoding of ragged 1-D rows

    Shallow embedding of [datashader/datatypes.py]: the validation of a raw
    (start_indices, flat_array) pair, the three construction paths of
    [RaggedArray.__init__], integer and boolean-mask [__getitem__], [take],
    [_concat_same_type], the store-vs-store branch of [__eq__] with its
    kernel [_eq_ragged_ragged], and the ordering of [_RaggedElement].

    Python integers are [Z]; a numpy integer array is its dtype together
    with the list of its items, every arithmetic result reduced into the
    range of the dtype. Exceptions are values of [exn], carried by the
    [result] monad.

    numpy is modelled as its releases 1.20 to 1.23 behave on a 64-bit
    platform: they accept the module ([np.bool], [np.hstack] of a
    generator), promote [array + scalar] by the value of the scalar, and
    convert the value assigned to a slice to the dtype of the array even
    when the slice is empty. *)

From Stdlib Require Import ZArith List Bool Lia.
Import ListNotations.
Open Scope Z_scope.

(** ** Exceptions and the [result] monad *)

(** One constructor per [raise ValueError] site of the module, with the
    values its message is formatted from; then numpy's own ValueErrors:
    [np.hstack] of no array, a dimension that numpy's index type does not
    hold, an array of more bytes than it holds, and the conversion of
    [np.nan] to an integer. *)
Inductive value_error : Type :=
| Bad_start_indices
| Bad_flat_array
| Start_indices_too_large (m : Z) (vals : list Z)
| Unequal_length (len_ra1 len_ra2 : Z)
| Invalid_take_indices (inds : list Z)
| Need_at_least_one_array
| Maximum_allowed_dimension_exceeded
| Array_is_too_big
| Cannot_convert_float_NaN_to_integer.

(** The TypeErrors that reach the caller: numpy's conversion of [None]
    to an integer, and [len] (or [np.isnan]) of a scalar that has no
    length (is no number). *)
Inductive type_error : Type :=
| Int_argument_is_NoneType
| Scalar_item_of_object_array.

(** [Item_out_of_bounds] and [Non_empty_take] are raised by the module;
    [Boolean_index_mismatch] is numpy's own IndexError for a boolean index
    whose length is not the length of the indexed array. *)
Inductive index_error : Type :=
| Item_out_of_bounds (item : Z)
| Non_empty_take
| Boolean_index_mismatch (dim bool_dim : Z).

Inductive exn : Type :=
| ValueError (e : value_error)
| IndexError (e : index_error)
| TypeError (e : type_error).

Inductive result (A : Type) : Type :=
| Ok (a : A)
| Raise (e : exn).

Arguments Ok {A} a.
Arguments Raise {A} e.

Definition bind {A B : Type} (r : result A) (k : A -> result B) : result B :=
  match r with
  | Ok a => k a
  | Raise e => Raise e
  end.

Notation "x <- r ;; k" := (bind r (fun x => k))
  (at level 61, r at next level, right associativity).

(** A list comprehension whose body may raise: the first failure, left to
    right, is the one that propagates. *)
Fixpoint comprehension {A B : Type} (f : A -> result B) (l : list A)
  : result (list B) :=
  match l with
  | [] => Ok []
  | a :: rest =>
      b <- f a ;;
      bs <- comprehension f rest ;;
      Ok (b :: bs)
  end.

Definition is_IndexError {A : Type} (r : result A) : bool :=
  match r with
  | Raise (IndexError _) => true
  | _ => false
  end.


(** Whether a computation returns or raises IndexError, and nothing
    else. *)
Definition only_IndexError {A : Type} (r : result A) : bool :=
  match r with
  | Ok _ | Raise (IndexError _) => true
  | _ => false
  end.

(** ** The part of numpy the module relies on *)

Module np.

Inductive width : Type := W8 | W16 | W32 | W64.

Definition nbits (w : width) : Z :=
  match w with W8 => 8 | W16 => 16 | W32 => 32 | W64 => 64 end.

Definition wider (a b : width) : width :=
  if nbits a <=? nbits b then b else a.

Inductive dtype : Type :=
| uint (w : width)
| int (w : width)
| float64.

Inductive kind : Type := kind_u | kind_i | kind_f.

Definition dtype_kind (d : dtype) : kind :=
  match d with
  | uint _ => kind_u
  | int _ => kind_i
  | float64 => kind_f
  end.

Definition kind_eqb (a b : kind) : bool :=
  match a, b with
  | kind_u, kind_u | kind_i, kind_i | kind_f, kind_f => true
  | _, _ => false
  end.

(** [np.iinfo(d).max]; only asked of integer dtypes. *)
Definition iinfo_max (d : dtype) : Z :=
  match d with
  | uint w => 2 ^ nbits w - 1
  | int w => 2 ^ (nbits w - 1) - 1
  | float64 => 0
  end.

(** The value an integer takes when it is stored in an item of dtype [d]:
    reduction modulo [2^nbits], read back in the range of the dtype. A
    float64 item keeps the integer (no rounding is modelled: no value of
    a float64 array is ever inspected by the module's offset code). *)
Definition cast (d : dtype) (v : Z) : Z :=
  match d with
  | uint w => v mod 2 ^ nbits w
  | int w => (v + 2 ^ (nbits w - 1)) mod 2 ^ nbits w - 2 ^ (nbits w - 1)
  | float64 => v
  end.

(** A numpy array: dtype, number of dimensions and items. Every array
    the module builds is 1-D; [ndim] other than 1 only occurs for the
    arguments handed to the validation. *)
Record ndarray (A : Type) : Type := mk_ndarray {
  dtype_of : dtype;
  ndim : nat;
  items : list A
}.

Arguments mk_ndarray {A} _ _ _.
Arguments dtype_of {A} _.
Arguments ndim {A} _.
Arguments items {A} _.

Definition array1 {A : Type} (d : dtype) (l : list A) : ndarray A :=
  mk_ndarray d 1 l.

(** [len(a)] of a 1-D array. *)
Definition len {A : Type} (a : ndarray A) : Z :=
  Z.of_nat (length (items a)).

(** The largest size numpy's index type holds, and the bytes of one
    item. *)
Definition intp_max : Z := 2 ^ 63 - 1.

Definition itemsize (d : dtype) : Z :=
  match d with
  | uint w | int w => nbits w / 8
  | float64 => 8
  end.

(** Whether numpy refuses to create an array of [n] items of dtype [d],
    with which ValueError: a dimension above [intp_max], or more bytes
    than [intp_max]. *)
Definition refused (n : Z) (d : dtype) : option value_error :=
  if intp_max <? n then Some Maximum_allowed_dimension_exceeded
  else if intp_max <? n * itemsize d then Some Array_is_too_big
  else None.

(** [np.zeros(n, dtype=d)] for a Python integer [n >= 0]. An array that
    numpy accepts by its size is taken to be granted by the allocator:
    MemoryError, which depends on the machine, is not modelled. *)
Definition zeros {A : Type} (zero : A) (n : Z) (d : dtype)
  : result (ndarray A) :=
  match refused n d with
  | Some e => Raise (ValueError e)
  | None => Ok (array1 d (repeat zero (Z.to_nat n)))
  end.

(** [np.promote_types] on the dtypes above. *)
Definition promote_types (a b : dtype) : dtype :=
  match a, b with
  | float64, _ | _, float64 => float64
  | uint x, uint y => uint (wider x y)
  | int x, int y => int (wider x y)
  | uint u, int i | int i, uint u =>
      if nbits u <? nbits i then int i
      else match u with
           | W8 => int W16
           | W16 => int W32
           | W32 => int W64
           | W64 => float64
           end
  end.

(** [np.min_scalar_type] of an integer value. *)
Definition min_scalar_type (v : Z) : dtype :=
  if 0 <=? v then
    if v <=? iinfo_max (uint W8) then uint W8
    else if v <=? iinfo_max (uint W16) then uint W16
    else if v <=? iinfo_max (uint W32) then uint W32
    else uint W64
  else
    if - 2 ^ 7 <=? v then int W8
    else if - 2 ^ 15 <=? v then int W16
    else if - 2 ^ 31 <=? v then int W32
    else int W64.

(** dtype of [array + scalar] under numpy's value-based casting (every
    numpy release that accepts this module, which calls [np.hstack] on a
    generator and uses [np.bool]): a scalar of a higher category than the
    array (a float against integers) imposes its dtype; a scalar of the
    same category only counts through the smallest dtype that holds its
    value. *)
Definition add_scalar_dtype (a s : dtype) (v : Z) : dtype :=
  match s with
  | float64 => promote_types a float64
  | _ => match a with
         | float64 => float64
         | _ => promote_types a (min_scalar_type v)
         end
  end.

(** [a + scalar], item by item in the result dtype. *)
Definition add_scalar (a : ndarray Z) (s : dtype) (v : Z) : ndarray Z :=
  let d := add_scalar_dtype (dtype_of a) s v in
  mk_ndarray d (ndim a) (map (fun x => cast d (x + v)) (items a)).

(** [a > n] for a Python integer [n]: a boolean array. *)
Definition greater (a : list Z) (n : Z) : list bool :=
  map (fun x => n <? x) a.

Definition any (mask : list bool) : bool := existsb (fun b => b) mask.

(** The items of [a] at the true positions of [mask]. *)
Fixpoint compress {A : Type} (mask : list bool) (a : list A) : list A :=
  match mask, a with
  | m :: mask', x :: a' =>
      if m then x :: compress mask' a' else compress mask' a'
  | _, _ => []
  end.

(** [a[mask]] for a boolean array [mask]: numpy (1.13 and later) raises
    IndexError unless the mask has the length of [a]. *)
Definition boolean_index {A : Type} (a : list A) (mask : list bool)
  : result (list A) :=
  if Nat.eqb (length mask) (length a) then Ok (compress mask a)
  else Raise (IndexError (Boolean_index_mismatch
                            (Z.of_nat (length a)) (Z.of_nat (length mask)))).

(** [a[start:stop]] for non-negative bounds: clipped to the array, empty
    when [stop <= start]. *)
Definition slice {A : Type} (a : list A) (start stop : Z) : list A :=
  firstn (Z.to_nat (stop - start)) (skipn (Z.to_nat start) a).

(** [a[start:stop] = v] where [v] has [stop - start] items and the slice
    lies inside [a]. *)
Definition set_slice {A : Type} (a : list A) (start stop : Z) (v : list A)
  : list A :=
  firstn (Z.to_nat start) a ++ v ++ skipn (Z.to_nat stop) a.

(** [a[i] = x] for [0 <= i < len(a)]. *)
Fixpoint set_item {A : Type} (a : list A) (i : nat) (x : A) : list A :=
  match a, i with
  | [], _ => []
  | _ :: a', O => x :: a'
  | y :: a', S i' => y :: set_item a' i' x
  end.

(** [a[i]] for [0 <= i < len(a)], the only way the module indexes. *)
Definition item (a : list Z) (i : Z) : Z := nth (Z.to_nat i) a 0.

(** [np.cumsum] of a list of Python integers: int64 running sums, and
    the empty float64 array for the empty list. *)
Fixpoint running_sums (acc : Z) (l : list Z) : list Z :=
  match l with
  | [] => []
  | x :: rest =>
      let acc' := cast (int W64) (acc + x) in
      acc' :: running_sums acc' rest
  end.

Definition cumsum (l : list Z) : ndarray Z :=
  match l with
  | [] => array1 float64 []
  | _ => array1 (int W64) (running_sums 0 l)
  end.

(** [np.hstack] of 1-D arrays: the items in order, each cast to the
    promoted dtype; ValueError when there is nothing to stack. *)
Definition hstack_dtype (first : dtype) (rest : list dtype) : dtype :=
  fold_left promote_types rest first.

Definition hstack (arrays : list (ndarray Z)) : result (ndarray Z) :=
  match arrays with
  | [] => Raise (ValueError Need_at_least_one_array)
  | a :: rest =>
      let d := hstack_dtype (dtype_of a) (map dtype_of rest) in
      Ok (array1 d (map (cast d) (flat_map items arrays)))
  end.

(** [np.hstack] of the value buffers of stores of one element type: no
    conversion of the elements takes place. *)
Definition hstack_same {A : Type} (arrays : list (ndarray A))
  : result (ndarray A) :=
  match arrays with
  | [] => Raise (ValueError Need_at_least_one_array)
  | a :: _ => Ok (array1 (dtype_of a) (flat_map items arrays))
  end.

Section ArrayEqual.
Context {A : Type} (eq_item : A -> A -> bool).

(** [np.array_equal]: same shape, then [(a1 == a2).all()]. *)
Definition array_equal (a1 a2 : list A) : bool :=
  if Nat.eqb (length a1) (length a2)
  then forallb (fun p => eq_item (fst p) (snd p)) (combine a1 a2)
  else false.
End ArrayEqual.

End np.

(** ** The module *)

(** A Python value handed to a function that expects a numpy array. *)
Inductive pyobject (A : Type) : Type :=
| Ndarray (a : np.ndarray A)
| NotNdarray.

Arguments Ndarray {A} a.
Arguments NotNdarray {A}.

(** numpy's conversion of an element to a dtype, as the assignment of an
    array to a slice of a buffer of that dtype performs it item by item:
    a cast that does not raise. *)
Class Astype (E : Type) : Type := astype : np.dtype -> E -> E.

Section Ragged.

(** The element type of the value buffer: its carrier with its
    conversions, the zero that [np.zeros] fills with, and numpy's [==]
    and [<] on two elements ([e1 > e2] is [e2 < e1]). *)
Context {E : Type} {convert : Astype E}.
Variable zero : E.
Variable eq_item : E -> E -> bool.
Variable lt_item : E -> E -> bool.

(** One row as the constructor receives it and as [__getitem__] returns
    it: [None], the scalar [np.nan], or a 1-D array of elements. *)
Inductive datum : Type :=
| PyNone
| NaN
| Row (a : list E).

Definition missing (v : datum) : bool :=
  match v with
  | PyNone | NaN => true
  | Row _ => false
  end.

Definition _validate_ragged_properties
  (start_indices : pyobject Z) (flat_array : pyobject E) : result unit :=
  match start_indices with
  | NotNdarray => Raise (ValueError Bad_start_indices)
  | Ndarray si =>
      if negb (np.kind_eqb (np.dtype_kind (np.dtype_of si)) np.kind_u)
         || negb (Nat.eqb (np.ndim si) 1)
      then Raise (ValueError Bad_start_indices)
      else
        match flat_array with
        | NotNdarray => Raise (ValueError Bad_flat_array)
        | Ndarray fa =>
            if negb (Nat.eqb (np.ndim fa) 1)
            then Raise (ValueError Bad_flat_array)
            else
              let invalid_inds := np.greater (np.items si) (np.len fa) in
              if np.any invalid_inds then
                some_invalid_vals <-
                  np.boolean_index (np.items si) (firstn 10 invalid_inds) ;;
                Raise (ValueError
                         (Start_indices_too_large (np.len fa) some_invalid_vals))
              else Ok tt
        end
  end.

Record RaggedArray : Type := mk_RaggedArray {
  start_indices : np.ndarray Z;
  flat_array : np.ndarray E
}.

(** [len(self)] *)
Definition len (self : RaggedArray) : Z := np.len (start_indices self).

(** The three shapes of [data] that [__init__] tells apart. *)
Inductive init_data : Type :=
| Dict (start_indices_ : pyobject Z) (flat_array_ : pyobject E)
| Ragged (ra : RaggedArray)
| Rows (data : list datum).

(** [len(datum) if not missing(datum) else 0] *)
Definition datum_len (v : datum) : Z :=
  match v with
  | Row a => Z.of_nat (length a)
  | _ => 0
  end.

Definition buffer_len (data : list datum) : Z :=
  fold_right Z.add 0 (map datum_len data).

(** The loop [for nbits in [8, 16, 32, 64]] that leaves
    [start_indices_dtype] at the first width whose maximum holds
    [buffer_len], and at the last one tried when none does: the loop has no
    [else]. *)
Fixpoint for_nbits (w : np.width) (rest : list np.width) (buffer_len_ : Z)
  : np.dtype :=
  let start_indices_dtype := np.uint w in
  let max_supported := np.iinfo_max start_indices_dtype in
  if buffer_len_ <=? max_supported then start_indices_dtype
  else match rest with
       | [] => start_indices_dtype
       | w' :: rest' => for_nbits w' rest' buffer_len_
       end.

Definition start_indices_dtype_for (buffer_len_ : Z) : np.dtype :=
  for_nbits np.W8 [np.W16; np.W32; np.W64] buffer_len_.

(** The state of the population loop: the cursor and the two buffers. *)
Record populate_state : Type := mk_populate_state {
  next_start_ind : Z;
  st_start_indices : list Z;
  st_flat_array : list E
}.

(** [self._flat_array[start:stop] = array_el], where the slice has the
    length of [array_el] (0 for a missing one). The elements of an array
    are converted to the dtype of the buffer. The statement runs for a
    missing row too: numpy converts the value before it looks at the
    slice, so into a buffer of integers [None] raises TypeError and
    [np.nan] ValueError; into a buffer of floats both convert to nan, of
    which the empty slice takes nothing. *)
Definition setitem_slice (dtype : np.dtype) (flat_array_ : list E)
  (start stop : Z) (array_el : datum) : result (list E) :=
  match array_el with
  | Row a => Ok (np.set_slice flat_array_ start stop (map (astype dtype) a))
  | PyNone =>
      match np.dtype_kind dtype with
      | np.kind_f => Ok flat_array_
      | _ => Raise (TypeError Int_argument_is_NoneType)
      end
  | NaN =>
      match np.dtype_kind dtype with
      | np.kind_f => Ok flat_array_
      | _ => Raise (ValueError Cannot_convert_float_NaN_to_integer)
      end
  end.

(** One turn of [for i, array_el in enumerate(data)]. The cursor is stored
    in an item of the offsets' dtype; it never exceeds [buffer_len], so the
    store is exact whenever [buffer_len] fits the dtype chosen for it. *)
Definition populate_step (d dtype : np.dtype) (st : populate_state)
  (i_el : nat * datum) : result populate_state :=
  let (i, array_el) := i_el in
  let n := datum_len array_el in
  let next := next_start_ind st in
  let start_indices_ := np.set_item (st_start_indices st) i (np.cast d next) in
  flat_array_ <-
    setitem_slice dtype (st_flat_array st) next (next + n) array_el ;;
  Ok (mk_populate_state (next + n) start_indices_ flat_array_).

Definition enumerate {A : Type} (l : list A) : list (nat * A) :=
  combine (seq 0 (length l)) l.

(** The loop: the first turn that raises ends it. *)
Fixpoint populate (d dtype : np.dtype) (i_els : list (nat * datum))
  (st : populate_state) : result populate_state :=
  match i_els with
  | [] => Ok st
  | i_el :: rest =>
      st' <- populate_step d dtype st i_el ;;
      populate d dtype rest st'
  end.

(** [RaggedArray.__init__]. The dtype of the value buffer is given, as in
    every call the module makes itself ([dtype=self.flat_array.dtype]);
    [copy] only decides whether buffers are shared and has no effect on
    values. In the [Dict] branch the validation has raised unless both
    values are arrays. The branch for a list or array of rows computes
    the lengths and the precision of the offsets, creates the two
    zero-filled buffers and fills them in one pass. *)
Definition RaggedArray_init (data : init_data) (dtype : np.dtype)
  : result RaggedArray :=
  match data with
  | Dict start_indices_ flat_array_ =>
      _ <- _validate_ragged_properties start_indices_ flat_array_ ;;
      match start_indices_, flat_array_ with
      | Ndarray si, Ndarray fa => Ok (mk_RaggedArray si fa)
      | _, _ => Raise (ValueError Bad_start_indices)
      end
  | Ragged ra => Ok (mk_RaggedArray (start_indices ra) (flat_array ra))
  | Rows rows =>
      let index_len := Z.of_nat (length rows) in
      let buffer_len_ := buffer_len rows in
      let start_indices_dtype := start_indices_dtype_for buffer_len_ in
      start_indices_ <- np.zeros 0 index_len start_indices_dtype ;;
      flat_array_ <- np.zeros zero buffer_len_ dtype ;;
      st <- populate start_indices_dtype dtype (enumerate rows)
              (mk_populate_state 0 (np.items start_indices_)
                                 (np.items flat_array_)) ;;
      Ok (mk_RaggedArray
            (np.array1 start_indices_dtype (st_start_indices st))
            (np.array1 dtype (st_flat_array st)))
  end.

(** [__getitem__] for an [Integral] item. *)
Definition getitem_int (self : RaggedArray) (item : Z) : result datum :=
  if (item <? - len self) || (item >=? len self) then
    Raise (IndexError (Item_out_of_bounds item))
  else
    let item := if item <? 0 then item + len self else item in
    let slice_start := np.item (np.items (start_indices self)) item in
    let slice_end :=
      if item + 1 <=? len self - 1
      then np.item (np.items (start_indices self)) (item + 1)
      else np.len (flat_array self) in
    Ok (if negb (slice_end =? slice_start)
        then Row (np.slice (np.items (flat_array self)) slice_start slice_end)
        else NaN).

(** The loop of the boolean-mask branch of [__getitem__]:
    [for i, m in enumerate(item): if m: data.append(self[i])]. *)
Fixpoint mask_loop (self : RaggedArray) (i_ms : list (nat * bool))
  (data : list datum) : result (list datum) :=
  match i_ms with
  | [] => Ok data
  | (i, m) :: rest =>
      if m then
        v <- getitem_int self (Z.of_nat i) ;;
        mask_loop self rest (data ++ [v])
      else mask_loop self rest data
  end.

(** [__getitem__] for a boolean numpy array. *)
Definition getitem_mask (self : RaggedArray) (item : list bool)
  : result RaggedArray :=
  data <- mask_loop self (enumerate item) [] ;;
  RaggedArray_init (Rows data) (np.dtype_of (flat_array self)).

(** [take]: the sequence of rows gathered, then construction from it. *)
Definition take (self : RaggedArray) (indices : list Z) (allow_fill : bool)
  (fill_value : datum) : result RaggedArray :=
  sequence <-
    (if allow_fill then
       let invalid_inds := filter (fun i => i <? -1) indices in
       match invalid_inds with
       | _ :: _ =>
           Raise (ValueError (Invalid_take_indices (firstn 9 invalid_inds)))
       | [] =>
           comprehension
             (fun i => if i >=? 0 then getitem_int self i else Ok fill_value)
             indices
       end
     else
       if (len self =? 0) && (Z.of_nat (length indices) >? 0) then
         Raise (IndexError Non_empty_take)
       else comprehension (getitem_int self) indices) ;;
  RaggedArray_init (Rows sequence) (np.dtype_of (flat_array self)).

(** [_concat_same_type]: the value buffers stacked; [offsets], a zero
    followed by the running sums of the lengths of all value buffers but
    the last; each input's [start_indices] plus the item of [offsets]
    that [zip] pairs it with, stacked; and construction from the raw
    pair. An item of [offsets] is a numpy scalar of the dtype of
    [offsets]. *)
Definition _concat_same_type (to_concat : list RaggedArray)
  : result RaggedArray :=
  flat_array_ <- np.hstack_same (map flat_array to_concat) ;;
  offsets <-
    np.hstack
      [np.array1 (np.int np.W64) [0];
       np.cumsum (map (fun ra => np.len (flat_array ra))
                      (removelast to_concat))] ;;
  start_indices_ <-
    np.hstack
      (map (fun o_ra =>
              np.add_scalar (start_indices (snd o_ra))
                            (np.dtype_of offsets) (fst o_ra))
           (combine (np.items offsets) to_concat)) ;;
  RaggedArray_init (Dict (Ndarray start_indices_) (Ndarray flat_array_))
                   (np.dtype_of flat_array_).

(** [_eq_ragged_ragged]: entry [i] of the result, for [i] in [range(n)],
    compares the two slices with [np.array_equal]. *)
Definition _eq_ragged_ragged (ra1 ra2 : RaggedArray) : list bool :=
  let start_indices1 := np.items (start_indices ra1) in
  let flat_array1 := np.items (flat_array ra1) in
  let start_indices2 := np.items (start_indices ra2) in
  let flat_array2 := np.items (flat_array ra2) in
  let n := Z.of_nat (length start_indices1) in
  let m1 := Z.of_nat (length flat_array1) in
  let m2 := Z.of_nat (length flat_array2) in
  map (fun k =>
         let i := Z.of_nat k in
         let start_index1 := np.item start_indices1 i in
         let stop_index1 :=
           if i <? n - 1 then np.item start_indices1 (i + 1) else m1 in
         let start_index2 := np.item start_indices2 i in
         let stop_index2 :=
           if i <? n - 1 then np.item start_indices2 (i + 1) else m2 in
         np.array_equal eq_item
           (np.slice flat_array1 start_index1 stop_index1)
           (np.slice flat_array2 start_index2 stop_index2))
      (seq 0 (Z.to_nat n)).

(** [__eq__] when [other] is a RaggedArray. *)
Definition RaggedArray_eq (self other : RaggedArray) : result (list bool) :=
  if negb (len other =? len self) then
    Raise (ValueError (Unequal_length (len self) (len other)))
  else Ok (_eq_ragged_ragged self other).

(** [for e1, e2 in zip(a1, a2)], and what is returned when the loop
    ends. *)
Fixpoint _lexograph_lt_zip (pairs : list (E * E)) (otherwise : bool) : bool :=
  match pairs with
  | [] => otherwise
  | (e1, e2) :: rest =>
      if lt_item e1 e2 then true
      else if lt_item e2 e1 then false
      else _lexograph_lt_zip rest otherwise
  end.

Definition _lexograph_lt (a1 a2 : list E) : bool :=
  _lexograph_lt_zip (combine a1 a2) (Nat.ltb (length a1) (length a2)).

(** What [_as_ragged_element_array] holds for one row: the scalar
    [np.nan] of a missing row, or the view [_RaggedElement(array)] of a
    row that is not missing. *)
Inductive cell : Type :=
| Nan_cell
| RaggedElement (array : list E).

(** [_RaggedElement.ragged_or_nan(a)] for the values it is applied to,
    those [__getitem__] returns: [np.nan] or an array, never [None]. *)
Definition ragged_or_nan (a : datum) : cell :=
  match a with
  | Row array => RaggedElement array
  | NaN | PyNone => Nan_cell
  end.

(** [_RaggedElement.__lt__] of the view of [self_array]; [None] is
    [NotImplemented], returned when [other] is not a view. *)
Definition RaggedElement_lt (self_array : list E) (other : cell)
  : option bool :=
  match other with
  | RaggedElement array => Some (_lexograph_lt self_array array)
  | Nan_cell => None
  end.

(** *** The data model: rows of a store *)

(** Row [j]'s half-open subrange [[row_start, row_stop)] of the value
    buffer, for [0 <= j < len]. *)
Definition row_start (s : RaggedArray) (j : nat) : Z :=
  nth j (np.items (start_indices s)) 0.

Definition row_stop (s : RaggedArray) (j : nat) : Z :=
  if Nat.eqb (S j) (length (np.items (start_indices s)))
  then Z.of_nat (length (np.items (flat_array s)))
  else nth (S j) (np.items (start_indices s)) 0.

Definition subrange (s : RaggedArray) (j : nat) : list E :=
  np.slice (np.items (flat_array s)) (row_start s j) (row_stop s j).

(** Row [j] as a value: the missing sentinel for a subrange whose two
    bounds coincide, the subrange otherwise. *)
Definition row_value (s : RaggedArray) (j : nat) : datum :=
  if row_start s j =? row_stop s j then NaN else Row (subrange s j).

(** The position an index in [[-N, N)] denotes, negative ones counted from
    the end. *)
Definition position (s : RaggedArray) (i : Z) : nat := Z.to_nat (i mod len s).

(** The elements a row contributes to the value buffer, and the start of
    every row when the rows are laid out back to back from [cursor]. *)
Definition datum_items (v : datum) : list E :=
  match v with
  | Row a => a
  | _ => []
  end.

Fixpoint cumulative_starts (cursor : Z) (data : list datum) : list Z :=
  match data with
  | [] => []
  | v :: rest => cursor :: cumulative_starts (cursor + datum_len v) rest
  end.

(** A row as a buffer of dtype [dtype] holds it: its elements
    converted. *)
Definition as_stored (dtype : np.dtype) (v : datum) : datum :=
  match v with
  | Row a => Row (map (astype dtype) a)
  | _ => v
  end.

Definition stored_items (dtype : np.dtype) (v : datum) : list E :=
  datum_items (as_stored dtype v).

(** The encoding of a sequence of rows: the start of every row, held in
    the smallest offset width for the number of elements, and the
    elements of the rows, converted, back to back. *)
Definition from_rows (data : list datum) (dtype : np.dtype) : RaggedArray :=
  let d := start_indices_dtype_for (buffer_len data) in
  mk_RaggedArray
    (np.array1 d (map (np.cast d) (cumulative_starts 0 data)))
    (np.array1 dtype (flat_map (stored_items dtype) data)).

(** What construction from a sequence of rows comes to: numpy refuses
    the offsets or the value buffer for their size; or a row is [None] or
    [np.nan] and the values are not floats, and the first such row raises
    numpy's conversion error; or the store is the encoding of the
    rows. *)
Definition storable (dtype : np.dtype) (v : datum) : bool :=
  match v with
  | Row _ => true
  | _ => np.kind_eqb (np.dtype_kind dtype) np.kind_f
  end.

Definition conversion_error (v : datum) : exn :=
  match v with
  | PyNone => TypeError Int_argument_is_NoneType
  | _ => ValueError Cannot_convert_float_NaN_to_integer
  end.

Definition store_of_rows (data : list datum) (dtype : np.dtype)
  : result RaggedArray :=
  match np.refused (Z.of_nat (length data))
                   (start_indices_dtype_for (buffer_len data)) with
  | Some e => Raise (ValueError e)
  | None =>
      match np.refused (buffer_len data) dtype with
      | Some e => Raise (ValueError e)
      | None =>
          match find (fun v => negb (storable dtype v)) data with
          | Some v => Raise (conversion_error v)
          | None => Ok (from_rows data dtype)
          end
      end
  end.

(** The offsets the specification asks of a concatenation: each input's
    own offsets shifted by the total length of the value buffers of the
    inputs before it. *)
Fixpoint shifted_start_indices (base : Z) (stores : list RaggedArray)
  : list Z :=
  match stores with
  | [] => []
  | ra :: rest =>
      map (Z.add base) (np.items (start_indices ra)) ++
      shifted_start_indices (base + np.len (flat_array ra)) rest
  end.

(** The total number of values of the inputs of a concatenation, and the
    number of values before each input. *)
Definition total_len (stores : list RaggedArray) : Z :=
  fold_right Z.add 0 (map (fun ra => np.len (flat_array ra)) stores).

Fixpoint bases_of (base : Z) (stores : list RaggedArray) : list Z :=
  match stores with
  | [] => []
  | ra :: rest => base :: bases_of (base + np.len (flat_array ra)) rest
  end.

(** Invariants 1 and 2 of the data model: 1-D buffers, unsigned offsets,
    none of them past the end of the value buffer. *)
Definition valid_store (s : RaggedArray) : Prop :=
  (exists w, np.dtype_of (start_indices s) = np.uint w) /\
  np.ndim (start_indices s) = 1%nat /\
  np.ndim (flat_array s) = 1%nat /\
  Forall (fun x => 0 <= x <= np.len (flat_array s))
         (np.items (start_indices s)).

(** The positions of a boolean mask whose entry is true, in increasing
    order. *)
Definition true_positions (mask : list bool) : list nat :=
  filter (fun i => nth i mask false) (seq 0 (length mask)).

(** *** The lexicographic order on rows, as the specification words it *)

(** All pairs compared over the common prefix of [a] and [b] are equal. *)
Definition equal_before (k : nat) (a b : list E) : Prop :=
  forall j x y, (j < k)%nat ->
    nth_error a j = Some x -> nth_error b j = Some y -> x = y.

(** [k] is the first position where [a] and [b] differ, and there the
    element of [a] is the smaller one. *)
Definition smaller_at_first_difference (a b : list E) : Prop :=
  exists k x y,
    nth_error a k = Some x /\ nth_error b k = Some y /\
    equal_before k a b /\ x <> y /\ lt_item x y = true.

(** No position of the common prefix differs, and [a] is the shorter. *)
Definition strictly_shorter_prefix (a b : list E) : Prop :=
  equal_before (Nat.min (length a) (length b)) a b /\
  (length a < length b)%nat.

End Ragged.

Arguments PyNone {E}.
Arguments NaN {E}.
Arguments Row {E} a.

(** ** The rest of the module

    Slices, [isna], [copy], [shift], the other branches of [__eq__] with
    their kernels, the array of row views and its way back to a store. *)

(** The exceptions these functions add to [exn]: numpy's ValueError for a
    slice of step zero and for operands that do not broadcast, the
    ValueError of [__eq__] for an operand it cannot compare with (it
    reports the length of the store), and the [IndexError(item)] that ends
    [__getitem__]. *)
Inductive error : Type :=
| Of_exn (e : exn)
| ValueError_slice_step_zero
| ValueError_broadcast (n m : Z)
| ValueError_cannot_check_equality (ra_len : Z)
| IndexError_item.

Inductive outcome (A : Type) : Type :=
| Returns (a : A)
| Raises (e : error).

Arguments Returns {A} a.
Arguments Raises {A} e.

Definition lift {A : Type} (r : result A) : outcome A :=
  match r with
  | Ok a => Returns a
  | Raise e => Raises (Of_exn e)
  end.

Definition and_then {A B : Type} (o : outcome A) (k : A -> outcome B)
  : outcome B :=
  match o with
  | Returns a => k a
  | Raises e => Raises e
  end.

Notation "x <~ o ;; k" := (and_then o (fun x => k))
  (at level 61, o at next level, right associativity).

Module npx.

(** The float64 nearest to an integer, ties to even: integers below
    [2^53] in absolute value are floats; a larger one keeps its 53 leading
    bits. *)
Definition round64 (v : Z) : Z :=
  let m := Z.abs v in
  if m <? 2 ^ 53 then v
  else
    let k := Z.log2 m - 52 in
    let q := m / 2 ^ k in
    let r := m mod 2 ^ k in
    let half := 2 ^ (k - 1) in
    let q' := if (half <? r) || ((r =? half) && Z.odd q) then q + 1 else q in
    Z.sgn v * (q' * 2 ^ k).

(** Broadcasting of two 1-D shapes: equal lengths, or one of them 1. *)
Definition broadcast (x y : list Z) : option (list (Z * Z)) :=
  if Nat.eqb (length x) (length y) then Some (combine x y)
  else match x, y with
       | [x0], _ => Some (map (fun v => (x0, v)) y)
       | _, [y0] => Some (map (fun u => (u, y0)) x)
       | _, _ => None
       end.

(** [a - b] for two 1-D arrays, in the promoted dtype: modular for an
    integer dtype, rounded for float64. *)
Definition subtract (a b : np.ndarray Z) : outcome (np.ndarray Z) :=
  let d := np.promote_types (np.dtype_of a) (np.dtype_of b) in
  match broadcast (np.items a) (np.items b) with
  | None => Raises (ValueError_broadcast (np.len a) (np.len b))
  | Some pairs =>
      Returns
        (np.array1 d
           (map (fun p =>
                   match d with
                   | np.float64 =>
                       round64 (round64 (fst p) - round64 (snd p))
                   | _ => np.cast d (fst p - snd p)
                   end) pairs))
  end.

(** A Python slice object; [None] for a bound or the step left out. *)
Record pyslice : Type := mk_pyslice {
  slice_start : option Z;
  slice_stop : option Z;
  slice_step : option Z
}.

(** One bound of a slice brought into the sequence of length [length]:
    a negative bound counts from the end, and what still falls outside is
    clipped towards the side the step walks away from. *)
Definition adjust_bound (length step i : Z) : Z :=
  if i <? 0 then
    let i' := i + length in
    if i' <? 0 then (if step <? 0 then -1 else 0) else i'
  else if i >=? length then (if step <? 0 then length - 1 else length)
  else i.

(** [range(start, stop, step)] for a step that is not zero. *)
Definition range (start stop step : Z) : list Z :=
  let count :=
    if step <? 0 then
      if stop <? start then (start - stop - 1) / (- step) + 1 else 0
    else
      if start <? stop then (stop - start - 1) / step + 1 else 0 in
  map (fun k => start + Z.of_nat k * step) (seq 0 (Z.to_nat count)).

(** [np.arange(n)[item]] for a slice [item]. *)
Definition arange_getitem (n : Z) (item : pyslice) : outcome (list Z) :=
  let step := match slice_step item with None => 1 | Some st => st end in
  if step =? 0 then Raises ValueError_slice_step_zero
  else
    let start :=
      match slice_start item with
      | None => if step <? 0 then n - 1 else 0
      | Some i => adjust_bound n step i
      end in
    let stop :=
      match slice_stop item with
      | None => if step <? 0 then -1 else n
      | Some i => adjust_bound n step i
      end in
    Returns (range start stop step).

End npx.

Section RaggedMore.

Context {E : Type} {convert : Astype E}.
Variable zero : E.
Variable eq_item : E -> E -> bool.

Abbreviation RaggedArray_ := (@RaggedArray E).

(** [__getitem__] for a slice. *)
Definition getitem_slice (self : RaggedArray_) (item : npx.pyslice)
  : outcome RaggedArray_ :=
  selected_indices <~ npx.arange_getitem (len self) item ;;
  data <~ lift (comprehension (getitem_int self) selected_indices) ;;
  lift (RaggedArray_init zero (Rows data) (np.dtype_of (flat_array self))).

(** What [__getitem__] is indexed with, and what it returns: one row, or
    a store. *)
Inductive getitem_arg : Type :=
| Item_int (i : Z)
| Item_slice (sl : npx.pyslice)
| Item_mask (mask : list bool)
| Item_list (indices : list Z)
| Item_other.

Inductive getitem_value : Type :=
| One_row (v : @datum E)
| Store (ra : RaggedArray_).

(** [__getitem__]: an integer, a slice, a boolean array, a list or array
    of integers, and anything else. *)
Definition getitem (self : RaggedArray_) (item : getitem_arg)
  : outcome getitem_value :=
  match item with
  | Item_int i => v <~ lift (getitem_int self i) ;; Returns (One_row v)
  | Item_slice sl => ra <~ getitem_slice self sl ;; Returns (Store ra)
  | Item_mask mask =>
      ra <~ lift (getitem_mask zero self mask) ;; Returns (Store ra)
  | Item_list indices =>
      ra <~ lift (take zero self indices false PyNone) ;; Returns (Store ra)
  | Item_other => Raises IndexError_item
  end.

(** [_from_sequence] *)
Definition _from_sequence (scalars : list (@datum E)) (dtype : np.dtype)
  : result RaggedArray_ :=
  RaggedArray_init zero (Rows scalars) dtype.

(** [copy]: construction from the pair of the store's own buffers. *)
Definition copy (self : RaggedArray_) : result RaggedArray_ :=
  RaggedArray_init zero
    (Dict (Ndarray (start_indices self)) (Ndarray (flat_array self)))
    (np.dtype_of (flat_array self)).

(** [isna]: the stop of every row (the start of the next one, the
    number of values for the last), minus its start, compared with 0. *)
Definition isna (self : RaggedArray_) : outcome (list bool) :=
  stop_indices <~
    lift (np.hstack
            [np.mk_ndarray (np.dtype_of (start_indices self)) 1
                           (tl (np.items (start_indices self)));
             np.array1 (np.int np.W64) [np.len (flat_array self)]]) ;;
  element_lengths <~ npx.subtract stop_indices (start_indices self) ;;
  Returns (map (fun x => x =? 0) (np.items element_lengths)).

(** [shift]. The fill store is built with [dtype=self.dtype], the
    RaggedDtype of the store, whose subtype the constructor takes: the
    dtype of the value buffer. *)
Definition shift (self : RaggedArray_) (periods : Z) (fill_value : @datum E)
  : outcome RaggedArray_ :=
  if (len self =? 0) || (periods =? 0) then lift (copy self)
  else
    let fill_value :=
      match fill_value with
      | PyNone => NaN
      | _ => fill_value
      end in
    empty <~
      lift (_from_sequence
              (repeat fill_value (Z.to_nat (Z.min (Z.abs periods) (len self))))
              (np.dtype_of (flat_array self))) ;;
    if periods >? 0 then
      let a := empty in
      b <~ getitem_slice self (npx.mk_pyslice None (Some (- periods)) None) ;;
      lift (_concat_same_type zero [a; b])
    else
      a <~ getitem_slice self
             (npx.mk_pyslice (Some (Z.abs periods)) None None) ;;
      let b := empty in
      lift (_concat_same_type zero [a; b]).

(** The bounds of row [i] as the three kernels below compute them. *)
Definition kernel_start (ra : RaggedArray_) (i : Z) : Z :=
  np.item (np.items (start_indices ra)) i.

Definition kernel_stop (ra : RaggedArray_) (i : Z) : Z :=
  if i <? Z.of_nat (length (np.items (start_indices ra))) - 1
  then np.item (np.items (start_indices ra)) (i + 1)
  else Z.of_nat (length (np.items (flat_array ra))).

(** [_eq_ragged_scalar]: every row against the one array [val]. *)
Definition _eq_ragged_scalar (ra : RaggedArray_) (val : list E) : list bool :=
  map (fun k =>
         let i := Z.of_nat k in
         np.array_equal eq_item
           (np.slice (np.items (flat_array ra))
                     (kernel_start ra i) (kernel_stop ra i))
           val)
      (seq 0 (length (np.items (start_indices ra)))).

(** An item of an object array: [None], [np.nan] or an array; or any
    other scalar (a number, a string), for which [np.isnan] or [len]
    raises TypeError. *)
Inductive object_item : Type :=
| Item (a_val : @datum E)
| Scalar_item.

(** [_eq_ragged_ndarray1d]: row [i] against item [i] of an object array
    that has the length of the store, for [i] in [range(n)]. *)
Definition _eq_ragged_ndarray1d (ra : RaggedArray_) (a : list object_item)
  : result (list bool) :=
  comprehension
    (fun k =>
       let i := Z.of_nat k in
       match nth k a Scalar_item with
       | Scalar_item => Raise (TypeError Scalar_item_of_object_array)
       | Item a_val =>
           Ok (if missing a_val || (datum_len a_val =? 0)
               then kernel_start ra i =? kernel_stop ra i
               else np.array_equal eq_item
                      (np.slice (np.items (flat_array ra))
                                (kernel_start ra i) (kernel_stop ra i))
                      (datum_items a_val))
       end)
    (seq 0 (length (np.items (start_indices ra)))).

(** [_eq_ragged_ndarray2d]: row [i] against row [i] of a 2-D array whose
    first dimension is the length of the store. *)
Definition _eq_ragged_ndarray2d (ra : RaggedArray_) (a : list (list E))
  : list bool :=
  map (fun k =>
         let i := Z.of_nat k in
         np.array_equal eq_item
           (np.slice (np.items (flat_array ra))
                     (kernel_start ra i) (kernel_stop ra i))
           (nth k a []))
      (seq 0 (length (np.items (start_indices ra)))).

(** The right operand of [==], once it is an array: a store; a 1-D array
    of elements; a 1-D object array; a 2-D array of elements, given by its
    rows; anything else. *)
Inductive eq_operand : Type :=
| Other_ragged (other : RaggedArray_)
| Other_array1 (other_array : list E)
| Other_objects (other_array : list object_item)
| Other_array2 (other_array : list (list E))
| Other_unsupported.

(** [__eq__] *)
Definition eq (self : RaggedArray_) (other : eq_operand)
  : outcome (list bool) :=
  match other with
  | Other_ragged ra => lift (RaggedArray_eq eq_item self ra)
  | Other_array1 other_array => Returns (_eq_ragged_scalar self other_array)
  | Other_objects other_array =>
      if Z.of_nat (length other_array) =? len self
      then lift (_eq_ragged_ndarray1d self other_array)
      else Raises (ValueError_cannot_check_equality (len self))
  | Other_array2 other_array =>
      if Z.of_nat (length other_array) =? len self
      then Returns (_eq_ragged_ndarray2d self other_array)
      else Raises (ValueError_cannot_check_equality (len self))
  | Other_unsupported => Raises (ValueError_cannot_check_equality (len self))
  end.

(** [__ne__] *)
Definition ne (self : RaggedArray_) (other : eq_operand)
  : outcome (list bool) :=
  mask <~ eq self other ;; Returns (map negb mask).

(** [_RaggedElement.array_or_nan] *)
Definition array_or_nan (a : @cell E) : @datum E :=
  match a with
  | Nan_cell => NaN
  | RaggedElement array => Row array
  end.

(** [_RaggedElement.__eq__] of the view of [self_array] *)
Definition RaggedElement_eq (self_array : list E) (other : @cell E) : bool :=
  match other with
  | RaggedElement array => np.array_equal eq_item self_array array
  | Nan_cell => false
  end.

(** [_as_ragged_element_array] *)
Definition _as_ragged_element_array (self : RaggedArray_)
  : result (list (@cell E)) :=
  comprehension
    (fun i => v <- getitem_int self i ;; Ok (ragged_or_nan v))
    (map Z.of_nat (seq 0 (Z.to_nat (len self)))).

(** [_from_factorized] *)
Definition _from_factorized (values : list (@cell E)) (original : RaggedArray_)
  : result RaggedArray_ :=
  RaggedArray_init zero (Rows (map array_or_nan values))
                   (np.dtype_of (flat_array original)).

(** The rows of a store, in order, as [__getitem__] returns them. *)
Definition rows_of (s : RaggedArray_) : list (@datum E) :=
  map (row_value s) (seq 0 (length (np.items (start_indices s)))).

(** A row as it is read back from a store of dtype [dtype] built with
    it: the missing sentinel for [None], [np.nan] and the empty array, and
    its elements converted otherwise. *)
Definition as_read_back (dtype : np.dtype) (v : @datum E) : @datum E :=
  if datum_len v =? 0 then NaN else Row (stored_items dtype v).

End RaggedMore.

(** ** Stores of integers used below *)

(** The elements are the integers that numpy holds as int64 values (as
    floats when the buffer is float64): conversion to an integer dtype
    reduces into its range, conversion to float64 rounds. *)
#[export] Instance astype_Z : Astype Z :=
  fun d v =>
    match d with
    | np.float64 => npx.round64 v
    | _ => np.cast d v
    end.

Definition int64 : np.dtype := np.int np.W64.

Definition rows_of_int64 (data : list (@datum Z)) : @RaggedArray Z :=
  from_rows data int64.

(** [[1, 2], None, [], [3]] with float64 values, the dtype that holds a
    missing row given as [None]. *)
Definition example_store : @RaggedArray Z :=
  from_rows [Row [1; 2]; PyNone; Row []; Row [3]] np.float64.

Definition empty_store : @RaggedArray Z := from_rows [] np.float64.

(** [[1, 2], [], [3]] with int64 values: the empty row reads as a
    missing one. *)
Definition int_store : @RaggedArray Z :=
  rows_of_int64 [Row [1; 2]; Row []; Row [3]].

(** One row of 100 elements; one row of 200 elements; rows of 200 and of
    50 elements. Each holds its offsets on 8 bits. *)
Definition store_100 : @RaggedArray Z := rows_of_int64 [Row (repeat 2 100)].

Definition store_200 : @RaggedArray Z := rows_of_int64 [Row (repeat 1 200)].

Definition store_200_50 : @RaggedArray Z :=
  rows_of_int64 [Row (repeat 3 200); Row (repeat 4 50)].

(** Eleven offsets, the last of which points past a buffer of one value. *)
Definition late_offender : pyobject Z :=
  Ndarray (np.array1 (np.uint np.W8) [0; 0; 0; 0; 0; 0; 0; 0; 0; 0; 9]).

Definition one_value : pyobject Z := Ndarray (np.array1 int64 [1]).



(** Floats with nan: an integer-valued float or nan, with numpy's [<],
    false whenever an operand is nan. *)
Inductive float_item : Type :=
| Float_nan
| Float_of (v : Z).

Definition float_lt (x y : float_item) : bool :=
  match x, y with
  | Float_of a, Float_of b => a <? b
  | _, _ => false
  end.

(** * Properties *)

Section RaggedFacts.

Context {E : Type}.

Abbreviation store := (@RaggedArray E).

(** ** Indexing by an integer *)

Lemma len_nonneg (s : store) : 0 <= len s.
Proof. unfold len, np.len. lia. Qed.

Lemma position_nonneg (s : store) (i : Z) :
  0 <= i < len s -> position s i = Z.to_nat i.
Proof.
  intros H. unfold position. rewrite Z.mod_small by lia. reflexivity.
Qed.

Lemma position_neg (s : store) (i : Z) :
  - len s <= i < 0 -> position s i = Z.to_nat (i + len s).
Proof.
  intros H. unfold position.
  replace (i mod len s) with ((i + 1 * len s) mod len s)
    by (apply Z.mod_add; lia).
  rewrite Z.mod_small by lia. f_equal. lia.
Qed.

Lemma position_lt (s : store) (i : Z) :
  - len s <= i < len s ->
  (position s i < length (np.items (start_indices s)))%nat.
Proof.
  intros H. unfold position.
  assert (0 <= i mod len s < len s) by (apply Z.mod_pos_bound; lia).
  unfold len, np.len in *. lia.
Qed.

(** The code of [__getitem__] computes the bounds of row [j]. *)
Lemma getitem_int_in_range (s : store) (j : Z) :
  0 <= j < len s ->
  getitem_int s j = Ok (row_value s (Z.to_nat j)).
Proof.
  intros H. unfold getitem_int.
  replace ((j <? - len s) || (j >=? len s)) with false
    by (symmetry; apply orb_false_iff; split; lia).
  replace (j <? 0) with false by lia.
  unfold row_value, subrange, row_start, row_stop, np.item, len, np.len in *.
  replace (Z.to_nat (j + 1)) with (S (Z.to_nat j)) by lia.
  destruct (Nat.eqb_spec (S (Z.to_nat j))
              (length (np.items (start_indices s)))) as [e | ne].
  - replace (j + 1 <=? Z.of_nat (length (np.items (start_indices s))) - 1)
      with false by lia.
    rewrite (Z.eqb_sym (Z.of_nat _)).
    destruct (_ =? _); reflexivity.
  - replace (j + 1 <=? Z.of_nat (length (np.items (start_indices s))) - 1)
      with true by lia.
    rewrite (Z.eqb_sym (nth (S _) _ _)).
    destruct (_ =? _); reflexivity.
Qed.

Lemma getitem_int_negative (s : store) (i : Z) :
  - len s <= i < 0 ->
  getitem_int s i = getitem_int s (i + len s).
Proof.
  intros H. unfold getitem_int.
  replace ((i <? - len s) || (i >=? len s)) with false
    by (symmetry; apply orb_false_iff; split; lia).
  replace ((i + len s <? - len s) || (i + len s >=? len s)) with false
    by (symmetry; apply orb_false_iff; split; lia).
  replace (i <? 0) with true by lia.
  replace (i + len s <? 0) with false by lia.
  reflexivity.
Qed.

Lemma getitem_int_out_of_range (s : store) (i : Z) :
  i < - len s \/ len s <= i ->
  getitem_int s i = Raise (IndexError (Item_out_of_bounds i)).
Proof.
  intros H. unfold getitem_int.
  replace ((i <? - len s) || (i >=? len s)) with true; [reflexivity|].
  symmetry; apply orb_true_iff. destruct H; [left | right]; lia.
Qed.

Lemma getitem_int_position (s : store) (i : Z) :
  - len s <= i < len s ->
  getitem_int s i = Ok (row_value s (position s i)).
Proof.
  intros H. destruct (Z.ltb_spec i 0).
  - rewrite getitem_int_negative, position_neg by lia.
    apply getitem_int_in_range. lia.
  - rewrite position_nonneg by lia. apply getitem_int_in_range. lia.
Qed.

Lemma row_value_NaN (s : store) (j : nat) :
  row_value s j = NaN <-> row_start s j = row_stop s j.
Proof.
  unfold row_value. destruct (Z.eqb_spec (row_start s j) (row_stop s j)).
  - tauto.
  - split; [discriminate | contradiction].
Qed.

(** C4. For a store of length N and an integer i: when i lies in [-N, N),
    get(i) returns the row at the position i denotes (negative i counted
    from the end), which is the subrange values[start:stop] of that row, or
    the missing sentinel exactly when start = stop; when i lies outside
    [-N, N), get(i) fails with IndexError. *)
Theorem C4_get_row_or_IndexError (s : store) (i : Z) :
  (- len s <= i < len s ->
   let j := position s i in
   (0 <= i -> j = Z.to_nat i) /\
   (i < 0 -> j = Z.to_nat (i + len s)) /\
   (row_start s j <> row_stop s j ->
    getitem_int s i =
      Ok (Row (np.slice (np.items (flat_array s))
                        (row_start s j) (row_stop s j)))) /\
   (getitem_int s i = Ok NaN <-> row_start s j = row_stop s j)) /\
  (i < - len s \/ len s <= i ->
   getitem_int s i = Raise (IndexError (Item_out_of_bounds i))).
Proof.
  split.
  - intros H j.
    split; [intros; apply position_nonneg; lia|].
    split; [intros; apply position_neg; lia|].
    pose proof (getitem_int_position s i H) as G. fold j in G.
    split.
    + intros ne. rewrite G. unfold row_value.
      destruct (Z.eqb_spec (row_start s j) (row_stop s j));
        [contradiction | reflexivity].
    + rewrite G. rewrite <- row_value_NaN. split; congruence.
  - apply getitem_int_out_of_range.
Qed.

(** ** Boolean-mask selection *)

Lemma mask_loop_in_range (s : store) (mask : list bool) :
  forall (k : nat) (acc : list (@datum E)),
    (k + length mask <= length (np.items (start_indices s)))%nat ->
    mask_loop s (combine (seq k (length mask)) mask) acc =
      Ok (acc ++ map (row_value s)
                     (filter (fun i => nth (i - k) mask false)
                             (seq k (length mask)))).
Proof.
  induction mask as [| m mask IH]; intros k acc Hk.
  - simpl. rewrite app_nil_r. reflexivity.
  - simpl in Hk. cbn [length seq combine mask_loop filter].
    rewrite Nat.sub_diag. change (nth 0 (m :: mask) false) with m.
    assert (filter (fun i => nth (i - k) (m :: mask) false)
                   (seq (S k) (length mask)) =
            filter (fun i => nth (i - S k) mask false)
                   (seq (S k) (length mask))) as Hf.
    { apply filter_ext_in. intros i Hi. apply in_seq in Hi.
      replace (i - k)%nat with (S (i - S k)) by lia. reflexivity. }
    rewrite Hf. destruct m.
    + rewrite getitem_int_in_range by (unfold len, np.len; lia).
      rewrite Nat2Z.id. cbn [bind].
      rewrite IH by lia. rewrite <- app_assoc. reflexivity.
    + apply IH. lia.
Qed.


Section Construction.

(** The conversions of the element type, and its zero, with which
    [np.zeros] fills the value buffer before the rows are written. *)
Context {convert : Astype E}.
Variable zero : E.

(** ** Comprehensions that may raise *)




Lemma getitem_int_only_IndexError (s : store) (i : Z) :
  only_IndexError (getitem_int s i) = true.
Proof.
  unfold getitem_int. destruct (_ || _); reflexivity.
Qed.

(** ** Construction from rows *)

Lemma datum_len_nonneg (v : @datum E) : 0 <= datum_len v.
Proof. destruct v; simpl; lia. Qed.

Lemma datum_len_items (v : @datum E) :
  datum_len v = Z.of_nat (length (datum_items v)).
Proof. destruct v; reflexivity. Qed.

Lemma buffer_len_cons (v : @datum E) (data : list (@datum E)) :
  buffer_len (v :: data) = datum_len v + buffer_len data.
Proof. reflexivity. Qed.

Lemma buffer_len_nonneg (data : list (@datum E)) : 0 <= buffer_len data.
Proof.
  induction data as [| v data IH]; [reflexivity|].
  rewrite buffer_len_cons. pose proof (datum_len_nonneg v). lia.
Qed.

Lemma set_item_app {A : Type} (l1 l2 : list A) (x y : A) :
  np.set_item (l1 ++ x :: l2) (length l1) y = l1 ++ y :: l2.
Proof.
  induction l1 as [| a l1 IH]; simpl; [reflexivity|].
  rewrite IH. reflexivity.
Qed.

Lemma set_slice_app {A : Type} (l1 old l2 v : list A) (start stop : Z) :
  Z.of_nat (length l1) = start ->
  stop = start + Z.of_nat (length old) ->
  np.set_slice (l1 ++ old ++ l2) start stop v = l1 ++ v ++ l2.
Proof.
  intros H1 H2. unfold np.set_slice.
  replace (Z.to_nat start) with (length l1) by lia.
  replace (Z.to_nat stop) with (length (l1 ++ old))
    by (rewrite length_app; lia).
  rewrite firstn_app, Nat.sub_diag, firstn_all, firstn_O, app_nil_r.
  rewrite (app_assoc l1 old l2), skipn_app, Nat.sub_diag, skipn_all, skipn_O.
  reflexivity.
Qed.

Lemma datum_len_stored (dtype : np.dtype) (v : @datum E) :
  datum_len (as_stored dtype v) = datum_len v.
Proof. destruct v; simpl; rewrite ?length_map; reflexivity. Qed.

Lemma stored_items_length (dtype : np.dtype) (v : @datum E) :
  Z.of_nat (length (stored_items dtype v)) = datum_len v.
Proof.
  unfold stored_items. rewrite <- datum_len_items. apply datum_len_stored.
Qed.

(** A row that cannot be stored is [None] or [np.nan], of length 0; a
    row that can is written over the zeros in its place. *)
Lemma setitem_slice_refuses (dtype : np.dtype) (flat : list E)
  (start stop : Z) (v : @datum E) :
  storable dtype v = false ->
  setitem_slice dtype flat start stop v = Raise (conversion_error v).
Proof.
  unfold storable, setitem_slice.
  destruct v; try discriminate; destruct (np.dtype_kind dtype);
    simpl; intros H; try discriminate; reflexivity.
Qed.

Lemma setitem_slice_stores (dtype : np.dtype) (done_fa rest_fa : list E)
  (cursor : Z) (v : @datum E) :
  storable dtype v = true ->
  Z.of_nat (length done_fa) = cursor ->
  setitem_slice dtype
    (done_fa ++ repeat zero (Z.to_nat (datum_len v)) ++ rest_fa)
    cursor (cursor + datum_len v) v =
    Ok (done_fa ++ stored_items dtype v ++ rest_fa).
Proof.
  intros Hs Hc. unfold storable in Hs.
  destruct v as [| | a]; cbn [setitem_slice datum_len].
  - destruct (np.dtype_kind dtype); try discriminate. reflexivity.
  - destruct (np.dtype_kind dtype); try discriminate. reflexivity.
  - rewrite Nat2Z.id. f_equal.
    apply (set_slice_app done_fa (repeat zero (length a)));
      [assumption | rewrite repeat_length; reflexivity].
Qed.

(** The population loop, started anywhere: with [k] rows written and the
    cursor at the end of what they wrote, it stops at the first remaining
    row that cannot be stored, and otherwise writes the start and the
    elements of every remaining row. *)
Lemma populate_spec (d dtype : np.dtype) (rest : list (@datum E)) :
  forall (done_si : list Z) (done_fa : list E) (cursor : Z),
    Z.of_nat (length done_fa) = cursor ->
    populate d dtype
      (combine (seq (length done_si) (length rest)) rest)
      (mk_populate_state cursor
         (done_si ++ repeat 0 (length rest))
         (done_fa ++ repeat zero (Z.to_nat (buffer_len rest)))) =
    match find (fun v => negb (storable dtype v)) rest with
    | Some v => Raise (conversion_error v)
    | None =>
        Ok (mk_populate_state (cursor + buffer_len rest)
              (done_si ++ map (np.cast d) (cumulative_starts cursor rest))
              (done_fa ++ flat_map (stored_items dtype) rest))
    end.
Proof.
  induction rest as [| v rest IH]; intros done_si done_fa cursor Hc.
  - simpl. rewrite !app_nil_r, Z.add_0_r. reflexivity.
  - cbn [length seq combine populate repeat find].
    unfold populate_step.
    cbn [next_start_ind st_start_indices st_flat_array].
    destruct (storable dtype v) eqn:Hs; cbn [negb].
    + rewrite buffer_len_cons.
      pose proof (buffer_len_nonneg rest) as Hr.
      pose proof (datum_len_nonneg v) as Hv.
      rewrite Z2Nat.inj_add, repeat_app by lia.
      rewrite setitem_slice_stores by assumption. cbn [bind].
      rewrite set_item_app.
      replace (done_si ++ np.cast d cursor :: repeat 0 (length rest))
        with ((done_si ++ [np.cast d cursor]) ++ repeat 0 (length rest))
        by (rewrite <- app_assoc; reflexivity).
      replace (S (length done_si))
        with (length (done_si ++ [np.cast d cursor]))
        by (rewrite length_app; simpl; lia).
      rewrite (app_assoc done_fa).
      rewrite IH
        by (rewrite length_app, Nat2Z.inj_add, stored_items_length; lia).
      destruct (find _ rest); [reflexivity|].
      cbn [cumulative_starts flat_map].
      rewrite <- !app_assoc, Z.add_assoc. reflexivity.
    + rewrite setitem_slice_refuses by assumption. reflexivity.
Qed.

(** Construction from rows is what [store_of_rows] describes. *)
Lemma init_rows_spec (data : list (@datum E)) (dtype : np.dtype) :
  RaggedArray_init zero (Rows data) dtype = store_of_rows data dtype.
Proof.
  unfold RaggedArray_init, store_of_rows, np.zeros. cbv zeta.
  destruct (np.refused (Z.of_nat (length data)) _); [reflexivity|].
  destruct (np.refused (buffer_len data) dtype); [reflexivity|].
  cbn [bind np.items np.array1]. unfold enumerate. rewrite Nat2Z.id.
  pose proof (populate_spec (start_indices_dtype_for (buffer_len data))
                dtype data [] [] 0 eq_refl) as H.
  cbn [app length] in H. rewrite H.
  destruct (find _ data); reflexivity.
Qed.

Lemma find_none_storable (dtype : np.dtype) (data : list (@datum E)) :
  find (fun v => negb (storable dtype v)) data = None <->
  Forall (fun v => storable dtype v = true) data.
Proof.
  induction data as [| v data IH]; simpl.
  - split; [constructor | reflexivity].
  - destruct (storable dtype v) eqn:Hs; simpl.
    + rewrite IH. split; [constructor; assumption|].
      intros H. inversion H; assumption.
    + split; [discriminate|]. intros H. inversion H; congruence.
Qed.

(** When construction returns, and what. *)
Lemma store_of_rows_Ok (data : list (@datum E)) (dtype : np.dtype)
  (s : store) :
  store_of_rows data dtype = Ok s <->
  np.refused (Z.of_nat (length data))
             (start_indices_dtype_for (buffer_len data)) = None /\
  np.refused (buffer_len data) dtype = None /\
  Forall (fun v => storable dtype v = true) data /\
  s = from_rows data dtype.
Proof.
  unfold store_of_rows. rewrite <- find_none_storable.
  destruct (np.refused (Z.of_nat (length data)) _);
    [split; [discriminate | intros [H _]; discriminate]|].
  destruct (np.refused (buffer_len data) dtype);
    [split; [discriminate | intros [_ [H _]]; discriminate]|].
  destruct (find _ data);
    [split; [discriminate | intros [_ [_ [H _]]]; discriminate]|].
  split.
  - intros H. injection H as <-. repeat split.
  - intros [_ [_ [_ ->]]]. reflexivity.
Qed.




Lemma cumulative_starts_bounds (data : list (@datum E)) :
  forall cursor, 0 <= cursor ->
    Forall (fun x => 0 <= x <= cursor + buffer_len data)
           (cumulative_starts cursor data).
Proof.
  induction data as [| v data IH]; intros cursor Hc; [constructor|].
  cbn [cumulative_starts]. rewrite buffer_len_cons.
  pose proof (datum_len_nonneg v). pose proof (buffer_len_nonneg data).
  constructor; [lia|].
  eapply Forall_impl; [|apply IH; lia]. simpl. intros x Hx. lia.
Qed.

Lemma iinfo_max_uint (w : np.width) :
  np.iinfo_max (np.uint w) =
    match w with
    | np.W8 => 255
    | np.W16 => 65535
    | np.W32 => 4294967295
    | np.W64 => 18446744073709551615
    end.
Proof. destruct w; reflexivity. Qed.

(** The width loop stops at the first width that holds [m]. *)
Lemma start_indices_dtype_smallest (m : Z) :
  m <= np.iinfo_max (np.uint np.W64) ->
  exists w,
    start_indices_dtype_for m = np.uint w /\
    m <= np.iinfo_max (np.uint w) /\
    forall w', m <= np.iinfo_max (np.uint w') -> np.nbits w <= np.nbits w'.
Proof.
  intros H. unfold start_indices_dtype_for, for_nbits.
  rewrite !iinfo_max_uint in *.
  destruct (Z.leb_spec m 255);
    [exists np.W8 | destruct (Z.leb_spec m 65535);
      [exists np.W16 | destruct (Z.leb_spec m 4294967295);
        [exists np.W32 | exists np.W64;
           replace (m <=? 18446744073709551615) with true by lia]]];
    (split; [reflexivity|]); rewrite iinfo_max_uint;
    (split; [assumption|]);
    intros w'; rewrite iinfo_max_uint; destruct w'; simpl; lia.
Qed.

(** Past the 64-bit maximum the loop runs out of widths and keeps the
    last one. *)
Lemma start_indices_dtype_overflow (m : Z) :
  np.iinfo_max (np.uint np.W64) < m ->
  start_indices_dtype_for m = np.uint np.W64.
Proof.
  intros H. unfold start_indices_dtype_for, for_nbits.
  rewrite !iinfo_max_uint in *.
  replace (m <=? 255) with false by lia.
  replace (m <=? 65535) with false by lia.
  replace (m <=? 4294967295) with false by lia.
  replace (m <=? 18446744073709551615) with false by lia.
  reflexivity.
Qed.

Lemma cast_uint_small (w : np.width) (x : Z) :
  0 <= x <= np.iinfo_max (np.uint w) -> np.cast (np.uint w) x = x.
Proof.
  intros H. unfold np.cast. apply Z.mod_small.
  unfold np.iinfo_max in H. lia.
Qed.

Lemma cast_uint_all_small (w : np.width) (l : list Z) (m : Z) :
  m <= np.iinfo_max (np.uint w) ->
  Forall (fun x => 0 <= x <= m) l ->
  map (np.cast (np.uint w)) l = l.
Proof.
  intros Hm H. induction H as [| x l Hx _ IH]; [reflexivity|].
  cbn [map]. rewrite IH, cast_uint_small by lia. reflexivity.
Qed.

(** X25. What construction from a sequence of rows comes to, when numpy
    accepts the sizes of the two buffers: it returns the encoding of the
    rows when every row can be stored, and it raises at the first row
    that cannot, TypeError for [None] and ValueError for [np.nan], rows
    that only a buffer of floats takes. *)
Theorem construction_outcome (data : list (@datum E)) (dtype : np.dtype) :
  np.refused (Z.of_nat (length data))
             (start_indices_dtype_for (buffer_len data)) = None ->
  np.refused (buffer_len data) dtype = None ->
  (Forall (fun v => storable dtype v = true) data ->
   RaggedArray_init zero (Rows data) dtype = Ok (from_rows data dtype)) /\
  (forall before v after,
     data = before ++ v :: after ->
     Forall (fun u => storable dtype u = true) before ->
     storable dtype v = false ->
     np.dtype_kind dtype <> np.kind_f /\
     RaggedArray_init zero (Rows data) dtype =
       Raise (match v with
              | PyNone => TypeError Int_argument_is_NoneType
              | _ => ValueError Cannot_convert_float_NaN_to_integer
              end)).
Proof.
  intros H1 H2. rewrite init_rows_spec. unfold store_of_rows.
  rewrite H1, H2. split.
  - intros Hall. apply find_none_storable in Hall. rewrite Hall.
    reflexivity.
  - intros before v after -> Hb Hv. split.
    + intros Hk. unfold storable in Hv. rewrite Hk in Hv.
      destruct v; discriminate.
    + assert (find (fun u => negb (storable dtype u)) (before ++ v :: after)
              = Some v) as ->.
      { clear H1 H2. induction Hb as [| u l Hu _ IH]; simpl.
        - rewrite Hv. reflexivity.
        - rewrite Hu. simpl. exact IH. }
      reflexivity.
Qed.


(** ** Round trip and layout of a constructed store *)

Lemma cumulative_starts_length (data : list (@datum E)) :
  forall cursor, length (cumulative_starts cursor data) = length data.
Proof.
  induction data as [| v data IH]; intros cursor; [reflexivity|].
  simpl. rewrite IH. reflexivity.
Qed.

Lemma buffer_len_app (l1 l2 : list (@datum E)) :
  buffer_len (l1 ++ l2) = buffer_len l1 + buffer_len l2.
Proof.
  induction l1 as [| v l1 IH]; [reflexivity|].
  rewrite <- app_comm_cons, !buffer_len_cons, IH. lia.
Qed.

Lemma cumulative_starts_nth (data : list (@datum E)) :
  forall cursor i, (i < length data)%nat ->
    nth i (cumulative_starts cursor data) 0 =
      cursor + buffer_len (firstn i data).
Proof.
  induction data as [| v data IH]; intros cursor i Hi; [simpl in Hi; lia|].
  destruct i as [| i].
  - simpl. unfold buffer_len. simpl. lia.
  - cbn [cumulative_starts nth firstn]. simpl in Hi.
    rewrite IH by lia. rewrite buffer_len_cons. lia.
Qed.

Lemma flat_map_items_length (data : list (@datum E)) :
  Z.of_nat (length (flat_map datum_items data)) = buffer_len data.
Proof.
  induction data as [| v data IH]; [reflexivity|].
  cbn [flat_map]. rewrite length_app, buffer_len_cons, (datum_len_items v).
  lia.
Qed.

Lemma split_at_nth (data : list (@datum E)) (i : nat) :
  (i < length data)%nat ->
  data = firstn i data ++ nth i data NaN :: skipn (S i) data.
Proof.
  revert i. induction data as [| v data IH]; intros i Hi; [simpl in Hi; lia|].
  destruct i as [| i]; [reflexivity|].
  simpl in Hi. cbn [firstn nth skipn app]. f_equal. apply IH. lia.
Qed.

Lemma buffer_len_firstn_S (data : list (@datum E)) (i : nat) :
  (i < length data)%nat ->
  buffer_len (firstn (S i) data) =
    buffer_len (firstn i data) + datum_len (nth i data NaN).
Proof.
  revert i. induction data as [| v data IH]; intros i Hi; [simpl in Hi; lia|].
  destruct i as [| i].
  - cbn [firstn nth]. rewrite buffer_len_cons.
    change (buffer_len (@nil (@datum E))) with 0. lia.
  - simpl in Hi. cbn [nth].
    change (firstn (S (S i)) (v :: data)) with (v :: firstn (S i) data).
    change (firstn (S i) (v :: data)) with (v :: firstn i data).
    rewrite !buffer_len_cons, IH by lia. lia.
Qed.

Lemma slice_of_row (data : list (@datum E)) (i : nat) :
  (i < length data)%nat ->
  np.slice (flat_map datum_items data)
           (buffer_len (firstn i data))
           (buffer_len (firstn i data) + datum_len (nth i data NaN)) =
    datum_items (nth i data NaN).
Proof.
  intros Hi. unfold np.slice.
  replace (flat_map datum_items data)
    with (flat_map datum_items
            (firstn i data ++ nth i data NaN :: skipn (S i) data))
    by (rewrite <- split_at_nth by assumption; reflexivity).
  rewrite flat_map_app. cbn [flat_map].
  rewrite <- flat_map_items_length, Nat2Z.id.
  rewrite skipn_app, skipn_all, Nat.sub_diag, skipn_O. cbn [app].
  rewrite (datum_len_items (nth i data NaN)).
  replace (Z.to_nat (Z.of_nat (length (flat_map datum_items (firstn i data))) +
                     Z.of_nat (length (datum_items (nth i data NaN))) -
                     Z.of_nat (length (flat_map datum_items (firstn i data)))))
    with (length (datum_items (nth i data NaN))) by lia.
  rewrite firstn_app, Nat.sub_diag, firstn_all, firstn_O, app_nil_r.
  reflexivity.
Qed.

Lemma cumulative_starts_stored (dtype : np.dtype) (data : list (@datum E)) :
  forall cursor,
    cumulative_starts cursor (map (as_stored dtype) data) =
    cumulative_starts cursor data.
Proof.
  induction data as [| v data IH]; intros cursor; [reflexivity|].
  cbn [map cumulative_starts]. rewrite datum_len_stored, IH. reflexivity.
Qed.

Lemma flat_map_stored (dtype : np.dtype) (data : list (@datum E)) :
  flat_map (stored_items dtype) data =
  flat_map datum_items (map (as_stored dtype) data).
Proof.
  induction data as [| v data IH]; [reflexivity|].
  cbn [map flat_map]. rewrite IH. reflexivity.
Qed.

Lemma buffer_len_stored (dtype : np.dtype) (data : list (@datum E)) :
  buffer_len (map (as_stored dtype) data) = buffer_len data.
Proof.
  induction data as [| v data IH]; [reflexivity|].
  cbn [map]. rewrite !buffer_len_cons, datum_len_stored, IH. reflexivity.
Qed.

(** The encoding of rows whose elements fit 64-bit offsets holds the
    exact row starts and the rows' elements, converted, back to back. *)
Lemma from_rows_exact (data : list (@datum E)) (dtype : np.dtype) :
  buffer_len data <= np.iinfo_max (np.uint np.W64) ->
  np.items (start_indices (from_rows data dtype)) =
    cumulative_starts 0 data /\
  np.items (flat_array (from_rows data dtype)) =
    flat_map (stored_items dtype) data /\
  np.ndim (start_indices (from_rows data dtype)) = 1%nat /\
  np.ndim (flat_array (from_rows data dtype)) = 1%nat /\
  exists w, np.dtype_of (start_indices (from_rows data dtype)) = np.uint w.
Proof.
  intros H. unfold from_rows. cbv zeta.
  cbn [start_indices flat_array np.items np.ndim np.dtype_of np.array1].
  destruct (start_indices_dtype_smallest _ H) as [w [Hw [Hle _]]].
  rewrite Hw. repeat split; [|exists w; reflexivity].
  apply (cast_uint_all_small w _ (0 + buffer_len data)); [lia|].
  apply cumulative_starts_bounds. lia.
Qed.

(** Row [i] of any store whose two buffers hold the layout of [data]:
    its two bounds and its subrange. *)
Lemma layout_row (r : store) (data : list (@datum E)) (i : nat) :
  np.items (start_indices r) = cumulative_starts 0 data ->
  np.items (flat_array r) = flat_map datum_items data ->
  (i < length data)%nat ->
  row_start r i = buffer_len (firstn i data) /\
  row_stop r i = buffer_len (firstn i data) + datum_len (nth i data NaN) /\
  subrange r i = datum_items (nth i data NaN).
Proof.
  intros Hsi Hfa Hi.
  assert (row_start r i = buffer_len (firstn i data)) as Hstart.
  { unfold row_start. rewrite Hsi, cumulative_starts_nth by assumption. lia. }
  assert (row_stop r i =
          buffer_len (firstn i data) + datum_len (nth i data NaN)) as Hstop.
  { unfold row_stop. rewrite Hsi, Hfa, cumulative_starts_length.
    rewrite <- buffer_len_firstn_S by assumption.
    destruct (Nat.eqb_spec (S i) (length data)) as [e | ne].
    - rewrite e, firstn_all. apply flat_map_items_length.
    - rewrite cumulative_starts_nth by lia. lia. }
  split; [exact Hstart | split; [exact Hstop|]].
  unfold subrange. rewrite Hstart, Hstop, Hfa.
  apply slice_of_row. exact Hi.
Qed.

Lemma nth_stored (dtype : np.dtype) (data : list (@datum E)) (i : nat) :
  nth i (map (as_stored dtype) data) NaN = as_stored dtype (nth i data NaN).
Proof. exact (map_nth (as_stored dtype) data NaN i). Qed.

(** Reading row [i] of any store whose two buffers hold the encoding of
    [data] with values of dtype [dtype]. *)
Lemma read_back_layout (r : store) (data : list (@datum E))
  (dtype : np.dtype) (i : nat) :
  np.items (start_indices r) = cumulative_starts 0 data ->
  np.items (flat_array r) = flat_map (stored_items dtype) data ->
  (i < length data)%nat ->
  getitem_int r (Z.of_nat i) = Ok (as_read_back dtype (nth i data NaN)).
Proof.
  intros Hsi Hfa Hi.
  rewrite <- (cumulative_starts_stored dtype) in Hsi.
  rewrite flat_map_stored in Hfa.
  assert (i < length (map (as_stored dtype) data))%nat as Hi'
    by (rewrite length_map; exact Hi).
  destruct (layout_row r _ i Hsi Hfa Hi') as [Hstart [Hstop Hsub]].
  rewrite nth_stored, datum_len_stored in *.
  assert (len r = Z.of_nat (length data)) as Hlen.
  { unfold len, np.len.
    rewrite Hsi, cumulative_starts_length, length_map. reflexivity. }
  rewrite getitem_int_in_range by lia. rewrite Nat2Z.id. f_equal.
  unfold row_value, as_read_back, stored_items. rewrite Hsub, Hstart, Hstop.
  pose proof (datum_len_nonneg (nth i data NaN)).
  destruct (Z.eqb_spec (datum_len (nth i data NaN)) 0) as [e | ne].
  - rewrite e, Z.add_0_r, Z.eqb_refl. reflexivity.
  - destruct (Z.eqb_spec
                (buffer_len (firstn i (map (as_stored dtype) data)))
                (buffer_len (firstn i (map (as_stored dtype) data)) +
                 datum_len (nth i data NaN)));
      [lia | reflexivity].
Qed.

(** X1. Round trip: when construction from a sequence of rows returns a
    store, the store has one row per row of the sequence and get(i)
    returns row i of the sequence with its elements converted to the
    dtype of the values, and the missing sentinel for a row that was
    missing or empty. *)
Theorem from_rows_round_trip (data : list (@datum E)) (dtype : np.dtype)
  (s : store) (i : nat) :
  RaggedArray_init zero (Rows data) dtype = Ok s ->
  (i < length data)%nat ->
  len s = Z.of_nat (length data) /\
  getitem_int s (Z.of_nat i) =
    Ok (if datum_len (nth i data NaN) =? 0 then NaN
        else Row (map (astype dtype) (datum_items (nth i data NaN)))).
Proof.
  intros Hs Hi. rewrite init_rows_spec in Hs.
  apply store_of_rows_Ok in Hs. destruct Hs as [_ [Hr [_ ->]]].
  assert (buffer_len data <= np.iinfo_max (np.uint np.W64)) as HM.
  { unfold np.refused, np.intp_max in Hr.
    assert (2 ^ 63 - 1 < np.iinfo_max (np.uint np.W64))
      by (vm_compute; reflexivity).
    destruct (Z.ltb_spec (2 ^ 63 - 1) (buffer_len data));
      [discriminate | lia]. }
  destruct (from_rows_exact data dtype HM) as [Hsi [Hfa _]].
  split.
  - unfold len, np.len. rewrite Hsi, cumulative_starts_length. reflexivity.
  - rewrite (read_back_layout _ data dtype i Hsi Hfa Hi).
    unfold as_read_back, stored_items.
    destruct (nth i data NaN); reflexivity.
Qed.

Lemma any_greater_false (l : list Z) (m : Z) :
  np.any (np.greater l m) = false <-> Forall (fun x => x <= m) l.
Proof.
  unfold np.any, np.greater. induction l as [| x l IH]; simpl.
  - split; [constructor | reflexivity].
  - rewrite orb_false_iff, IH. split.
    + intros [H1 H2]. constructor; [lia | assumption].
    + intros H. inversion H; subst. split; [lia | assumption].
Qed.

Lemma validate_ok_iff (osi : pyobject Z) (ofa : pyobject E) :
  _validate_ragged_properties osi ofa = Ok tt <->
  exists si fa,
    osi = Ndarray si /\ ofa = Ndarray fa /\
    np.dtype_kind (np.dtype_of si) = np.kind_u /\
    np.ndim si = 1%nat /\ np.ndim fa = 1%nat /\
    Forall (fun x => x <= np.len fa) (np.items si).
Proof.
  unfold _validate_ragged_properties. split.
  - destruct osi as [si |]; [|discriminate].
    destruct (np.dtype_kind (np.dtype_of si)) eqn:Hk; simpl;
      try discriminate.
    destruct (Nat.eqb_spec (np.ndim si) 1) as [e1 | ne1]; simpl;
      [|discriminate].
    destruct ofa as [fa |]; [|discriminate].
    destruct (Nat.eqb_spec (np.ndim fa) 1) as [e2 | ne2]; simpl;
      [|discriminate].
    destruct (np.any (np.greater (np.items si) (np.len fa))) eqn:Hany.
    + destruct (np.boolean_index _ _); discriminate.
    + intros _. exists si, fa. repeat split; try assumption.
      apply any_greater_false. exact Hany.
  - intros [si [fa [-> [-> [Hk [H1 [H2 Hall]]]]]]].
    rewrite Hk, H1, H2. simpl.
    apply any_greater_false in Hall. rewrite Hall. reflexivity.
Qed.

(** X2. The validation accepts a pair exactly when the offsets are a 1-D
    array of unsigned integers, the values a 1-D array, and no offset
    exceeds the number of values (an offset equal to it is accepted). *)
Theorem validate_accepts_iff (osi : pyobject Z) (ofa : pyobject E) :
  _validate_ragged_properties osi ofa = Ok tt <->
  (exists si, osi = Ndarray si /\
              np.dtype_kind (np.dtype_of si) = np.kind_u /\
              np.ndim si = 1%nat /\
   exists fa, ofa = Ndarray fa /\ np.ndim fa = 1%nat /\
              Forall (fun x => x <= np.len fa) (np.items si)).
Proof.
  rewrite validate_ok_iff. split.
  - intros [si [fa [H1 [H2 [H3 [H4 [H5 H6]]]]]]].
    exists si. repeat split; try assumption.
    exists fa. repeat split; assumption.
  - intros [si [H1 [H3 [H4 [fa [H2 [H5 H6]]]]]]].
    exists si, fa. repeat split; assumption.
Qed.

Lemma compress_greater (l : list Z) (m : Z) :
  np.compress (np.greater l m) l = filter (fun x => m <? x) l.
Proof.
  induction l as [| x l IH]; [reflexivity|].
  simpl. rewrite IH. reflexivity.
Qed.

(** X3. With at most ten offsets, a pair of well-formed arrays one of whose
    offsets exceeds the number of values is rejected with the ValueError
    that reports that number and every offending offset, the first one
    first. *)
Theorem validate_reports_offenders (si : np.ndarray Z) (fa : np.ndarray E) :
  np.dtype_kind (np.dtype_of si) = np.kind_u ->
  np.ndim si = 1%nat -> np.ndim fa = 1%nat ->
  (length (np.items si) <= 10)%nat ->
  Exists (fun x => np.len fa < x) (np.items si) ->
  _validate_ragged_properties (Ndarray si) (Ndarray fa) =
    Raise (ValueError
             (Start_indices_too_large (np.len fa)
                (filter (fun x => np.len fa <? x) (np.items si)))).
Proof.
  intros Hk H1 H2 Hlen Hex. unfold _validate_ragged_properties.
  rewrite Hk, H1, H2. cbn [np.kind_eqb negb Nat.eqb orb].
  destruct (np.any (np.greater (np.items si) (np.len fa))) eqn:Hany.
  - rewrite firstn_all2
      by (unfold np.greater; rewrite length_map; exact Hlen).
    unfold np.boolean_index, np.greater at 1.
    rewrite length_map, Nat.eqb_refl, compress_greater. reflexivity.
  - exfalso. apply any_greater_false in Hany.
    apply Exists_exists in Hex. destruct Hex as [x [Hin Hx]].
    rewrite Forall_forall in Hany. specialize (Hany x Hin). lia.
Qed.

(** X4. The encoding of a sequence of rows (of at most 2^64 - 1
    elements in all) is a valid raw pair: building a store from its two
    buffers succeeds and gives the same buffers. It is the store that
    construction from the rows returns, when it returns one. *)
Theorem from_rows_valid (data : list (@datum E)) (dtype : np.dtype) :
  buffer_len data <= np.iinfo_max (np.uint np.W64) ->
  let s := from_rows data dtype in
  RaggedArray_init zero
    (Dict (Ndarray (start_indices s)) (Ndarray (flat_array s))) dtype =
    Ok (mk_RaggedArray (start_indices s) (flat_array s)) /\
  forall s', RaggedArray_init zero (Rows data) dtype = Ok s' -> s' = s.
Proof.
  intros HM s. split.
  - unfold RaggedArray_init.
    destruct (from_rows_exact data dtype HM) as [Hsi [Hfa [H1 [H2 [w Hw]]]]].
    fold s in Hsi, Hfa, H1, H2, Hw.
    assert (_validate_ragged_properties (Ndarray (start_indices s))
              (Ndarray (flat_array s)) = Ok tt) as Hv.
    { apply validate_ok_iff. exists (start_indices s), (flat_array s).
      repeat split; try assumption.
      - rewrite Hw. reflexivity.
      - rewrite Hsi. unfold np.len.
        rewrite Hfa, flat_map_stored, flat_map_items_length,
          buffer_len_stored.
        eapply Forall_impl; [|apply (cumulative_starts_bounds data 0); lia].
        simpl. intros x Hx. lia. }
    rewrite Hv. reflexivity.
  - intros s' Hs'. rewrite init_rows_spec in Hs'.
    apply store_of_rows_Ok in Hs'. tauto.
Qed.

(** Rows read off a store are arrays or [np.nan], never [None]:
    construction from them returns or raises ValueError. *)
Lemma row_value_not_None (s : store) (j : nat) : row_value s j <> PyNone.
Proof. unfold row_value. destruct (_ =? _); discriminate. Qed.

Lemma store_of_rows_of_read_rows (data : list (@datum E))
  (dtype : np.dtype) :
  Forall (fun v => v <> PyNone) data ->
  forall e, store_of_rows data dtype = Raise e -> exists v, e = ValueError v.
Proof.
  intros Hall e. unfold store_of_rows.
  destruct (np.refused (Z.of_nat (length data)) _) as [e1 |];
    [intros H; injection H as <-; eexists; reflexivity|].
  destruct (np.refused (buffer_len data) dtype) as [e2 |];
    [intros H; injection H as <-; eexists; reflexivity|].
  destruct (find _ data) as [v |] eqn:Hf; [|discriminate].
  apply find_some in Hf. destruct Hf as [Hin _].
  rewrite Forall_forall in Hall. specialize (Hall v Hin).
  destruct v; [contradiction | |];
    intros H; injection H as <-; eexists; reflexivity.
Qed.

(** ** Boolean-mask selection and take, which build a store from rows *)


(** ** take *)










End Construction.

(** ** Concatenation within the offset widths of the inputs *)

Section Concatenation.

Context {convert : Astype E}.
Variable zero : E.

Lemma total_len_cons (ra : store) (l : list store) :
  total_len (ra :: l) = np.len (flat_array ra) + total_len l.
Proof. reflexivity. Qed.

Lemma total_len_nonneg (l : list store) : 0 <= total_len l.
Proof.
  induction l as [| ra l IH]; [reflexivity|].
  rewrite total_len_cons. unfold np.len. lia.
Qed.

Lemma cast_int64_small (v : Z) :
  0 <= v <= np.iinfo_max (np.int np.W64) -> np.cast (np.int np.W64) v = v.
Proof.
  intros H. unfold np.cast. cbn [np.nbits np.iinfo_max] in *.
  rewrite Z.mod_small; lia.
Qed.

(** The scalars that [zip(offsets, to_concat)] pairs with the inputs are
    the numbers of values before each input, as long as the running sum
    stays in the range of int64. *)
Lemma offsets_are_bases (l : list store) :
  forall base,
    l <> [] -> 0 <= base ->
    base + total_len l <= np.iinfo_max (np.int np.W64) ->
    base :: np.running_sums base
              (map (fun ra => np.len (flat_array ra)) (removelast l)) =
      bases_of base l.
Proof.
  induction l as [| a l IH]; intros base Hne Hb HM; [contradiction|].
  destruct l as [| b r]; [reflexivity|].
  change (removelast (a :: b :: r)) with (a :: removelast (b :: r)).
  cbn [map np.running_sums bases_of].
  rewrite !total_len_cons in HM.
  pose proof (total_len_nonneg r).
  assert (0 <= np.len (flat_array a)) by (unfold np.len; lia).
  assert (0 <= np.len (flat_array b)) by (unfold np.len; lia).
  rewrite cast_int64_small by lia.
  f_equal. apply IH; [discriminate | lia |].
  rewrite total_len_cons. lia.
Qed.

Lemma iinfo_max_wider (w w' : np.width) :
  np.iinfo_max (np.uint w) <= np.iinfo_max (np.uint (np.wider w w')) /\
  np.iinfo_max (np.uint w') <= np.iinfo_max (np.uint (np.wider w w')).
Proof. destruct w, w'; split; vm_compute; discriminate. Qed.

Lemma min_scalar_type_nonneg (v : Z) :
  0 <= v -> exists w, np.min_scalar_type v = np.uint w.
Proof.
  intros H. unfold np.min_scalar_type.
  replace (0 <=? v) with true by lia.
  destruct (v <=? np.iinfo_max (np.uint np.W8)); [eexists; reflexivity|].
  destruct (v <=? np.iinfo_max (np.uint np.W16)); [eexists; reflexivity|].
  destruct (v <=? np.iinfo_max (np.uint np.W32)); eexists; reflexivity.
Qed.

(** [ra.start_indices + offset] when the shifted offsets fit the width of
    [ra]: an unsigned array at least as wide, holding the exact sums. *)
Lemma add_scalar_exact (ra : store) (v : Z) :
  valid_store ra -> 0 <= v ->
  v + np.len (flat_array ra) <= np.iinfo_max (np.dtype_of (start_indices ra)) ->
  exists w',
    np.dtype_of (np.add_scalar (start_indices ra) (np.int np.W64) v) =
      np.uint w' /\
    np.iinfo_max (np.dtype_of (start_indices ra)) <=
      np.iinfo_max (np.uint w') /\
    np.items (np.add_scalar (start_indices ra) (np.int np.W64) v) =
      map (Z.add v) (np.items (start_indices ra)).
Proof.
  intros [[w Hw] [_ [_ Hall]]] Hv Hfit.
  destruct (min_scalar_type_nonneg v Hv) as [wv Hwv].
  unfold np.add_scalar, np.add_scalar_dtype. rewrite Hw in *. rewrite Hwv.
  cbn [np.promote_types np.dtype_of np.items].
  exists (np.wider w wv). split; [reflexivity|].
  pose proof (iinfo_max_wider w wv) as [Hmax _].
  split; [exact Hmax|].
  apply map_ext_in. intros x Hx.
  rewrite Forall_forall in Hall. specialize (Hall x Hx).
  rewrite cast_uint_small by lia. lia.
Qed.

Lemma shifted_arrays (l : list store) :
  forall base m,
    Forall valid_store l -> 0 <= base -> base + total_len l <= m ->
    Forall (fun ra => m <= np.iinfo_max (np.dtype_of (start_indices ra))) l ->
    let arrays :=
      map (fun o_ra => np.add_scalar (start_indices (snd o_ra))
                                     (np.int np.W64) (fst o_ra))
          (combine (bases_of base l) l) in
    flat_map np.items arrays = shifted_start_indices base l /\
    Forall (fun a => exists w, np.dtype_of a = np.uint w /\
                               m <= np.iinfo_max (np.uint w))
           arrays /\
    Forall (fun x => 0 <= x <= base + total_len l)
           (shifted_start_indices base l).
Proof.
  induction l as [| ra l IH]; intros base m Hvalid Hb Hm Hfit arrays.
  - repeat split; constructor.
  - inversion Hvalid as [| ? ? Hra Hl]; subst.
    inversion Hfit as [| ? ? Hfra Hfl]; subst.
    rewrite total_len_cons in *.
    pose proof (total_len_nonneg l) as Hnn.
    assert (0 <= np.len (flat_array ra)) as Hlen by (unfold np.len; lia).
    destruct (add_scalar_exact ra base Hra Hb) as [w' [Hd [Hmax Hitems]]];
      [lia|].
    destruct (IH (base + np.len (flat_array ra)) m) as [H1 [H2 H3]];
      [assumption | lia | lia | assumption |].
    subst arrays. cbn [bases_of combine map flat_map shifted_start_indices
                       fst snd].
    split; [rewrite Hitems, H1; reflexivity|]. split.
    + constructor; [|exact H2].
      exists w'. split; [exact Hd | lia].
    + apply Forall_app. split.
      * apply Forall_forall. intros x Hx. apply in_map_iff in Hx.
        destruct Hx as [y [<- Hy]].
        destruct Hra as [_ [_ [_ Hall]]].
        rewrite Forall_forall in Hall. specialize (Hall y Hy). lia.
      * eapply Forall_impl; [|exact H3]. simpl. intros x Hx. lia.
Qed.

Lemma hstack_dtype_unsigned (rest : list np.dtype) :
  forall w0 m,
    m <= np.iinfo_max (np.uint w0) ->
    Forall (fun d => exists w, d = np.uint w) rest ->
    exists w, np.hstack_dtype (np.uint w0) rest = np.uint w /\
              m <= np.iinfo_max (np.uint w).
Proof.
  unfold np.hstack_dtype.
  induction rest as [| d rest IH]; intros w0 m Hm Hall.
  - exists w0. split; [reflexivity | exact Hm].
  - inversion Hall as [| ? ? [w1 ->] Hrest]; subst.
    cbn [fold_left np.promote_types].
    apply IH; [|exact Hrest].
    pose proof (iinfo_max_wider w0 w1). lia.
Qed.

Lemma flat_map_flat_array (l : list store) :
  flat_map np.items (map flat_array l) =
  flat_map (fun ra => np.items (flat_array ra)) l.
Proof.
  induction l as [| ra l IH]; [reflexivity|].
  simpl. rewrite IH. reflexivity.
Qed.

Lemma total_len_flat (l : list store) :
  Z.of_nat (length (flat_map (fun ra => np.items (flat_array ra)) l)) =
  total_len l.
Proof.
  induction l as [| ra l IH]; [reflexivity|].
  cbn [flat_map]. rewrite length_app, total_len_cons. unfold np.len. lia.
Qed.

Lemma bases_of_bounds (l : list store) :
  forall base, 0 <= base ->
    Forall (fun x => 0 <= x <= base + total_len l) (bases_of base l).
Proof.
  induction l as [| ra l IH]; intros base Hb; [constructor|].
  cbn [bases_of]. rewrite total_len_cons.
  pose proof (total_len_nonneg l).
  assert (0 <= np.len (flat_array ra)) by (unfold np.len; lia).
  constructor; [lia|].
  eapply Forall_impl; [|apply IH; lia]. simpl. intros x Hx. lia.
Qed.

Lemma cast_int64_all_small (l : list Z) (m : Z) :
  m <= np.iinfo_max (np.int np.W64) ->
  Forall (fun x => 0 <= x <= m) l ->
  map (np.cast (np.int np.W64)) l = l.
Proof.
  intros Hm H. induction H as [| x l Hx _ IH]; [reflexivity|].
  cbn [map]. rewrite IH, cast_int64_small by lia. reflexivity.
Qed.

(** [offsets], the array whose items [zip] pairs with the inputs, when
    there are at least two of them. *)
Lemma offsets_array (a b : store) (r : list store) :
  let l := a :: b :: r in
  total_len l <= np.iinfo_max (np.int np.W64) ->
  np.hstack
    [np.array1 (np.int np.W64) [0];
     np.cumsum (map (fun ra => np.len (flat_array ra)) (removelast l))] =
    Ok (np.array1 (np.int np.W64) (bases_of 0 l)).
Proof.
  intros l HM.
  assert (0 :: np.running_sums 0
                 (map (fun ra => np.len (flat_array ra)) (removelast l)) =
          bases_of 0 l) as HX
    by (apply offsets_are_bases; [discriminate | lia | lia]).
  assert (np.cumsum (map (fun ra => np.len (flat_array ra)) (removelast l)) =
          np.array1 (np.int np.W64)
            (np.running_sums 0
               (map (fun ra => np.len (flat_array ra)) (removelast l))))
    as Hc by reflexivity.
  rewrite Hc. unfold np.hstack.
  change (np.hstack_dtype _ _) with (np.int np.W64).
  cbn [flat_map np.items np.array1]. rewrite app_nil_r. cbn [app].
  rewrite HX.
  rewrite (cast_int64_all_small _ (0 + total_len l));
    [reflexivity | lia | apply bases_of_bounds; lia].
Qed.

(** [np.hstack] of unsigned arrays that all hold [m]: an unsigned array
    that holds [m], with the same items. *)
Lemma hstack_unsigned (arrays : list (np.ndarray Z)) (m : Z) :
  arrays <> [] ->
  Forall (fun a => exists w, np.dtype_of a = np.uint w /\
                             m <= np.iinfo_max (np.uint w)) arrays ->
  Forall (fun x => 0 <= x <= m) (flat_map np.items arrays) ->
  exists w,
    np.hstack arrays = Ok (np.array1 (np.uint w) (flat_map np.items arrays)) /\
    m <= np.iinfo_max (np.uint w).
Proof.
  intros Hne Hd Hx. destruct arrays as [| a rest]; [contradiction|].
  inversion Hd as [| ? ? [w0 [Hw0 Hm0]] Hrest]; subst.
  destruct (hstack_dtype_unsigned (map np.dtype_of rest) w0 m Hm0)
    as [w [Hw Hm]].
  { apply Forall_forall. intros d Hin. apply in_map_iff in Hin.
    destruct Hin as [x [<- Hin]].
    rewrite Forall_forall in Hrest. destruct (Hrest x Hin) as [w [Hw _]].
    exists w. exact Hw. }
  exists w. split; [|exact Hm].
  unfold np.hstack. rewrite Hw0, Hw.
  rewrite (cast_uint_all_small w _ m Hm Hx). reflexivity.
Qed.

(** Concatenation of two or more valid stores when a bound [m] on the
    combined number of values fits int64 and the offset width of every
    input: nothing wraps, and the offsets of the result hold [m] too. *)
Lemma concat_within (to_concat : list store) (m : Z) :
  (2 <= length to_concat)%nat ->
  Forall valid_store to_concat ->
  total_len to_concat <= m ->
  m <= np.iinfo_max (np.int np.W64) ->
  Forall (fun ra => m <= np.iinfo_max (np.dtype_of (start_indices ra)))
         to_concat ->
  exists s,
    _concat_same_type zero to_concat = Ok s /\
    np.items (start_indices s) = shifted_start_indices 0 to_concat /\
    np.items (flat_array s) =
      flat_map (fun ra => np.items (flat_array ra)) to_concat /\
    valid_store s /\
    m <= np.iinfo_max (np.dtype_of (start_indices s)).
Proof.
  intros Hlen Hvalid Hm H64 Hfit.
  destruct to_concat as [| a [| b r]]; try (simpl in Hlen; lia).
  set (l := a :: b :: r) in *.
  destruct (shifted_arrays l 0 m Hvalid (Z.le_refl 0)) as [Hitems [Hd Hx]];
    [lia | exact Hfit |].
  set (arrays :=
         map (fun o_ra => np.add_scalar (start_indices (snd o_ra))
                                        (np.int np.W64) (fst o_ra))
             (combine (bases_of 0 l) l)) in *.
  destruct (hstack_unsigned arrays m) as [w [Hh Hw]].
  { subst arrays l. discriminate. }
  { exact Hd. }
  { rewrite Hitems. eapply Forall_impl; [|exact Hx].
    simpl. intros x Hxx. lia. }
  set (si := np.array1 (np.uint w) (flat_map np.items arrays)).
  set (fa := np.array1 (np.dtype_of (flat_array a))
                       (flat_map np.items (map flat_array l))).
  assert (np.len fa = total_len l) as Hfa.
  { unfold np.len, fa. cbn [np.items np.array1].
    rewrite flat_map_flat_array. apply total_len_flat. }
  assert (Forall (fun x => 0 <= x <= np.len fa) (np.items si)) as Hall.
  { rewrite Hfa. unfold si. cbn [np.items np.array1]. rewrite Hitems.
    eapply Forall_impl; [|exact Hx]. simpl. intros x Hxx. lia. }
  exists (mk_RaggedArray si fa).
  split; [|split; [|split; [|split]]].
  - unfold _concat_same_type.
    change (np.hstack_same (map flat_array l)) with (Ok fa). cbn [bind].
    pose proof (offsets_array a b r) as Hoff. cbv zeta in Hoff.
    fold l in Hoff. rewrite Hoff by lia.
    cbn [bind np.items np.array1 np.dtype_of].
    fold arrays. rewrite Hh. cbn [bind]. fold si.
    unfold RaggedArray_init.
    assert (_validate_ragged_properties (Ndarray si) (Ndarray fa) = Ok tt)
      as Hv.
    { apply validate_ok_iff. exists si, fa.
      repeat split; try reflexivity.
      eapply Forall_impl; [|exact Hall]. simpl. intros x Hxx. lia. }
    rewrite Hv. reflexivity.
  - cbn [start_indices]. unfold si. cbn [np.items np.array1]. exact Hitems.
  - cbn [flat_array]. unfold fa. cbn [np.items np.array1].
    apply flat_map_flat_array.
  - unfold valid_store. cbn [start_indices flat_array].
    split; [exists w; reflexivity|]. repeat split. exact Hall.
  - exact Hw.
Qed.

(** X5. Concatenation of two or more valid stores whose combined number
    of values fits the offset width of every input (and int64): the result
    is a valid store whose offsets are each input's offsets shifted by the
    number of values of the inputs before it, and whose values are the
    inputs' values in order. *)
Theorem concat_without_wrap (to_concat : list store) :
  (2 <= length to_concat)%nat ->
  Forall valid_store to_concat ->
  total_len to_concat <= np.iinfo_max (np.int np.W64) ->
  Forall (fun ra => total_len to_concat <=
                    np.iinfo_max (np.dtype_of (start_indices ra)))
         to_concat ->
  exists s,
    _concat_same_type zero to_concat = Ok s /\
    np.items (start_indices s) = shifted_start_indices 0 to_concat /\
    np.items (flat_array s) =
      flat_map (fun ra => np.items (flat_array ra)) to_concat /\
    valid_store s.
Proof.
  intros Hlen Hvalid H64 Hfit.
  destruct (concat_within to_concat (total_len to_concat))
    as [s [H1 [H2 [H3 [H4 _]]]]]; try assumption; [lia|].
  exists s. repeat split; try assumption; apply H4.
Qed.

(** Rows are read off the items of the two buffers only. *)
Lemma getitem_int_buffers (s1 s2 : store) (i : Z) :
  np.items (start_indices s1) = np.items (start_indices s2) ->
  np.items (flat_array s1) = np.items (flat_array s2) ->
  getitem_int s1 i = getitem_int s2 i.
Proof.
  intros H1 H2. unfold getitem_int, len, np.len. rewrite H1, H2. reflexivity.
Qed.

Lemma shifted_start_indices_app (l1 l2 : list store) :
  forall base,
    shifted_start_indices base (l1 ++ l2) =
    shifted_start_indices base l1 ++
    shifted_start_indices (base + total_len l1) l2.
Proof.
  induction l1 as [| ra l1 IH]; intros base.
  - cbn [app shifted_start_indices]. change (total_len []) with 0.
    rewrite Z.add_0_r. reflexivity.
  - cbn [app shifted_start_indices]. rewrite IH, total_len_cons, <- app_assoc.
    rewrite Z.add_assoc. reflexivity.
Qed.

Lemma shifted_start_indices_shift (l : list store) :
  forall base delta,
    map (Z.add delta) (shifted_start_indices base l) =
    shifted_start_indices (delta + base) l.
Proof.
  induction l as [| ra l IH]; intros base delta; [reflexivity|].
  cbn [shifted_start_indices]. rewrite map_app, map_map, IH.
  f_equal.
  - apply map_ext. intros x. lia.
  - f_equal. lia.
Qed.

(** A store that is the concatenation of [l] stands for [l] inside a
    larger concatenation. *)
Lemma shifted_start_indices_nested (s : store) (l rest : list store) :
  forall base,
    np.items (start_indices s) = shifted_start_indices 0 l ->
    np.len (flat_array s) = total_len l ->
    shifted_start_indices base (s :: rest) =
    shifted_start_indices base (l ++ rest).
Proof.
  intros base Hs Hlen. cbn [shifted_start_indices].
  rewrite shifted_start_indices_app, Hs, Hlen.
  rewrite shifted_start_indices_shift, Z.add_0_r. reflexivity.
Qed.

Lemma len_flat_of_items (s : store) (l : list store) :
  np.items (flat_array s) = flat_map (fun ra => np.items (flat_array ra)) l ->
  np.len (flat_array s) = total_len l.
Proof.
  intros H. unfold np.len. rewrite H. apply total_len_flat.
Qed.

Ltac each_by_assumption :=
  repeat (apply Forall_cons; [assumption|]); apply Forall_nil.

(** X6. Concatenation is associative on rows when nothing wraps: for three
    valid stores whose combined number of values fits int64 and the offset
    width of each of them, the two nestings and the flat concatenation
    return stores with the same offsets and values, hence the same row
    count and the same row at every index. *)
Theorem concat_associative_without_wrap (a b c : store) :
  Forall valid_store [a; b; c] ->
  total_len [a; b; c] <= np.iinfo_max (np.int np.W64) ->
  Forall (fun ra => total_len [a; b; c] <=
                    np.iinfo_max (np.dtype_of (start_indices ra)))
         [a; b; c] ->
  exists left_nested right_nested flat,
    (ab <- _concat_same_type zero [a; b] ;;
     _concat_same_type zero [ab; c]) = Ok left_nested /\
    (bc <- _concat_same_type zero [b; c] ;;
     _concat_same_type zero [a; bc]) = Ok right_nested /\
    _concat_same_type zero [a; b; c] = Ok flat /\
    np.items (start_indices flat) = shifted_start_indices 0 [a; b; c] /\
    len left_nested = len flat /\ len right_nested = len flat /\
    forall i,
      getitem_int left_nested i = getitem_int flat i /\
      getitem_int right_nested i = getitem_int flat i.
Proof.
  intros Hvalid H64 Hfit.
  set (m := total_len [a; b; c]) in *.
  inversion Hvalid as [| ? ? Va Hvalid1]; subst.
  inversion Hvalid1 as [| ? ? Vb Hvalid2]; subst.
  inversion Hvalid2 as [| ? ? Vc _]; subst.
  inversion Hfit as [| ? ? Fa Hfit1]; subst.
  inversion Hfit1 as [| ? ? Fb Hfit2]; subst.
  inversion Hfit2 as [| ? ? Fc _]; subst.
  assert (0 <= np.len (flat_array a)) as La by (unfold np.len; lia).
  assert (0 <= np.len (flat_array b)) as Lb by (unfold np.len; lia).
  assert (0 <= np.len (flat_array c)) as Lc by (unfold np.len; lia).
  assert (m = np.len (flat_array a) + (np.len (flat_array b) +
                                       (np.len (flat_array c) + 0))) as Hm
    by reflexivity.
  (* the flat concatenation *)
  destruct (concat_within [a; b; c] m) as [flat [Ef [If [Ff _]]]];
    [simpl; lia | assumption | lia | assumption | assumption |].
  (* concat([a, b]) and then c *)
  destruct (concat_within [a; b] m) as [ab [Eab [Iab [Fab [Vab Mab]]]]];
    [ simpl; lia | each_by_assumption
    | rewrite !total_len_cons; change (total_len []) with 0; lia
    | assumption | each_by_assumption |].
  pose proof (len_flat_of_items ab [a; b] Fab) as Lab.
  destruct (concat_within [ab; c] m) as [left_nested [El [Il [Fl _]]]];
    [ simpl; lia | each_by_assumption
    | rewrite !total_len_cons, Lab, !total_len_cons;
      change (total_len []) with 0; lia
    | assumption | each_by_assumption |].
  (* concat([b, c]) under a *)
  destruct (concat_within [b; c] m) as [bc [Ebc [Ibc [Fbc [Vbc Mbc]]]]];
    [ simpl; lia | each_by_assumption
    | rewrite !total_len_cons; change (total_len []) with 0; lia
    | assumption | each_by_assumption |].
  pose proof (len_flat_of_items bc [b; c] Fbc) as Lbc.
  destruct (concat_within [a; bc] m) as [right_nested [Er [Ir [Fr _]]]];
    [ simpl; lia | each_by_assumption
    | rewrite !total_len_cons, Lbc, !total_len_cons;
      change (total_len []) with 0; lia
    | assumption | each_by_assumption |].
  assert (np.items (start_indices left_nested) =
          np.items (start_indices flat)) as Sl.
  { rewrite Il, If.
    apply (shifted_start_indices_nested ab [a; b] [c] 0 Iab Lab). }
  assert (np.items (start_indices right_nested) =
          np.items (start_indices flat)) as Sr.
  { rewrite Ir, If. cbn [shifted_start_indices]. f_equal.
    apply (shifted_start_indices_nested bc [b; c] [] _ Ibc Lbc). }
  assert (np.items (flat_array left_nested) = np.items (flat_array flat))
    as Vl.
  { rewrite Fl, Ff. cbn [flat_map]. rewrite Fab. cbn [flat_map].
    rewrite !app_nil_r, <- app_assoc. reflexivity. }
  assert (np.items (flat_array right_nested) = np.items (flat_array flat))
    as Vr.
  { rewrite Fr, Ff. cbn [flat_map]. rewrite Fbc. cbn [flat_map].
    rewrite !app_nil_r. reflexivity. }
  exists left_nested, right_nested, flat.
  rewrite Eab, Ebc. cbn [bind].
  repeat split; try assumption.
  - unfold len, np.len. rewrite Sl. reflexivity.
  - unfold len, np.len. rewrite Sr. reflexivity.
  - apply getitem_int_buffers; assumption.
  - apply getitem_int_buffers; assumption.
Qed.

End Concatenation.

(** ** Store against store equality *)

Section Equality.

(** numpy's [==] on two elements. *)
Variable eq_item : E -> E -> bool.

Lemma array_equal_spec (a1 a2 : list E) :
  np.array_equal eq_item a1 a2 = true <->
  length a1 = length a2 /\ Forall2 (fun x y => eq_item x y = true) a1 a2.
Proof.
  unfold np.array_equal.
  destruct (Nat.eqb_spec (length a1) (length a2)) as [e | ne].
  - revert a2 e. induction a1 as [| x a1 IH]; intros [| y a2] e;
      try discriminate.
    + simpl. split; auto.
    + simpl in *. rewrite andb_true_iff, (IH a2) by lia. split.
      * intros [H1 [_ H2]]. split; [lia | constructor; assumption].
      * intros [_ H]. inversion H; subst. repeat split; assumption || lia.
  - split; [discriminate | intros [e _]; contradiction].
Qed.

Lemma nth_map_seq {A : Type} (f : nat -> A) (n i : nat) (d : A) :
  (i < n)%nat -> nth i (map f (seq 0 n)) d = f i.
Proof.
  intros H. rewrite (nth_indep _ d (f 0%nat)) by (rewrite length_map, length_seq; lia).
  rewrite map_nth, seq_nth by lia. reflexivity.
Qed.

(** Entry [i] of the kernel's mask compares the two rows [i]. *)
Lemma eq_ragged_ragged_nth (ra1 ra2 : store) (i : nat) :
  len ra2 = len ra1 ->
  (i < length (np.items (start_indices ra1)))%nat ->
  nth i (_eq_ragged_ragged eq_item ra1 ra2) false =
    np.array_equal eq_item (subrange ra1 i) (subrange ra2 i).
Proof.
  intros Hlen Hi. unfold _eq_ragged_ragged.
  rewrite Nat2Z.id, nth_map_seq by assumption.
  unfold subrange, row_start, row_stop, np.item, len, np.len in *.
  rewrite Nat2Z.id.
  replace (Z.to_nat (Z.of_nat i + 1)) with (S i) by lia.
  assert (length (np.items (start_indices ra2)) =
          length (np.items (start_indices ra1))) as e2 by lia.
  rewrite e2.
  destruct (Nat.eqb_spec (S i) (length (np.items (start_indices ra1)))).
  - replace (Z.of_nat i <? Z.of_nat (length (np.items (start_indices ra1))) - 1)
      with false by lia.
    reflexivity.
  - replace (Z.of_nat i <? Z.of_nat (length (np.items (start_indices ra1))) - 1)
      with true by lia.
    reflexivity.
Qed.

Lemma eq_ragged_ragged_length (ra1 ra2 : store) :
  length (_eq_ragged_ragged eq_item ra1 ra2) =
  length (np.items (start_indices ra1)).
Proof.
  unfold _eq_ragged_ragged. rewrite length_map, length_seq, Nat2Z.id.
  reflexivity.
Qed.

(** C7. For two stores of equal row count N, store-vs-store equality
    returns a boolean mask of length N whose entry i is true iff the
    subrange of row i in the first store and the subrange of row i in the
    second have equal lengths and equal elements position by position; for
    two stores of unequal row counts it fails with the length-mismatch
    error (a ValueError reporting both lengths). *)
Theorem C7_eq_store_store (ra1 ra2 : store) :
  (len ra2 = len ra1 ->
   exists mask,
     RaggedArray_eq eq_item ra1 ra2 = Ok mask /\
     Z.of_nat (length mask) = len ra1 /\
     forall i, (Z.of_nat i < len ra1) ->
       (nth i mask false = true <->
        length (subrange ra1 i) = length (subrange ra2 i) /\
        Forall2 (fun x y => eq_item x y = true)
                (subrange ra1 i) (subrange ra2 i))) /\
  (len ra2 <> len ra1 ->
   RaggedArray_eq eq_item ra1 ra2 =
     Raise (ValueError (Unequal_length (len ra1) (len ra2)))).
Proof.
  unfold RaggedArray_eq. split; intros H.
  - rewrite H, Z.eqb_refl. simpl.
    exists (_eq_ragged_ragged eq_item ra1 ra2).
    split; [reflexivity|]. split.
    + rewrite eq_ragged_ragged_length. reflexivity.
    + intros i Hi. rewrite eq_ragged_ragged_nth, array_equal_spec.
      * reflexivity.
      * assumption.
      * unfold len, np.len in Hi. lia.
  - destruct (Z.eqb_spec (len ra2) (len ra1)); [contradiction | reflexivity].
Qed.

Lemma array_equal_sym (a1 a2 : list E) :
  (forall x y, eq_item x y = eq_item y x) ->
  np.array_equal eq_item a1 a2 = np.array_equal eq_item a2 a1.
Proof.
  intros Hsym. unfold np.array_equal. rewrite (Nat.eqb_sym (length a2)).
  destruct (Nat.eqb (length a1) (length a2)); [|reflexivity].
  revert a2. induction a1 as [| x a1 IH]; intros [| y a2]; try reflexivity.
  simpl. rewrite IH, (Hsym x y). reflexivity.
Qed.

(** X7. Equality symmetry: on two stores of equal row count, with a symmetric
    [==] on elements, comparing A to B gives the mask of comparing B to
    A. *)
Theorem eq_store_store_symmetric (ra1 ra2 : store) :
  (forall x y, eq_item x y = eq_item y x) ->
  len ra2 = len ra1 ->
  RaggedArray_eq eq_item ra1 ra2 = RaggedArray_eq eq_item ra2 ra1.
Proof.
  intros Hsym Hlen. unfold RaggedArray_eq.
  rewrite Hlen, Z.eqb_refl. cbn [negb]. f_equal.
  unfold _eq_ragged_ragged. unfold len, np.len in Hlen.
  replace (length (np.items (start_indices ra2)))
    with (length (np.items (start_indices ra1))) by lia.
  apply map_ext. intros k. apply array_equal_sym. exact Hsym.
Qed.

End Equality.

(** ** The ordering of row views *)

Section Ordering.

(** numpy's [<] on two elements. *)
Variable lt_item : E -> E -> bool.

(** The natural order of the element type: no element is below itself and
    two elements neither of which is below the other are the same. *)
Hypothesis lt_irrefl : forall x, lt_item x x = false.
Hypothesis lt_total :
  forall x y, lt_item x y = false -> lt_item y x = false -> x = y.

Lemma equal_before_cons (k : nat) (x : E) (a b : list E) :
  equal_before (S k) (x :: a) (x :: b) <-> equal_before k a b.
Proof.
  unfold equal_before. split; intros H j u v Hj Ha Hb.
  - apply (H (S j) u v); [lia | assumption | assumption].
  - destruct j as [| j]; simpl in *; [congruence|].
    apply (H j u v); [lia | assumption | assumption].
Qed.

Lemma smaller_at_first_difference_cons (x : E) (a b : list E) :
  smaller_at_first_difference lt_item (x :: a) (x :: b) <->
  smaller_at_first_difference lt_item a b.
Proof.
  unfold smaller_at_first_difference. split.
  - intros [k [u [v [Ha [Hb [Heq [Hne Hlt]]]]]]].
    destruct k as [| k]; simpl in *; [congruence|].
    exists k, u, v. rewrite equal_before_cons in Heq. tauto.
  - intros [k [u [v [Ha [Hb [Heq [Hne Hlt]]]]]]].
    exists (S k), u, v. rewrite equal_before_cons. simpl. tauto.
Qed.

Lemma strictly_shorter_prefix_cons (x : E) (a b : list E) :
  strictly_shorter_prefix (x :: a) (x :: b) <-> strictly_shorter_prefix a b.
Proof.
  unfold strictly_shorter_prefix. simpl.
  rewrite equal_before_cons. split; intros [H1 H2]; split; auto; lia.
Qed.

Lemma lexograph_lt_cons (x y : E) (a b : list E) :
  _lexograph_lt lt_item (x :: a) (y :: b) =
  if lt_item x y then true
  else if lt_item y x then false
  else _lexograph_lt lt_item a b.
Proof. reflexivity. Qed.

Lemma lexograph_lt_spec (a b : list E) :
  _lexograph_lt lt_item a b = true <->
  smaller_at_first_difference lt_item a b \/ strictly_shorter_prefix a b.
Proof.
  revert b. induction a as [| x a IH]; intros b.
  - unfold _lexograph_lt. simpl. rewrite Nat.ltb_lt. split.
    + intros H. right. split; [|exact H].
      intros j u v Hj Ha. destruct j; discriminate.
    + intros [[k [u [v [Ha _]]]] | [_ H]]; [|exact H].
      destruct k; discriminate.
  - destruct b as [| y b].
    + unfold _lexograph_lt. simpl. split; [discriminate|].
      intros [[k [u [v [_ [Hb _]]]]] | [_ H]].
      * destruct k; discriminate.
      * simpl in H. lia.
    + rewrite lexograph_lt_cons.
      destruct (lt_item x y) eqn:Hxy.
      * split; [intros _ | reflexivity].
        left. exists 0%nat, x, y. repeat split; try reflexivity.
        -- intros j u v Hj. lia.
        -- intros e. subst y. rewrite lt_irrefl in Hxy. discriminate.
        -- assumption.
      * destruct (lt_item y x) eqn:Hyx.
        -- split; [discriminate|].
           assert (x <> y) as ne
             by (intros e; subst y; rewrite lt_irrefl in Hyx; discriminate).
           intros [[k [u [v [Ha [Hb [Heq [Hne Hlt]]]]]]] | [Heq _]].
           ++ destruct k as [| k]; simpl in *.
              ** congruence.
              ** exfalso. apply ne.
                 apply (Heq 0%nat x y); [lia | reflexivity | reflexivity].
           ++ exfalso. apply ne. simpl in Heq.
              apply (Heq 0%nat x y); [lia | reflexivity | reflexivity].
        -- assert (x = y) as e by (apply lt_total; assumption). subst y.
           rewrite IH, smaller_at_first_difference_cons,
             strictly_shorter_prefix_cons.
           reflexivity.
Qed.

(** C8 (amended). When [<] on elements is irreflexive and two elements
    neither of which is below the other are the same (integers, floats
    other than nan), then for two non-missing rows a and b the ordering of
    their views declares a < b iff, at the first position where the two
    subranges differ, the element of a is the smaller one, or, all pairs
    compared over the common prefix being equal, a is strictly shorter
    than b. *)
Theorem C8_view_lt_lexicographic (a b : list E) :
  ragged_or_nan (Row a) = RaggedElement a /\
  ragged_or_nan (Row b) = RaggedElement b /\
  RaggedElement_lt lt_item a (RaggedElement b) =
    Some (_lexograph_lt lt_item a b) /\
  (RaggedElement_lt lt_item a (RaggedElement b) = Some true <->
   smaller_at_first_difference lt_item a b \/ strictly_shorter_prefix a b).
Proof.
  do 3 (split; [reflexivity|]).
  simpl. rewrite <- lexograph_lt_spec. split; congruence.
Qed.

End Ordering.

End RaggedFacts.

(** * The properties at concrete stores *)

(** The stores used below are what construction from their rows
    returns. *)
Lemma stores_constructed :
  RaggedArray_init 0 (Rows [Row [1; 2]; PyNone; Row []; Row [3]]) np.float64
    = Ok example_store /\
  RaggedArray_init 0 (Rows []) np.float64 = Ok empty_store /\
  RaggedArray_init 0 (Rows [Row [1; 2]; Row []; Row [3]]) int64
    = Ok int_store /\
  RaggedArray_init 0 (Rows [Row (repeat 2 100)]) int64 = Ok store_100 /\
  RaggedArray_init 0 (Rows [Row (repeat 1 200)]) int64 = Ok store_200 /\
  RaggedArray_init 0 (Rows [Row (repeat 3 200); Row (repeat 4 50)]) int64
    = Ok store_200_50.
Proof. repeat split. Qed.

(** ** Construction from a raw pair *)

(** C6. Construction from a raw (offsets, values) pair is meant to fail
    with the layout ValueError that reports the offending offset values and
    the buffer length. With eleven offsets of which the last exceeds the
    buffer length, the report itself fails: the mask of invalid positions
    is cut to ten entries before it indexes the eleven offsets, and numpy
    raises IndexError. *)
Theorem C6_report_of_late_offender :
  RaggedArray_init 0 (Dict late_offender one_value) int64 =
    Raise (IndexError (Boolean_index_mismatch 11 10)).
Proof. reflexivity. Qed.

(** ** Concatenation *)

(** C1. Concatenating a store of 100 values with a store whose rows start
    at 0 and 200 (250 values), both with 8-bit offsets, gives 350 values
    in all, more than 8 bits hold. The offsets of the result stay on 8
    bits and are 0, 100, 44 where the shifted offsets are 0, 100, 300: the
    last row start wrapped around, and the second row of the result is
    empty instead of holding 200 values. *)
Theorem C1_concat_offsets_wrap :
  np.dtype_of (start_indices store_100) = np.uint np.W8 /\
  np.dtype_of (start_indices store_200_50) = np.uint np.W8 /\
  np.len (flat_array store_100) + np.len (flat_array store_200_50) = 350 /\
  np.iinfo_max (np.uint np.W8) = 255 /\
  shifted_start_indices 0 [store_100; store_200_50] = [0; 100; 300] /\
  exists s,
    _concat_same_type 0 [store_100; store_200_50] = Ok s /\
    np.dtype_of (start_indices s) = np.uint np.W8 /\
    np.items (start_indices s) = [0; 100; 44] /\
    np.len (flat_array s) = 350 /\
    getitem_int store_200_50 0 = Ok (Row (repeat 3 200)) /\
    getitem_int s 1 = Ok (Row []).
Proof.
  repeat split.
  eexists. split; [vm_compute; reflexivity|]. repeat split.
Qed.

(** C9. With stores a (one row of 200 values), b (one row of 100 values)
    and c (rows of 200 and 50 values), concat([concat([a, b]), c]) and
    concat([a, b, c]) have offsets 0, 200, 300, 500, but
    concat([a, concat([b, c])]) has offsets 0, 200, 44, 244: its row 1 is
    empty where the other two hold the 100 values of b. *)
Theorem C9_concat_nesting_differs :
  exists left_nested right_nested flat,
    (ab <- _concat_same_type 0 [store_200; store_100] ;;
     _concat_same_type 0 [ab; store_200_50]) = Ok left_nested /\
    (bc <- _concat_same_type 0 [store_100; store_200_50] ;;
     _concat_same_type 0 [store_200; bc]) = Ok right_nested /\
    _concat_same_type 0 [store_200; store_100; store_200_50] = Ok flat /\
    np.items (start_indices left_nested) = [0; 200; 300; 500] /\
    np.items (start_indices flat) = [0; 200; 300; 500] /\
    np.items (start_indices right_nested) = [0; 200; 44; 244] /\
    len left_nested = 4 /\ len right_nested = 4 /\ len flat = 4 /\
    getitem_int flat 1 = Ok (Row (repeat 2 100)) /\
    getitem_int left_nested 1 = Ok (Row (repeat 2 100)) /\
    getitem_int right_nested 1 = Ok (Row []).
Proof.
  do 3 eexists.
  split; [vm_compute; reflexivity|].
  split; [vm_compute; reflexivity|].
  split; [vm_compute; reflexivity|].
  repeat split.
Qed.

(** ** Counterexamples to the claims as first stated *)




(** Against C8 as stated: with float rows [nan, 1] and [1, 2] the first
    position where the rows differ is the first one, where nan is not the
    smaller element, and the first row is not the shorter; yet the
    ordering declares [nan, 1] < [1, 2], because the loop passes over a
    pair neither element of which is below the other. *)
Lemma C8_nan_pair_passed_over :
  RaggedElement_lt float_lt [Float_nan; Float_of 1]
    (RaggedElement [Float_of 1; Float_of 2]) = Some true /\
  ~ (smaller_at_first_difference float_lt
       [Float_nan; Float_of 1] [Float_of 1; Float_of 2] \/
     strictly_shorter_prefix
       [Float_nan; Float_of 1] [Float_of 1; Float_of 2]).
Proof.
  split; [reflexivity|].
  intros [[k [x [y [Ha [Hb [Heq [Hne Hlt]]]]]]] | [_ Hlen]].
  - destruct k as [| [| k]]; simpl in Ha, Hb.
    + injection Ha as <-. injection Hb as <-. discriminate.
    + specialize (Heq 0%nat Float_nan (Float_of 1)).
      assert (Float_nan = Float_of 1) as C
        by (apply Heq; [lia | reflexivity | reflexivity]).
      discriminate.
    + destruct k; discriminate.
  - simpl in Hlen. lia.
Qed.


(** ** The theorems at concrete inputs *)

Lemma len_example_store : len example_store = 4.
Proof. reflexivity. Qed.

(** C4 on the store [[1, 2], None, [], [3]]: index -1 is the last row,
    index 5 is out of range. *)
Lemma C4_get_witness :
  (- len example_store <= -1 < len example_store) /\
  getitem_int example_store (-1) = Ok (Row [3]) /\
  (5 < - len example_store \/ len example_store <= 5) /\
  getitem_int example_store 5 = Raise (IndexError (Item_out_of_bounds 5)).
Proof.
  assert (- len example_store <= -1 < len example_store) as Hin
    by (rewrite len_example_store; lia).
  assert (5 < - len example_store \/ len example_store <= 5) as Hout
    by (rewrite len_example_store; lia).
  destruct (C4_get_row_or_IndexError example_store (-1)) as [H _].
  destruct (H Hin) as [_ [_ [Hrow _]]].
  split; [exact Hin|]. split.
  - rewrite Hrow; [reflexivity | vm_compute; discriminate].
  - split; [exact Hout|].
    apply (C4_get_row_or_IndexError example_store 5). exact Hout.
Defined.

(** C7 on the same store against itself and against the empty store. *)
Lemma C7_eq_witness :
  len example_store = len example_store /\
  (exists mask,
     RaggedArray_eq Z.eqb example_store example_store = Ok mask /\
     Z.of_nat (length mask) = len example_store /\
     forall i, Z.of_nat i < len example_store ->
       (nth i mask false = true <->
        length (subrange example_store i) = length (subrange example_store i) /\
        Forall2 (fun x y => (x =? y) = true)
                (subrange example_store i) (subrange example_store i))) /\
  len empty_store <> len example_store /\
  RaggedArray_eq Z.eqb example_store empty_store =
    Raise (ValueError (Unequal_length (len example_store) (len empty_store))).
Proof.
  split; [reflexivity|].
  split; [apply (C7_eq_store_store Z.eqb example_store example_store);
          reflexivity|].
  split; [vm_compute; discriminate|].
  apply (C7_eq_store_store Z.eqb example_store empty_store).
  vm_compute. discriminate.
Defined.

(** C8 (amended) on integer rows [1, 2] and [1, 3]. *)
Lemma C8_lt_witness :
  ragged_or_nan (Row [1; 2]) = RaggedElement [1; 2] /\
  ragged_or_nan (Row [1; 3]) = RaggedElement [1; 3] /\
  RaggedElement_lt Z.ltb [1; 2] (RaggedElement [1; 3]) =
    Some (_lexograph_lt Z.ltb [1; 2] [1; 3]) /\
  (RaggedElement_lt Z.ltb [1; 2] (RaggedElement [1; 3]) = Some true <->
   smaller_at_first_difference Z.ltb [1; 2] [1; 3] \/
   strictly_shorter_prefix [1; 2] [1; 3]).
Proof.
  apply (C8_view_lt_lexicographic Z.ltb).
  - intros x. apply Z.ltb_irrefl.
  - intros x y H1 H2. lia.
Defined.





(** ** The further properties at concrete inputs *)

(** X1 on [[1, 2], None, [], [3]] with float64 values. *)
Lemma round_trip_witness :
  RaggedArray_init 0 (Rows [Row [1; 2]; PyNone; Row []; Row [3]]) np.float64
    = Ok example_store /\
  len example_store = 4 /\
  getitem_int example_store 0 = Ok (Row [1; 2]) /\
  getitem_int example_store 1 = Ok NaN /\
  getitem_int example_store 2 = Ok NaN /\
  getitem_int example_store 3 = Ok (Row [3]).
Proof.
  assert (RaggedArray_init 0 (Rows [Row [1; 2]; PyNone; Row []; Row [3]])
            np.float64 = Ok example_store) as Hs by reflexivity.
  pose proof (fun i => from_rows_round_trip 0
                         [Row [1; 2]; PyNone; Row []; Row [3]] np.float64
                         example_store i Hs) as H.
  split; [exact Hs|].
  split; [apply (H 0%nat); simpl; lia|].
  split; [apply (H 0%nat); simpl; lia|].
  split; [apply (H 1%nat); simpl; lia|].
  split; [apply (H 2%nat); simpl; lia|].
  apply (H 3%nat); simpl; lia.
Defined.

(** X4 on the same store. *)
Lemma from_rows_valid_witness :
  RaggedArray_init 0
    (Dict (Ndarray (start_indices example_store))
          (Ndarray (flat_array example_store))) np.float64 =
    Ok example_store /\
  forall s',
    RaggedArray_init 0 (Rows [Row [1; 2]; PyNone; Row []; Row [3]])
      np.float64 = Ok s' ->
    s' = example_store.
Proof.
  apply (from_rows_valid 0 [Row [1; 2]; PyNone; Row []; Row [3]] np.float64).
  vm_compute. discriminate.
Defined.

Lemma valid_store_from_rows (data : list (@datum Z)) (dtype : np.dtype) :
  buffer_len data <= np.iinfo_max (np.uint np.W64) ->
  valid_store (from_rows data dtype).
Proof.
  intros HM.
  destruct (from_rows_exact data dtype HM) as [Hsi [Hfa [H1 [H2 Hw]]]].
  unfold valid_store. repeat split; try assumption.
  rewrite Hsi. unfold np.len.
  rewrite Hfa, flat_map_stored, flat_map_items_length, buffer_len_stored.
  apply (cumulative_starts_bounds data 0). lia.
Qed.

(** X5: concat of [[1, 2]] and [[3]], the example of the
    specification. *)
Lemma concat_witness :
  exists s,
    _concat_same_type 0 [rows_of_int64 [Row [1; 2]]; rows_of_int64 [Row [3]]]
      = Ok s /\
    np.items (start_indices s) = [0; 2] /\
    np.items (flat_array s) = [1; 2; 3].
Proof.
  destruct (concat_without_wrap 0
              [rows_of_int64 [Row [1; 2]]; rows_of_int64 [Row [3]]])
    as [s [Hs [Hsi [Hfa _]]]].
  - simpl. lia.
  - repeat (apply Forall_cons;
            [apply valid_store_from_rows; vm_compute; discriminate|]).
    apply Forall_nil.
  - vm_compute. discriminate.
  - repeat (apply Forall_cons; [vm_compute; discriminate|]). apply Forall_nil.
  - exists s. split; [exact Hs|]. split; [rewrite Hsi | rewrite Hfa];
      reflexivity.
Defined.

(** X6 on three small stores, the second of one empty row. *)
Lemma concat_associative_witness :
  exists left_nested right_nested flat,
    (ab <- _concat_same_type 0
             [rows_of_int64 [Row [1; 2]]; rows_of_int64 [Row []]] ;;
     _concat_same_type 0 [ab; rows_of_int64 [Row [3]]]) = Ok left_nested /\
    (bc <- _concat_same_type 0
             [rows_of_int64 [Row []]; rows_of_int64 [Row [3]]] ;;
     _concat_same_type 0 [rows_of_int64 [Row [1; 2]]; bc]) = Ok right_nested /\
    _concat_same_type 0
      [rows_of_int64 [Row [1; 2]]; rows_of_int64 [Row []];
       rows_of_int64 [Row [3]]] = Ok flat /\
    np.items (start_indices flat) = [0; 2; 2] /\
    getitem_int left_nested 2 = getitem_int flat 2 /\
    getitem_int right_nested 2 = getitem_int flat 2.
Proof.
  destruct (concat_associative_without_wrap 0
              (rows_of_int64 [Row [1; 2]]) (rows_of_int64 [Row []])
              (rows_of_int64 [Row [3]]))
    as [l [r [f [Hl [Hr [Hf [Hi [_ [_ Hrows]]]]]]]]].
  - repeat (apply Forall_cons;
            [apply valid_store_from_rows; vm_compute; discriminate|]).
    apply Forall_nil.
  - vm_compute. discriminate.
  - repeat (apply Forall_cons; [vm_compute; discriminate|]). apply Forall_nil.
  - exists l, r, f. repeat split; try assumption; apply Hrows.
Defined.

(** X7 on two four-row stores of floats that differ in the last row. *)
Lemma eq_symmetric_witness :
  RaggedArray_eq Z.eqb example_store
                 (from_rows [Row [1; 2]; NaN; NaN; Row [4]] np.float64) =
  RaggedArray_eq Z.eqb (from_rows [Row [1; 2]; NaN; NaN; Row [4]] np.float64)
                 example_store.
Proof.
  apply (eq_store_store_symmetric Z.eqb).
  - intros x y. apply Z.eqb_sym.
  - reflexivity.
Defined.

(** X3 on four offsets of which two exceed a buffer of two values. *)
Lemma validate_reports_witness :
  _validate_ragged_properties
    (Ndarray (np.array1 (np.uint np.W8) [0; 7; 1; 9]))
    (Ndarray (np.array1 int64 [5; 6])) =
    Raise (ValueError (Start_indices_too_large 2 [7; 9])).
Proof.
  apply (validate_reports_offenders
           (np.array1 (np.uint np.W8) [0; 7; 1; 9]) (np.array1 int64 [5; 6]));
    try reflexivity.
  - simpl. lia.
  - apply Exists_cons_tl, Exists_cons_hd. reflexivity.
Defined.

(** X25 on the rows [[1, 2], [], [3]] and [[1, 2], nan, None] with int64
    values. *)
Lemma construction_witness :
  RaggedArray_init 0 (Rows [Row [1; 2]; Row []; Row [3]]) int64 =
    Ok int_store /\
  RaggedArray_init 0 (Rows [Row [1; 2]; NaN; PyNone]) int64 =
    Raise (ValueError Cannot_convert_float_NaN_to_integer).
Proof.
  split.
  - apply (construction_outcome 0 [Row [1; 2]; Row []; Row [3]] int64);
      try reflexivity.
    repeat (apply Forall_cons; [reflexivity|]). apply Forall_nil.
  - apply (proj2 (construction_outcome 0 [Row [1; 2]; NaN; PyNone] int64
                    eq_refl eq_refl)
             [Row [1; 2]] NaN [PyNone]); try reflexivity.
    repeat (apply Forall_cons; [reflexivity|]). apply Forall_nil.
Defined.

(** * Properties of the rest of the module *)

Section MoreFacts.

Context {E : Type} {convert : Astype E}.
Variable zero : E.

Abbreviation store' := (@RaggedArray E).

(** ** take without fill *)

Lemma comprehension_map {A B : Type} (f : A -> result B) (g : A -> B)
  (l : list A) :
  Forall (fun x => f x = Ok (g x)) l ->
  comprehension f l = Ok (map g l).
Proof.
  intros H. induction H as [| a l Ha _ IH]; [reflexivity|].
  simpl. rewrite Ha. simpl. rewrite IH. reflexivity.
Qed.

Lemma comprehension_raises_IndexError {A B : Type} (f : A -> result B)
  (l : list A) :
  Forall (fun x => only_IndexError (f x) = true) l ->
  Exists (fun x => is_IndexError (f x) = true) l ->
  is_IndexError (comprehension f l) = true.
Proof.
  intros Hv Hex. induction Hv as [| a l Ha _ IH]; [inversion Hex|].
  simpl. destruct (f a) as [b | [e | e | e]] eqn:Hfa; simpl in *;
    try discriminate; [|reflexivity].
  assert (is_IndexError (comprehension f l) = true) as H.
  { apply IH. inversion Hex as [? ? Hh | ? ? Ht]; subst; [|exact Ht].
    rewrite Hfa in Hh. discriminate. }
  destruct (comprehension f l) as [bs | [e | e | e]]; simpl in *; congruence.
Qed.

(** Construction from rows read off a store. *)
Lemma rows_read_not_None (s : store') (l : list nat) :
  Forall (fun v => v <> PyNone) (map (row_value s) l).
Proof.
  apply Forall_forall. intros v Hv. apply in_map_iff in Hv.
  destruct Hv as [j [<- _]]. apply row_value_not_None.
Qed.

(** X8. take with allow_fill=false gathers rows by position, a negative
    index counting from the end: with every index in [-N, N) it comes to
    construction from the rows the indices denote, in the order of the
    indices (an index may repeat), which returns their store or raises
    numpy's ValueError (a gathered row is missing and the values are not
    floats, or a size is refused); with an index outside [-N, N) it fails
    with IndexError. *)
Theorem take_by_position (s : store') (indices : list Z)
  (fill_value : @datum E) :
  (Forall (fun i => - len s <= i < len s) indices ->
   take zero s indices false fill_value =
     store_of_rows (map (fun i => row_value s (position s i)) indices)
                   (np.dtype_of (flat_array s)) /\
   forall e, take zero s indices false fill_value = Raise e ->
             exists v, e = ValueError v) /\
  (Exists (fun i => i < - len s \/ len s <= i) indices ->
   is_IndexError (take zero s indices false fill_value) = true).
Proof.
  split.
  - intros Hin.
    assert (take zero s indices false fill_value =
            store_of_rows
              (map (fun i => row_value s (position s i)) indices)
              (np.dtype_of (flat_array s))) as Ht.
    { unfold take.
      assert ((len s =? 0) && (Z.of_nat (length indices) >? 0) = false)
        as Hg.
      { destruct indices as [| i l]; [apply andb_false_r|].
        inversion Hin; subst. replace (len s =? 0) with false by lia.
        reflexivity. }
      rewrite Hg.
      rewrite (comprehension_map _ (fun i => row_value s (position s i))).
      + cbn [bind]. apply init_rows_spec.
      + eapply Forall_impl; [|exact Hin]. intros i Hi.
        apply getitem_int_position, Hi. }
    split; [exact Ht|]. rewrite Ht.
    apply store_of_rows_of_read_rows.
    rewrite <- (map_map (position s) (row_value s)).
    apply rows_read_not_None.
  - intros Hex. unfold take.
    destruct ((len s =? 0) && (Z.of_nat (length indices) >? 0));
      [reflexivity|].
    assert (is_IndexError (comprehension (getitem_int s) indices) = true)
      as Hc.
    { apply comprehension_raises_IndexError.
      - apply Forall_forall. intros i _. apply getitem_int_only_IndexError.
      - eapply Exists_impl; [|exact Hex]. intros i Hi.
        rewrite getitem_int_out_of_range by exact Hi. reflexivity. }
    destruct (comprehension (getitem_int s) indices) as [v | [e | e | e]];
      simpl in *; congruence.
Qed.

(** ** Slices *)

Lemma adjust_bound_forward (n step i : Z) :
  0 <= n -> 0 < step -> 0 <= npx.adjust_bound n step i <= n.
Proof.
  intros Hn Hs. unfold npx.adjust_bound.
  replace (step <? 0) with false by lia.
  destruct (Z.ltb_spec i 0); [destruct (Z.ltb_spec (i + n) 0); lia|].
  destruct (Z.geb_spec i n); lia.
Qed.

Lemma adjust_bound_backward (n step i : Z) :
  0 <= n -> step < 0 -> -1 <= npx.adjust_bound n step i <= n - 1.
Proof.
  intros Hn Hs. unfold npx.adjust_bound.
  replace (step <? 0) with true by lia.
  destruct (Z.ltb_spec i 0); [destruct (Z.ltb_spec (i + n) 0); lia|].
  destruct (Z.geb_spec i n); lia.
Qed.

Lemma range_forward (n start stop step : Z) :
  0 < step -> 0 <= start -> stop <= n ->
  Forall (fun i => 0 <= i < n) (npx.range start stop step).
Proof.
  intros Hs H0 Hn. unfold npx.range.
  replace (step <? 0) with false by lia.
  apply Forall_forall. intros i Hi. apply in_map_iff in Hi.
  destruct Hi as [k [<- Hk]]. apply in_seq in Hk.
  destruct (Z.ltb_spec start stop); [|simpl in Hk; lia].
  assert (Z.of_nat k <= (stop - start - 1) / step)
    by (pose proof (Z.div_pos (stop - start - 1) step); lia).
  assert (step * ((stop - start - 1) / step) <= stop - start - 1)
    by (apply Z.mul_div_le; lia).
  nia.
Qed.

Lemma range_backward (n start stop step : Z) :
  step < 0 -> start <= n - 1 -> -1 <= stop ->
  Forall (fun i => 0 <= i < n) (npx.range start stop step).
Proof.
  intros Hs H0 Hn. unfold npx.range.
  replace (step <? 0) with true by lia.
  apply Forall_forall. intros i Hi. apply in_map_iff in Hi.
  destruct Hi as [k [<- Hk]]. apply in_seq in Hk.
  destruct (Z.ltb_spec stop start); [|simpl in Hk; lia].
  assert (Z.of_nat k <= (start - stop - 1) / (- step))
    by (pose proof (Z.div_pos (start - stop - 1) (- step)); lia).
  assert ((- step) * ((start - stop - 1) / (- step)) <= start - stop - 1)
    by (apply Z.mul_div_le; lia).
  nia.
Qed.

(** Whatever its bounds, a slice of non-zero step selects positions of the
    sequence it is applied to. *)
Lemma arange_getitem_in_range (n : Z) (item : npx.pyslice) :
  0 <= n -> npx.slice_step item <> Some 0 ->
  exists selected,
    npx.arange_getitem n item = Returns selected /\
    Forall (fun i => 0 <= i < n) selected.
Proof.
  intros Hn Hstep. unfold npx.arange_getitem.
  set (step := match npx.slice_step item with None => 1 | Some st => st end).
  assert (step <> 0) as Hne.
  { unfold step. destruct (npx.slice_step item) as [st |]; [|lia].
    intros e. apply Hstep. rewrite e. reflexivity. }
  replace (step =? 0) with false by lia.
  eexists. split; [reflexivity|].
  destruct (Z.ltb_spec step 0) as [Hneg | Hpos].
  - apply range_backward; [lia | |].
    + destruct (npx.slice_start item);
        [apply adjust_bound_backward; lia | lia].
    + destruct (npx.slice_stop item);
        [apply adjust_bound_backward; lia | lia].
  - apply range_forward; [lia | |].
    + destruct (npx.slice_start item);
        [apply adjust_bound_forward; lia | lia].
    + destruct (npx.slice_stop item);
        [apply adjust_bound_forward; lia | lia].
Qed.

Lemma getitem_slice_selected (s : store') (item : npx.pyslice)
  (selected : list Z) :
  npx.arange_getitem (len s) item = Returns selected ->
  Forall (fun i => 0 <= i < len s) selected ->
  getitem_slice zero s item =
    lift (store_of_rows (map (fun i => row_value s (Z.to_nat i)) selected)
                       (np.dtype_of (flat_array s))).
Proof.
  intros Ha Hin. unfold getitem_slice. rewrite Ha. cbn [and_then].
  rewrite (comprehension_map _ (fun i => row_value s (Z.to_nat i))).
  - cbn [lift and_then]. rewrite init_rows_spec. reflexivity.
  - eapply Forall_impl; [|exact Hin]. intros i Hi.
    apply getitem_int_in_range, Hi.
Qed.

(** X9. Slicing never fails on its bounds: for a slice whose step is not
    zero, whatever start and stop are, [self[slice]] comes to construction
    from the rows at the positions the slice selects, all of them
    positions of the store; a step of zero is numpy's ValueError. *)
Theorem slice_never_out_of_bounds (s : store') (item : npx.pyslice) :
  (npx.slice_step item = Some 0 ->
   getitem_slice zero s item = Raises ValueError_slice_step_zero) /\
  (npx.slice_step item <> Some 0 ->
   exists selected,
     npx.arange_getitem (len s) item = Returns selected /\
     Forall (fun i => 0 <= i < len s) selected /\
     getitem_slice zero s item =
       lift (store_of_rows
                  (map (fun i => row_value s (Z.to_nat i)) selected)
                  (np.dtype_of (flat_array s)))).
Proof.
  split.
  - intros H. unfold getitem_slice, npx.arange_getitem. rewrite H.
    reflexivity.
  - intros H.
    destruct (arange_getitem_in_range (len s) item (len_nonneg s) H)
      as [selected [Ha Hin]].
    exists selected. split; [exact Ha|]. split; [exact Hin|].
    apply getitem_slice_selected; assumption.
Qed.

Lemma rows_of_length (s : store') :
  length (rows_of s) = length (np.items (start_indices s)).
Proof. unfold rows_of. rewrite length_map, length_seq. reflexivity. Qed.

Lemma firstn_of_seq (c : nat) :
  forall a n, firstn c (seq a n) = seq a (Nat.min c n).
Proof.
  induction c as [| c IH]; intros a n; [reflexivity|].
  destruct n as [| n]; [reflexivity|].
  cbn [seq firstn Nat.min]. rewrite IH. reflexivity.
Qed.

Lemma rows_window (s : store') (a c : nat) :
  (a + c <= length (np.items (start_indices s)))%nat ->
  map (row_value s) (seq a c) = firstn c (skipn a (rows_of s)).
Proof.
  intros H. unfold rows_of.
  rewrite skipn_map, firstn_map, skipn_seq, firstn_of_seq.
  f_equal. f_equal. lia.
Qed.

Lemma window_clamp {A : Type} (l : list A) (a b : nat) :
  firstn (Nat.min b (length l) - Nat.min a (length l))
         (skipn (Nat.min a (length l)) l) =
  firstn (b - a) (skipn a l).
Proof.
  destruct (Nat.le_gt_cases (length l) a) as [Hge | Hlt].
  - rewrite (skipn_all2 l Hge).
    rewrite (skipn_all2 l) by lia. rewrite !firstn_nil. reflexivity.
  - replace (Nat.min a (length l)) with a by lia.
    destruct (Nat.le_gt_cases b (length l)) as [Hb | Hb].
    + replace (Nat.min b (length l)) with b by lia. reflexivity.
    + replace (Nat.min b (length l)) with (length l) by lia.
      rewrite !firstn_all2 by (rewrite length_skipn; lia). reflexivity.
Qed.

Lemma map_shifted_seq (a : Z) (c : nat) :
  forall k0,
    0 <= a ->
    map (fun k => a + Z.of_nat k * 1) (seq k0 c) =
    map Z.of_nat (seq (Z.to_nat a + k0) c).
Proof.
  induction c as [| c IH]; intros k0 Ha; [reflexivity|].
  cbn [seq map]. rewrite IH by assumption.
  f_equal; [lia|]. f_equal. f_equal. lia.
Qed.

Lemma range_step_1 (a b : Z) :
  0 <= a ->
  npx.range a b 1 = map Z.of_nat (seq (Z.to_nat a) (Z.to_nat (b - a))).
Proof.
  intros Ha. unfold npx.range. replace (1 <? 0) with false by reflexivity.
  assert (Z.to_nat (if a <? b then (b - a - 1) / 1 + 1 else 0) =
          Z.to_nat (b - a)) as Hc.
  { destruct (Z.ltb_spec a b); [rewrite Z.div_1_r|]; lia. }
  rewrite Hc, map_shifted_seq by assumption.
  rewrite Nat.add_0_r. reflexivity.
Qed.

(** A slice of step 1, by its two adjusted bounds. *)
Lemma arange_getitem_step_1 (n : Z) (start stop : option Z) :
  0 <= n ->
  let lower := match start with
               | None => 0
               | Some i => npx.adjust_bound n 1 i
               end in
  let upper := match stop with
               | None => n
               | Some i => npx.adjust_bound n 1 i
               end in
  npx.arange_getitem n (npx.mk_pyslice start stop None) =
    Returns (map Z.of_nat (seq (Z.to_nat lower) (Z.to_nat (upper - lower)))).
Proof.
  intros Hn lower upper. unfold npx.arange_getitem.
  cbn [npx.slice_step npx.slice_start npx.slice_stop].
  replace (1 =? 0) with false by reflexivity.
  replace (1 <? 0) with false by reflexivity.
  fold lower upper. rewrite range_step_1; [reflexivity|].
  unfold lower. destruct start; [|lia].
  apply adjust_bound_forward; lia.
Qed.

Lemma selected_window (n : Z) (a c : nat) :
  Forall (fun i => 0 <= i < n) (map Z.of_nat (seq a c)) ->
  c = 0%nat \/ Z.of_nat (a + c) <= n.
Proof.
  intros H. destruct c as [| c]; [left; reflexivity | right].
  rewrite Forall_forall in H.
  assert (0 <= Z.of_nat (a + c) < n).
  { apply H. apply in_map. apply in_seq. lia. }
  lia.
Qed.

Lemma getitem_slice_window (s : store') (item : npx.pyslice) (a c : nat) :
  npx.slice_step item <> Some 0 ->
  npx.arange_getitem (len s) item = Returns (map Z.of_nat (seq a c)) ->
  getitem_slice zero s item =
    lift (store_of_rows (firstn c (skipn a (rows_of s)))
                       (np.dtype_of (flat_array s))).
Proof.
  intros Hstep Ha.
  destruct (arange_getitem_in_range (len s) item (len_nonneg s) Hstep)
    as [selected [Ha' Hin]].
  rewrite Ha in Ha'. injection Ha' as <-.
  rewrite (getitem_slice_selected s item _ Ha Hin).
  do 2 f_equal. rewrite map_map.
  rewrite (map_ext _ (row_value s)) by (intros k; rewrite Nat2Z.id; reflexivity).
  destruct (selected_window _ _ _ Hin) as [-> | Hle]; [reflexivity|].
  apply rows_window. unfold len, np.len in Hle. lia.
Qed.

Lemma getitem_slice_step_1 (s : store') (start stop : option Z) :
  let lower := match start with
               | None => 0
               | Some i => npx.adjust_bound (len s) 1 i
               end in
  let upper := match stop with
               | None => len s
               | Some i => npx.adjust_bound (len s) 1 i
               end in
  getitem_slice zero s (npx.mk_pyslice start stop None) =
    lift (store_of_rows
               (firstn (Z.to_nat (upper - lower))
                       (skipn (Z.to_nat lower) (rows_of s)))
               (np.dtype_of (flat_array s))).
Proof.
  intros lower upper. apply getitem_slice_window; [discriminate|].
  apply arange_getitem_step_1, len_nonneg.
Qed.

Lemma adjust_nonneg (n i : Z) :
  0 <= n -> 0 <= i -> npx.adjust_bound n 1 i = Z.min i n.
Proof.
  intros Hn Hi. unfold npx.adjust_bound.
  replace (i <? 0) with false by lia. replace (1 <? 0) with false by lia.
  destruct (Z.geb_spec i n); lia.
Qed.

Lemma adjust_from_end (n p : Z) :
  0 <= n -> 0 < p -> npx.adjust_bound n 1 (- p) = Z.max (n - p) 0.
Proof.
  intros Hn Hp. unfold npx.adjust_bound.
  replace (- p <? 0) with true by lia. replace (1 <? 0) with false by lia.
  destruct (Z.ltb_spec (- p + n) 0); lia.
Qed.

(** X10. A slice with non-negative bounds and no step selects rows the
    way a slice of a Python list selects items, bounds past the end
    clipped: [self[a:b]], [self[a:]] and [self[:b]] come to construction
    from rows a .. b-1, from the rows after the first a, and from the
    first b rows. *)
Theorem slice_like_list (s : store') (a b : nat) :
  getitem_slice zero s
    (npx.mk_pyslice (Some (Z.of_nat a)) (Some (Z.of_nat b)) None) =
    lift (store_of_rows (firstn (b - a) (skipn a (rows_of s)))
                       (np.dtype_of (flat_array s))) /\
  getitem_slice zero s (npx.mk_pyslice (Some (Z.of_nat a)) None None) =
    lift (store_of_rows (skipn a (rows_of s))
                       (np.dtype_of (flat_array s))) /\
  getitem_slice zero s (npx.mk_pyslice None (Some (Z.of_nat b)) None) =
    lift (store_of_rows (firstn b (rows_of s))
                       (np.dtype_of (flat_array s))).
Proof.
  pose proof (len_nonneg s) as Hn.
  assert (len s = Z.of_nat (length (rows_of s))) as Hlen
    by (rewrite rows_of_length; reflexivity).
  set (n := length (rows_of s)) in *.
  split; [|split]; rewrite getitem_slice_step_1;
    rewrite ?adjust_nonneg by lia; rewrite Hlen.
  - replace (Z.to_nat (Z.min (Z.of_nat b) (Z.of_nat n) -
                       Z.min (Z.of_nat a) (Z.of_nat n)))
      with (Nat.min b n - Nat.min a n)%nat by lia.
    replace (Z.to_nat (Z.min (Z.of_nat a) (Z.of_nat n)))
      with (Nat.min a n) by lia.
    unfold n. rewrite window_clamp. reflexivity.
  - replace (Z.to_nat (Z.of_nat n - Z.min (Z.of_nat a) (Z.of_nat n)))
      with (n - Nat.min a n)%nat by lia.
    replace (Z.to_nat (Z.min (Z.of_nat a) (Z.of_nat n)))
      with (Nat.min a n) by lia.
    rewrite firstn_all2 by (rewrite length_skipn; fold n; lia).
    destruct (Nat.le_gt_cases n a) as [Hge | Hlt].
    + rewrite !skipn_all2 by (fold n; lia). reflexivity.
    + replace (Nat.min a n) with a by lia. reflexivity.
  - replace (Z.to_nat (Z.min (Z.of_nat b) (Z.of_nat n) - 0))
      with (Nat.min b n) by lia.
    change (Z.to_nat 0) with 0%nat. cbn [skipn].
    destruct (Nat.le_gt_cases n b) as [Hge | Hlt].
    + replace (Nat.min b n) with n by lia.
      rewrite !firstn_all2 by (fold n; lia). reflexivity.
    + replace (Nat.min b n) with b by lia. reflexivity.
Qed.

(** X11. A negative bound counts from the end of the store and is clipped
    at its beginning: for p > 0, [self[:-p]] comes to construction from
    all rows but the last p, and [self[-p:]] to construction from the last
    p rows (from all of them when p exceeds the row count). *)
Theorem slice_from_the_end (s : store') (p : nat) :
  (0 < p)%nat ->
  getitem_slice zero s (npx.mk_pyslice None (Some (- Z.of_nat p)) None) =
    lift (store_of_rows
               (firstn (length (rows_of s) - p) (rows_of s))
               (np.dtype_of (flat_array s))) /\
  getitem_slice zero s (npx.mk_pyslice (Some (- Z.of_nat p)) None None) =
    lift (store_of_rows
               (skipn (length (rows_of s) - p) (rows_of s))
               (np.dtype_of (flat_array s))).
Proof.
  intros Hp. pose proof (len_nonneg s) as Hn.
  assert (len s = Z.of_nat (length (rows_of s))) as Hlen
    by (rewrite rows_of_length; reflexivity).
  set (n := length (rows_of s)) in *.
  split; rewrite getitem_slice_step_1;
    rewrite adjust_from_end by lia; rewrite Hlen.
  - replace (Z.to_nat (Z.max (Z.of_nat n - Z.of_nat p) 0 - 0))
      with (n - p)%nat by lia.
    reflexivity.
  - replace (Z.to_nat (Z.of_nat n - Z.max (Z.of_nat n - Z.of_nat p) 0))
      with (n - (n - p))%nat by lia.
    replace (Z.to_nat (Z.max (Z.of_nat n - Z.of_nat p) 0))
      with (n - p)%nat by lia.
    rewrite firstn_all2 by (rewrite length_skipn; fold n; lia). reflexivity.
Qed.

Lemma countdown (n : nat) :
  map (fun k => Z.of_nat n - 1 + Z.of_nat k * -1) (seq 0 n) =
  rev (map Z.of_nat (seq 0 n)).
Proof.
  induction n as [| n IH]; [reflexivity|].
  replace (rev (map Z.of_nat (seq 0 (S n))))
    with (Z.of_nat n :: rev (map Z.of_nat (seq 0 n)))
    by (rewrite (seq_S n 0), map_app, rev_app_distr; reflexivity).
  cbn [seq map]. rewrite <- seq_shift, map_map. f_equal; [lia|].
  rewrite <- IH. apply map_ext. intros k. lia.
Qed.

(** X12. [self[::-1]] comes to construction from the rows of the store
    in reverse order. *)
Theorem slice_reversed (s : store') :
  getitem_slice zero s (npx.mk_pyslice None None (Some (-1))) =
    lift (store_of_rows (rev (rows_of s)) (np.dtype_of (flat_array s))).
Proof.
  pose proof (len_nonneg s) as Hn.
  assert (npx.arange_getitem (len s) (npx.mk_pyslice None None (Some (-1))) =
          Returns (rev (map Z.of_nat
                          (seq 0 (length (np.items (start_indices s)))))))
    as Ha.
  { unfold npx.arange_getitem, npx.range.
    cbn [npx.slice_step npx.slice_start npx.slice_stop].
    replace (-1 =? 0) with false by reflexivity.
    replace (-1 <? 0) with true by reflexivity.
    assert (Z.to_nat (if -1 <? len s - 1
                      then (len s - 1 - -1 - 1) / - -1 + 1 else 0) =
            length (np.items (start_indices s))) as Hc.
    { unfold len, np.len in *.
      destruct (Z.ltb_spec (-1)
                  (Z.of_nat (length (np.items (start_indices s))) - 1)).
      - change (- -1) with 1. rewrite Z.div_1_r. lia.
      - lia. }
    rewrite Hc. unfold len, np.len. rewrite countdown. reflexivity. }
  destruct (arange_getitem_in_range (len s) _ Hn
              (ltac:(discriminate) :
                 npx.slice_step (npx.mk_pyslice None None (Some (-1)))
                 <> Some 0))
    as [selected [Ha' Hin]].
  rewrite Ha in Ha'. injection Ha' as <-.
  rewrite (getitem_slice_selected s _ _ Ha Hin).
  do 2 f_equal. unfold rows_of.
  rewrite map_rev, map_map. f_equal.
  apply map_ext. intros k. rewrite Nat2Z.id. reflexivity.
Qed.

(** ** Indexing with a mask and with the list of its true positions *)

Lemma true_positions_from_zero (mask : list bool) :
  filter (fun i => nth (i - 0) mask false) (seq 0 (length mask)) =
  true_positions mask.
Proof.
  unfold true_positions. apply filter_ext. intros i.
  rewrite Nat.sub_0_r. reflexivity.
Qed.

Lemma true_positions_below (mask : list bool) :
  Forall (fun i => (i < length mask)%nat) (true_positions mask).
Proof.
  apply Forall_forall. intros i Hi. unfold true_positions in Hi.
  apply filter_In in Hi. destruct Hi as [Hi _]. apply in_seq in Hi. lia.
Qed.

(** X13. A boolean mask no longer than the store selects what the list of
    its true positions selects: [self[mask]] and
    [self[[i for i, m in enumerate(mask) if m]]] come to the same, the
    construction from the rows at the true positions in increasing
    order. *)
Theorem mask_is_take_of_true_positions (s : store') (mask : list bool) :
  Z.of_nat (length mask) <= len s ->
  getitem zero s (Item_mask mask) =
    getitem zero s (Item_list (map Z.of_nat (true_positions mask))) /\
  getitem zero s (Item_mask mask) =
    (ra <~ lift (store_of_rows (map (row_value s) (true_positions mask))
                               (np.dtype_of (flat_array s))) ;;
     Returns (Store ra)).
Proof.
  intros Hk.
  assert (getitem zero s (Item_mask mask) =
          (ra <~ lift (store_of_rows
                         (map (row_value s) (true_positions mask))
                         (np.dtype_of (flat_array s))) ;;
           Returns (Store ra))) as Hm.
  { unfold getitem, getitem_mask, enumerate.
    rewrite mask_loop_in_range by (unfold len, np.len in Hk; lia).
    rewrite true_positions_from_zero. cbn [app bind].
    rewrite init_rows_spec. reflexivity. }
  split; [|exact Hm]. rewrite Hm.
  unfold getitem, take.
  assert ((len s =? 0) &&
          (Z.of_nat (length (map Z.of_nat (true_positions mask))) >? 0) =
          false) as Hg.
  { destruct (Z.eqb_spec (len s) 0) as [e | ne]; [|reflexivity].
    destruct mask as [| m mask]; [reflexivity|]. simpl in Hk. lia. }
  rewrite Hg.
  rewrite (comprehension_map _ (fun i => row_value s (Z.to_nat i))).
  - cbn [bind]. rewrite init_rows_spec, map_map.
    do 3 f_equal. apply map_ext. intros k. rewrite Nat2Z.id. reflexivity.
  - apply Forall_forall. intros i Hi. apply in_map_iff in Hi.
    destruct Hi as [k [<- Hin]].
    pose proof (true_positions_below mask) as Hb.
    rewrite Forall_forall in Hb. specialize (Hb k Hin).
    apply getitem_int_in_range. lia.
Qed.

(** ** copy and isna *)

Lemma copy_of_valid (s : store') :
  valid_store s -> copy zero s = Ok s.
Proof.
  intros [[w Hw] [H1 [H2 Hall]]]. unfold copy, RaggedArray_init.
  assert (_validate_ragged_properties (Ndarray (start_indices s))
            (Ndarray (flat_array s)) = Ok tt) as Hv.
  { apply validate_ok_iff. exists (start_indices s), (flat_array s).
    repeat split; try assumption.
    - rewrite Hw. reflexivity.
    - eapply Forall_impl; [|exact Hall]. simpl. intros x Hx. lia. }
  rewrite Hv. destruct s. reflexivity.
Qed.

Lemma lengths_are_zero (m : Z) (xs : list Z) :
  forall x,
    map (fun p => snd p =? fst p) (combine (xs ++ [m]) (x :: xs)) =
    map (fun j => nth j (x :: xs) 0 =?
                  (if Nat.eqb (S j) (length (x :: xs)) then m
                   else nth (S j) (x :: xs) 0))
        (seq 0 (length (x :: xs))).
Proof.
  induction xs as [| y ys IH]; intros x; [reflexivity|].
  change (length (x :: y :: ys)) with (S (length (y :: ys))).
  change (seq 0 (S (length (y :: ys))))
    with (0%nat :: seq 1 (length (y :: ys))).
  change ((y :: ys) ++ [m]) with (y :: (ys ++ [m])).
  cbn [combine map]. f_equal.
  rewrite IH. rewrite <- seq_shift, map_map. apply map_ext. intros j.
  reflexivity.
Qed.

Lemma round64_small (v : Z) : Z.abs v < 2 ^ 53 -> npx.round64 v = v.
Proof.
  intros H. unfold npx.round64.
  replace (Z.abs v <? 2 ^ 53) with true by lia. reflexivity.
Qed.

Lemma cast_int64_exact (v : Z) :
  - 2 ^ 63 <= v < 2 ^ 63 -> np.cast (np.int np.W64) v = v.
Proof.
  intros H. unfold np.cast. cbn [np.nbits].
  change (64 - 1) with 63. rewrite Z.mod_small; lia.
Qed.

(** What [isna] computes on a valid store of fewer than 2^53 values: for
    every row, whether its start is its stop. *)
Lemma isna_of_valid (s : store') :
  valid_store s ->
  np.len (flat_array s) < 2 ^ 53 ->
  isna s =
    Returns (map (fun j => row_start s j =? row_stop s j)
                 (seq 0 (length (np.items (start_indices s))))).
Proof.
  intros [[w Hw] [_ [_ Hall]]] HM.
  unfold isna, row_start, row_stop, np.hstack, npx.subtract, npx.broadcast.
  cbn [map np.dtype_of np.array1 flat_map np.items lift and_then].
  rewrite Hw. set (m := np.len (flat_array s)) in *.
  destruct (np.items (start_indices s)) as [| x xs] eqn:Hl.
  - cbn [tl app]. destruct w; reflexivity.
  - cbn [tl]. rewrite app_nil_r.
    assert (Forall (fun v => 0 <= v <= m) (xs ++ [m])) as Hstops.
    { apply Forall_app. split.
      - inversion Hall; assumption.
      - constructor; [|constructor]. unfold m, np.len. lia. }
    rewrite <- lengths_are_zero.
    assert (length (xs ++ [m]) = length (x :: xs)) as Hlen
      by (rewrite length_app; simpl; lia).
    assert (forall p, In p (combine (xs ++ [m]) (x :: xs)) ->
                      0 <= fst p <= m /\ 0 <= snd p <= m) as Hp.
    { intros [u v] Hin. rewrite Forall_forall in Hstops, Hall. split.
      - apply Hstops. eapply in_combine_l. exact Hin.
      - apply Hall. eapply in_combine_r. exact Hin. }
    assert (2 ^ 53 < 2 ^ 63) as Hpow by reflexivity.
    assert (np.iinfo_max (np.int np.W64) = 2 ^ 63 - 1) as Hmax by reflexivity.
    destruct w.
    all: cbn [np.hstack_dtype fold_left np.promote_types np.nbits Z.ltb
              Z.compare Pos.compare Pos.compare_cont].
    1-3: rewrite (cast_int64_all_small (xs ++ [m]) m) by (assumption || lia).
    4: rewrite map_id.
    all: rewrite Hlen, Nat.eqb_refl; cbn [and_then np.items np.array1];
      rewrite map_map; f_equal; apply map_ext_in; intros p Hin;
      specialize (Hp p Hin).
    1-3: rewrite cast_int64_exact by lia;
      destruct (Z.eqb_spec (fst p - snd p) 0);
      destruct (Z.eqb_spec (snd p) (fst p)); try reflexivity; lia.
    rewrite (round64_small (fst p)), (round64_small (snd p)),
      round64_small by lia.
    destruct (Z.eqb_spec (fst p - snd p) 0);
      destruct (Z.eqb_spec (snd p) (fst p)); try reflexivity; lia.
Qed.

(** X14. On a valid store of fewer than 2^53 values, [isna] returns one
    boolean per row, true exactly for the rows that [__getitem__] returns
    as the missing sentinel. *)
Theorem isna_iff_missing (s : store') :
  valid_store s ->
  np.len (flat_array s) < 2 ^ 53 ->
  exists mask,
    isna s = Returns mask /\
    Z.of_nat (length mask) = len s /\
    forall i, Z.of_nat i < len s ->
      (nth i mask false = true <-> getitem_int s (Z.of_nat i) = Ok NaN).
Proof.
  intros Hv HM. eexists. split; [apply isna_of_valid; assumption|].
  split; [rewrite length_map, length_seq; reflexivity|].
  intros i Hi. unfold len, np.len in Hi.
  rewrite nth_map_seq by lia.
  rewrite getitem_int_in_range by (unfold len, np.len; lia).
  rewrite Nat2Z.id, Z.eqb_eq, <- row_value_NaN. split; congruence.
Qed.

(** ** shift *)

Lemma cumulative_starts_app (d1 d2 : list (@datum E)) :
  forall cursor,
    cumulative_starts cursor (d1 ++ d2) =
    cumulative_starts cursor d1 ++
    cumulative_starts (cursor + buffer_len d1) d2.
Proof.
  induction d1 as [| v d1 IH]; intros cursor.
  - cbn [app cumulative_starts]. change (buffer_len (@nil (@datum E))) with 0.
    rewrite Z.add_0_r. reflexivity.
  - cbn [app cumulative_starts].
    rewrite IH, buffer_len_cons, Z.add_assoc. reflexivity.
Qed.

Lemma cumulative_starts_shift (d : list (@datum E)) :
  forall base cursor,
    map (fun x => x + base) (cumulative_starts cursor d) =
    cumulative_starts (cursor + base) d.
Proof.
  induction d as [| v d IH]; intros base cursor; [reflexivity|].
  cbn [cumulative_starts map]. rewrite IH. do 2 f_equal. lia.
Qed.

Lemma min_scalar_type_holds (v : Z) :
  0 <= v <= np.iinfo_max (np.uint np.W64) ->
  exists w, np.min_scalar_type v = np.uint w /\ v <= np.iinfo_max (np.uint w).
Proof.
  intros H. unfold np.min_scalar_type.
  replace (0 <=? v) with true by lia.
  destruct (Z.leb_spec v (np.iinfo_max (np.uint np.W8)));
    [eexists; split; [reflexivity | assumption]|].
  destruct (Z.leb_spec v (np.iinfo_max (np.uint np.W16)));
    [eexists; split; [reflexivity | assumption]|].
  destruct (Z.leb_spec v (np.iinfo_max (np.uint np.W32)));
    [eexists; split; [reflexivity | assumption]|].
  eexists; split; [reflexivity | lia].
Qed.

Lemma flat_map_stored_length (dtype : np.dtype) (data : list (@datum E)) :
  Z.of_nat (length (flat_map (stored_items dtype) data)) = buffer_len data.
Proof.
  rewrite flat_map_stored, flat_map_items_length. apply buffer_len_stored.
Qed.

(** The two buffers of the encoding of rows whose elements fit 64-bit
    offsets. *)
Lemma from_rows_buffers (data : list (@datum E)) (dtype : np.dtype) :
  buffer_len data <= np.iinfo_max (np.uint np.W64) ->
  exists w,
    from_rows data dtype =
      mk_RaggedArray (np.array1 (np.uint w) (cumulative_starts 0 data))
                     (np.array1 dtype (flat_map (stored_items dtype) data)) /\
    buffer_len data <= np.iinfo_max (np.uint w).
Proof.
  intros H. unfold from_rows. cbv zeta.
  destruct (start_indices_dtype_smallest _ H) as [w [Hw [Hle _]]].
  exists w. rewrite Hw. split; [|exact Hle].
  rewrite (cast_uint_all_small w _ (0 + buffer_len data));
    [reflexivity | lia | apply cumulative_starts_bounds; lia].
Qed.

(** Concatenation of two stores built from rows, one of which holds no
    element: the result holds the layout of the rows of the first
    followed by the rows of the second. *)
Lemma concat_two_layouts (d1 d2 : list (@datum E)) (dtype : np.dtype) :
  buffer_len d1 = 0 \/ buffer_len d2 = 0 ->
  buffer_len d1 + buffer_len d2 <= np.iinfo_max (np.int np.W64) ->
  exists r,
    _concat_same_type zero
      [from_rows d1 dtype; from_rows d2 dtype] = Ok r /\
    np.items (start_indices r) = cumulative_starts 0 (d1 ++ d2) /\
    np.items (flat_array r) = flat_map (stored_items dtype) (d1 ++ d2).
Proof.
  intros Hz HM.
  pose proof (buffer_len_nonneg d1) as H1.
  pose proof (buffer_len_nonneg d2) as H2.
  assert (np.iinfo_max (np.int np.W64) <= np.iinfo_max (np.uint np.W64))
    as H64 by (vm_compute; discriminate).
  destruct (from_rows_buffers d1 dtype) as [wa [Ha Hma]]; [lia|].
  destruct (from_rows_buffers d2 dtype) as [wb [Hb Hmb]]; [lia|].
  destruct (min_scalar_type_holds (buffer_len d1)) as [wm [Hwm Hmm]]; [lia|].
  set (a := from_rows d1 dtype) in *.
  set (b := from_rows d2 dtype) in *.
  assert (np.len (flat_array a) = buffer_len d1) as Hla
    by (rewrite Ha; apply flat_map_stored_length).
  assert (np.len (flat_array b) = buffer_len d2) as Hlb
    by (rewrite Hb; apply flat_map_stored_length).
  set (T := buffer_len d1 + buffer_len d2) in *.
  pose proof (iinfo_max_wider wb wm) as [Hwb1 Hwb2].
  pose proof (iinfo_max_wider wa np.W8) as [Hwa1 _].
  pose proof (iinfo_max_wider (np.wider wa np.W8) (np.wider wb wm))
    as [Hw1 Hw2].
  set (w := np.wider (np.wider wa np.W8) (np.wider wb wm)) in *.
  assert (T <= np.iinfo_max (np.uint (np.wider wb wm))
          \/ buffer_len d2 = 0) as HTb by (destruct Hz; [left | right]; lia).
  assert (T <= np.iinfo_max (np.uint w)) as HT
    by (destruct Hz; unfold T; lia).
  assert (Forall (fun x => 0 <= x <= T)
                 (cumulative_starts 0 (d1 ++ d2))) as Hall.
  { replace T with (0 + buffer_len (d1 ++ d2))
      by (rewrite buffer_len_app; reflexivity).
    apply cumulative_starts_bounds. lia. }
  assert (np.items (np.add_scalar (start_indices a) (np.int np.W64) 0) =
          cumulative_starts 0 d1 /\
          np.dtype_of (np.add_scalar (start_indices a) (np.int np.W64) 0) =
          np.uint (np.wider wa np.W8)) as [Hia Hda].
  { rewrite Ha. unfold np.add_scalar.
    cbn [start_indices np.dtype_of np.array1 np.items np.add_scalar_dtype].
    change (np.min_scalar_type 0) with (np.uint np.W8).
    cbn [np.promote_types]. split; [|reflexivity].
    rewrite <- (map_id (cumulative_starts 0 d1)) at 2.
    apply map_ext_in. intros x Hx.
    pose proof (cumulative_starts_bounds d1 0 (Z.le_refl 0)) as Hbd.
    rewrite Forall_forall in Hbd. specialize (Hbd x Hx).
    rewrite cast_uint_small by lia. lia. }
  assert (np.items (np.add_scalar (start_indices b) (np.int np.W64)
                                  (buffer_len d1)) =
          cumulative_starts (buffer_len d1) d2 /\
          np.dtype_of (np.add_scalar (start_indices b) (np.int np.W64)
                                     (buffer_len d1)) =
          np.uint (np.wider wb wm)) as [Hib Hdb].
  { rewrite Hb. unfold np.add_scalar.
    cbn [start_indices np.dtype_of np.array1 np.items np.add_scalar_dtype].
    rewrite Hwm. cbn [np.promote_types]. split; [|reflexivity].
    transitivity (map (fun x => x + buffer_len d1) (cumulative_starts 0 d2));
      [|exact (cumulative_starts_shift d2 (buffer_len d1) 0)].
    apply map_ext_in. intros x Hx.
    pose proof (cumulative_starts_bounds d2 0 (Z.le_refl 0)) as Hbd.
    rewrite Forall_forall in Hbd. specialize (Hbd x Hx).
    apply cast_uint_small. unfold T in HTb. lia. }
  set (si := np.array1 (np.uint w) (cumulative_starts 0 (d1 ++ d2))).
  set (fa := np.array1 dtype (flat_map (stored_items dtype) (d1 ++ d2))).
  exists (mk_RaggedArray si fa). split; [|split; reflexivity].
  unfold _concat_same_type.
  pose proof (offsets_array a b []) as Hoff. cbv zeta in Hoff.
  rewrite Hoff by (rewrite !total_len_cons, Hla, Hlb;
                   change (total_len []) with 0; lia).
  assert (np.hstack_same (map flat_array [a; b]) = Ok fa) as Hfa.
  { cbn [map np.hstack_same flat_map]. rewrite Ha, Hb.
    cbn [flat_array np.dtype_of np.array1 np.items].
    unfold fa. rewrite flat_map_app, app_nil_r. reflexivity. }
  rewrite Hfa.
  cbn [bind np.items np.array1 np.dtype_of bases_of combine map fst snd].
  rewrite Z.add_0_l, Hla. unfold np.hstack.
  cbn [map np.hstack_dtype fold_left flat_map].
  rewrite Hda, Hdb, Hia, Hib, app_nil_r. cbn [np.promote_types]. fold w.
  change (cumulative_starts (buffer_len d1) d2)
    with (cumulative_starts (0 + buffer_len d1) d2).
  rewrite <- cumulative_starts_app.
  rewrite (cast_uint_all_small w _ T HT Hall). fold si.
  unfold RaggedArray_init.
  assert (_validate_ragged_properties (Ndarray si) (Ndarray fa) = Ok tt)
    as Hv.
  { apply validate_ok_iff. exists si, fa.
    repeat split; try reflexivity.
    unfold si, fa, np.len. cbn [np.items np.array1].
    rewrite flat_map_stored_length, buffer_len_app. fold T.
    eapply Forall_impl; [|exact Hall]. simpl. intros x Hx. lia. }
  cbn [bind]. rewrite Hv. reflexivity.
Qed.

Lemma buffer_len_of_fill (v : @datum E) (k : nat) :
  datum_len v = 0 -> buffer_len (repeat v k) = 0.
Proof.
  intros H. induction k as [| k IH]; [reflexivity|].
  cbn [repeat]. rewrite buffer_len_cons. lia.
Qed.

Lemma buffer_len_parts (l : list (@datum E)) (n : nat) :
  buffer_len (firstn n l) <= buffer_len l /\
  buffer_len (skipn n l) <= buffer_len l.
Proof.
  pose proof (buffer_len_app (firstn n l) (skipn n l)) as H.
  rewrite firstn_skipn in H.
  pose proof (buffer_len_nonneg (firstn n l)).
  pose proof (buffer_len_nonneg (skipn n l)). lia.
Qed.

Lemma read_back_fill (dtype : np.dtype) (v : @datum E) :
  datum_len v = 0 -> as_read_back dtype v = NaN.
Proof. intros H. unfold as_read_back. rewrite H. reflexivity. Qed.

Lemma rows_shifted_forward (dtype : np.dtype) (rows : list (@datum E))
  (v : @datum E) (k j : nat) :
  datum_len v = 0 -> (k <= length rows)%nat -> (j < length rows)%nat ->
  as_read_back dtype
    (nth j (repeat v k ++ firstn (length rows - k) rows) NaN) =
    if (j <? k)%nat then NaN else as_read_back dtype (nth (j - k) rows NaN).
Proof.
  intros Hv Hk Hj. destruct (Nat.ltb_spec j k) as [Hlt | Hge].
  - rewrite app_nth1 by (rewrite repeat_length; exact Hlt).
    rewrite nth_repeat_lt by exact Hlt. apply read_back_fill, Hv.
  - rewrite app_nth2 by (rewrite repeat_length; lia).
    rewrite repeat_length, nth_firstn.
    replace (j - k <? length rows - k)%nat with true
      by (symmetry; apply Nat.ltb_lt; lia).
    reflexivity.
Qed.

Lemma rows_shifted_backward (dtype : np.dtype) (rows : list (@datum E))
  (v : @datum E) (k j : nat) :
  datum_len v = 0 -> (k <= length rows)%nat -> (j < length rows)%nat ->
  as_read_back dtype (nth j (skipn k rows ++ repeat v k) NaN) =
    if (j <? length rows - k)%nat
    then as_read_back dtype (nth (k + j) rows NaN)
    else NaN.
Proof.
  intros Hv Hk Hj. destruct (Nat.ltb_spec j (length rows - k)) as [Hlt | Hge].
  - rewrite app_nth1 by (rewrite length_skipn; exact Hlt).
    rewrite nth_skipn. reflexivity.
  - rewrite app_nth2 by (rewrite length_skipn; lia).
    rewrite nth_repeat_lt by (rewrite length_skipn; lia).
    apply read_back_fill, Hv.
Qed.

(** Sizes that numpy accepts for any dtype, and construction from rows
    all of which can be stored. *)
Lemma accepted_size (n : Z) (d : np.dtype) :
  0 <= n -> 8 * n <= np.intp_max -> np.refused n d = None.
Proof.
  intros H0 H8. unfold np.refused.
  assert (1 <= np.itemsize d <= 8) as Hi
    by (destruct d as [[] | [] |]; vm_compute; split; discriminate).
  replace (np.intp_max <? n) with false by lia.
  replace (np.intp_max <? n * np.itemsize d) with false by nia.
  reflexivity.
Qed.

Lemma store_of_rows_accepts (data : list (@datum E)) (dtype : np.dtype) :
  8 * Z.of_nat (length data) <= np.intp_max ->
  8 * buffer_len data <= np.intp_max ->
  Forall (fun v => storable dtype v = true) data ->
  store_of_rows data dtype = Ok (from_rows data dtype).
Proof.
  intros Hn Hm Hall. apply store_of_rows_Ok.
  pose proof (buffer_len_nonneg data).
  repeat split; [apply accepted_size; lia | apply accepted_size; lia
                 | exact Hall].
Qed.

Lemma storable_floats (dtype : np.dtype) (data : list (@datum E)) :
  np.dtype_kind dtype = np.kind_f ->
  Forall (fun v => storable dtype v = true) data.
Proof.
  intros Hk. apply Forall_forall. intros v _. unfold storable.
  rewrite Hk. destruct v; reflexivity.
Qed.

(** X15. [shift] of a store that is not empty by [periods <> 0]. When the
    values are floats and the fill value is missing (or an empty array),
    the result has the length of the store; its row [i] is row
    [i - periods] of the store where the store has one, read back, and
    missing where it has none. When the values are not floats and the
    fill value is missing (the default), [shift] raises numpy's
    ValueError: the rows to fill with are [np.nan] rows, which a buffer of
    integers does not take. *)
Theorem shift_moves_rows (s : store') (periods : Z) (fill_value : @datum E) :
  len s <> 0 -> periods <> 0 ->
  8 * len s <= np.intp_max ->
  (np.dtype_kind (np.dtype_of (flat_array s)) = np.kind_f ->
   datum_len fill_value = 0 ->
   8 * buffer_len (rows_of s) <= np.intp_max ->
   exists r,
     shift zero s periods fill_value = Returns r /\
     len r = len s /\
     forall i, 0 <= i < len s ->
       getitem_int r i =
         Ok (if (0 <=? i - periods) && (i - periods <? len s)
             then as_read_back (np.dtype_of (flat_array s))
                    (row_value s (Z.to_nat (i - periods)))
             else NaN)) /\
  (np.dtype_kind (np.dtype_of (flat_array s)) <> np.kind_f ->
   missing fill_value = true ->
   shift zero s periods fill_value =
     Raises (Of_exn (ValueError Cannot_convert_float_NaN_to_integer))).
Proof.
  intros Hlen Hp H8.
  pose proof (len_nonneg s) as Hn.
  assert (len s = Z.of_nat (length (rows_of s))) as HN
    by (rewrite rows_of_length; reflexivity).
  set (dtype := np.dtype_of (flat_array s)) in *.
  set (rows := rows_of s) in *. set (n := length rows) in *.
  set (fill := match fill_value with PyNone => NaN | _ => fill_value end).
  set (k := Z.to_nat (Z.min (Z.abs periods) (len s))).
  assert (k <= n)%nat as Hk by lia.
  assert (1 <= k)%nat as Hk1 by lia.
  assert (shift zero s periods fill_value =
          (empty <~ lift (store_of_rows (repeat fill k) dtype) ;;
           if periods >? 0 then
             b <~ lift (store_of_rows (firstn (n - k) rows) dtype) ;;
             lift (_concat_same_type zero [empty; b])
           else
             a <~ lift (store_of_rows (skipn k rows) dtype) ;;
             lift (_concat_same_type zero [a; empty]))) as Hshift.
  { unfold shift.
    replace ((len s =? 0) || (periods =? 0)) with false
      by (symmetry; apply orb_false_iff; split; apply Z.eqb_neq; assumption).
    fold fill. fold k. fold dtype. unfold _from_sequence.
    rewrite init_rows_spec.
    destruct (store_of_rows (repeat fill k) dtype) as [empty | e];
      [|reflexivity].
    cbn [lift and_then].
    destruct (Z.gtb_spec periods 0) as [Hpos | Hneg].
    - rewrite getitem_slice_step_1, adjust_from_end by lia.
      fold rows. fold dtype. change (Z.to_nat 0) with 0%nat. cbn [skipn].
      replace (Z.to_nat (Z.max (len s - periods) 0 - 0)) with (n - k)%nat
        by lia.
      reflexivity.
    - rewrite getitem_slice_step_1, adjust_nonneg by lia.
      fold rows. fold dtype.
      replace (Z.to_nat (Z.min (Z.abs periods) (len s))) with k
        by reflexivity.
      replace (Z.to_nat (len s - Z.min (Z.abs periods) (len s)))
        with (n - k)%nat by lia.
      rewrite firstn_all2 by (rewrite length_skipn; fold n; lia).
      reflexivity. }
  rewrite Hshift. clear Hshift. split.
  - intros Hkind Hfill HM.
    assert (datum_len fill = 0) as Hf by (destruct fill_value; assumption).
    pose proof (buffer_len_of_fill fill k Hf) as Hz.
    pose proof (buffer_len_nonneg rows) as Hrows0.
    assert (forall j, (j < n)%nat -> nth j rows NaN = row_value s j) as Hrow.
    { intros j Hj. unfold rows, rows_of. apply nth_map_seq.
      unfold n, rows in Hj. rewrite rows_of_length in Hj. exact Hj. }
    assert (np.iinfo_max (np.int np.W64) = np.intp_max) as H63
      by reflexivity.
    rewrite (store_of_rows_accepts (repeat fill k))
      by (rewrite ?repeat_length, ?Hz; try lia;
          apply storable_floats; assumption).
    cbn [lift and_then].
    destruct (Z.gtb_spec periods 0) as [Hpos | Hneg].
    + pose proof (buffer_len_parts rows (n - k)) as [Hpart _].
      rewrite (store_of_rows_accepts (firstn (n - k) rows))
        by (rewrite ?length_firstn; try lia;
            apply storable_floats; assumption).
      cbn [lift and_then].
      destruct (concat_two_layouts (repeat fill k) (firstn (n - k) rows)
                  dtype) as [r [Hr [Hsi Hfa]]].
      { left. exact Hz. }
      { lia. }
      exists r. rewrite Hr. split; [reflexivity|].
      assert (length (repeat fill k ++ firstn (n - k) rows) = n) as Hl
        by (rewrite length_app, repeat_length, length_firstn; fold n; lia).
      split.
      * unfold len at 1, np.len.
        rewrite Hsi, cumulative_starts_length, Hl. lia.
      * intros i Hi. rewrite <- (Z2Nat.id i) at 1 by lia.
        rewrite (read_back_layout r _ dtype (Z.to_nat i) Hsi Hfa) by lia.
        f_equal. unfold n at 1.
        rewrite rows_shifted_forward by (fold n; assumption || lia).
        destruct (Nat.ltb_spec (Z.to_nat i) k) as [Hlt | Hge].
        -- replace (0 <=? i - periods) with false by lia. reflexivity.
        -- replace (0 <=? i - periods) with true by lia.
           replace (i - periods <? len s) with true by lia. cbn [andb].
           rewrite Hrow by lia. do 2 f_equal. lia.
    + pose proof (buffer_len_parts rows k) as [_ Hpart].
      rewrite (store_of_rows_accepts (skipn k rows))
        by (rewrite ?length_skipn; try lia;
            apply storable_floats; assumption).
      cbn [lift and_then].
      destruct (concat_two_layouts (skipn k rows) (repeat fill k) dtype)
        as [r [Hr [Hsi Hfa]]].
      { right. exact Hz. }
      { lia. }
      exists r. rewrite Hr. split; [reflexivity|].
      assert (length (skipn k rows ++ repeat fill k) = n) as Hl
        by (rewrite length_app, repeat_length, length_skipn; fold n; lia).
      split.
      * unfold len at 1, np.len.
        rewrite Hsi, cumulative_starts_length, Hl. lia.
      * intros i Hi. rewrite <- (Z2Nat.id i) at 1 by lia.
        rewrite (read_back_layout r _ dtype (Z.to_nat i) Hsi Hfa) by lia.
        f_equal.
        rewrite rows_shifted_backward by (fold n; assumption || lia).
        fold n.
        replace (0 <=? i - periods) with true by lia. cbn [andb].
        destruct (Nat.ltb_spec (Z.to_nat i) (n - k)) as [Hlt | Hge].
        -- replace (i - periods <? len s) with true by lia.
           rewrite Hrow by lia. do 2 f_equal. lia.
        -- replace (i - periods <? len s) with false by lia. reflexivity.
  - intros Hkind Hmiss.
    assert (fill = NaN) as ->
      by (unfold fill; destruct fill_value; try reflexivity; discriminate).
    assert (store_of_rows (repeat (@NaN E) k) dtype =
            Raise (ValueError Cannot_convert_float_NaN_to_integer)) as He.
    { unfold store_of_rows.
      rewrite repeat_length, (buffer_len_of_fill NaN k eq_refl).
      assert (np.refused (Z.of_nat k) (start_indices_dtype_for 0) = None)
        as -> by (apply accepted_size; lia).
      assert (np.refused 0 dtype = None) as ->
        by (apply accepted_size; unfold np.intp_max; lia).
      destruct k as [| k']; [lia|]. cbn [repeat find storable].
      destruct (np.dtype_kind dtype); try contradiction; reflexivity. }
    rewrite He. reflexivity.
Qed.

(** X16. [copy] of a store that keeps the invariants returns a store
    with the same two buffers, and so does [shift] of such a store when it
    is empty or when [periods] is 0, whatever the fill value. *)
Theorem shift_nothing (s : store') (periods : Z) (fill_value : @datum E) :
  valid_store s ->
  len s = 0 \/ periods = 0 ->
  copy zero s = Ok s /\
  shift zero s periods fill_value = Returns s.
Proof.
  intros Hv Hedge. split; [apply copy_of_valid, Hv|]. unfold shift.
  replace ((len s =? 0) || (periods =? 0)) with true
    by (symmetry; apply orb_true_iff;
        destruct Hedge; [left | right]; apply Z.eqb_eq; assumption).
  rewrite copy_of_valid by assumption. reflexivity.
Qed.

(** ** Concatenation of fewer than two stores *)

Lemma promote_float64 (d : np.dtype) : np.promote_types d np.float64 = np.float64.
Proof. destruct d; reflexivity. Qed.

(** X17. [_concat_same_type] needs at least two stores: of a list of one
    store, whatever the store, it raises the ValueError of the validation
    of the offsets, because [np.cumsum([])] is a float64 array and the
    offsets added to it are no longer unsigned integers; of the empty list
    it raises the ValueError of [np.hstack]. *)
Theorem concat_of_one_raises (s : store') :
  _concat_same_type zero [s] = Raise (ValueError Bad_start_indices) /\
  _concat_same_type zero (@nil store') =
    Raise (ValueError Need_at_least_one_array).
Proof.
  split; [|reflexivity].
  unfold _concat_same_type.
  cbn [map removelast np.hstack_same np.cumsum np.hstack bind np.hstack_dtype
       fold_left np.dtype_of np.array1 np.promote_types flat_map np.items
       app combine fst snd].
  unfold np.add_scalar at 1 2.
  cbn [np.add_scalar_dtype np.dtype_of]. rewrite promote_float64.
  unfold RaggedArray_init, _validate_ragged_properties.
  cbn [np.dtype_of np.array1 np.dtype_kind np.kind_eqb negb orb bind].
  reflexivity.
Qed.

(** ** Equality against arrays *)

Section MoreEquality.

Variable eq_item : E -> E -> bool.

(** The bounds the three kernels compute for row [j] are the bounds of
    the row. *)
Lemma kernel_bounds (s : store') (j : nat) :
  (j < length (np.items (start_indices s)))%nat ->
  kernel_start s (Z.of_nat j) = row_start s j /\
  kernel_stop s (Z.of_nat j) = row_stop s j.
Proof.
  intros Hj. unfold kernel_start, kernel_stop, row_start, row_stop, np.item.
  rewrite Nat2Z.id. split; [reflexivity|].
  replace (Z.to_nat (Z.of_nat j + 1)) with (S j) by lia.
  destruct (Nat.eqb_spec (S j) (length (np.items (start_indices s)))).
  - replace (Z.of_nat j <? Z.of_nat (length (np.items (start_indices s))) - 1)
      with false by lia.
    reflexivity.
  - replace (Z.of_nat j <? Z.of_nat (length (np.items (start_indices s))) - 1)
      with true by lia.
    reflexivity.
Qed.

Lemma kernel_slice (s : store') (j : nat) :
  (j < length (np.items (start_indices s)))%nat ->
  np.slice (np.items (flat_array s))
           (kernel_start s (Z.of_nat j)) (kernel_stop s (Z.of_nat j)) =
    subrange s j.
Proof.
  intros Hj. destruct (kernel_bounds s j Hj) as [-> ->]. reflexivity.
Qed.

Lemma array_equal_refl (a : list E) :
  (forall x, eq_item x x = true) -> np.array_equal eq_item a a = true.
Proof.
  intros Hrefl. unfold np.array_equal. rewrite Nat.eqb_refl.
  induction a as [| x a IH]; [reflexivity|].
  simpl. rewrite Hrefl, IH. reflexivity.
Qed.

Lemma map_all (f : nat -> bool) (b : bool) (n : nat) :
  (forall j, (j < n)%nat -> f j = b) -> map f (seq 0 n) = repeat b n.
Proof.
  intros H. induction n as [| n IH]; [reflexivity|].
  rewrite seq_S, map_app, IH by (intros j Hj; apply H; lia).
  cbn [map Nat.add]. rewrite (H n) by lia.
  rewrite <- repeat_cons. reflexivity.
Qed.

Lemma map_negb_repeat (b : bool) (n : nat) :
  map negb (repeat b n) = repeat (negb b) n.
Proof.
  induction n as [| n IH]; [reflexivity|].
  cbn [repeat map]. rewrite IH. reflexivity.
Qed.

(** What construction from rows returns. *)
Lemma constructed_layout (data : list (@datum E)) (dtype : np.dtype)
  (s : store') :
  RaggedArray_init zero (Rows data) dtype = Ok s ->
  np.items (start_indices s) = cumulative_starts 0 (map (as_stored dtype) data)
  /\
  np.items (flat_array s) =
    flat_map datum_items (map (as_stored dtype) data) /\
  length (np.items (start_indices s)) = length data.
Proof.
  intros Hs. rewrite init_rows_spec in Hs.
  apply store_of_rows_Ok in Hs. destruct Hs as [_ [Hr [_ ->]]].
  assert (buffer_len data <= np.iinfo_max (np.uint np.W64)) as HM.
  { unfold np.refused, np.intp_max in Hr.
    assert (2 ^ 63 - 1 < np.iinfo_max (np.uint np.W64))
      by (vm_compute; reflexivity).
    destruct (Z.ltb_spec (2 ^ 63 - 1) (buffer_len data));
      [discriminate | lia]. }
  destruct (from_rows_exact data dtype HM) as [Hsi [Hfa _]].
  rewrite cumulative_starts_stored, <- flat_map_stored.
  split; [exact Hsi|]. split; [exact Hfa|].
  rewrite Hsi. apply cumulative_starts_length.
Qed.

Lemma constructed_row (data : list (@datum E)) (dtype : np.dtype)
  (s : store') (j : nat) :
  RaggedArray_init zero (Rows data) dtype = Ok s ->
  (j < length data)%nat ->
  row_stop s j = row_start s j + datum_len (nth j data NaN) /\
  subrange s j = stored_items dtype (nth j data NaN).
Proof.
  intros Hs Hj. destruct (constructed_layout data dtype s Hs) as [Hsi [Hfa _]].
  destruct (layout_row s _ j Hsi Hfa) as [H1 [H2 H3]];
    [rewrite length_map; exact Hj|].
  rewrite nth_stored, datum_len_stored in *.
  rewrite H1, H2, H3. split; reflexivity.
Qed.

Lemma comprehension_all {A : Type} (f : nat -> result A) (g : nat -> A)
  (n : nat) :
  (forall j, (j < n)%nat -> f j = Ok (g j)) ->
  comprehension f (seq 0 n) = Ok (map g (seq 0 n)).
Proof.
  intros H. apply comprehension_map. apply Forall_forall.
  intros j Hj. apply in_seq in Hj. apply H. lia.
Qed.

(** X18. Round trip through [==]: when construction from a sequence of
    rows returns a store, and the conversion to the dtype of the values
    leaves the elements of the rows as they are, the store compared with
    the object array of the same rows is equal at every row, and [!=] is
    false at every row, provided [==] on elements is reflexive. *)
Theorem eq_rows_round_trip (data : list (@datum E)) (dtype : np.dtype)
  (s : store') :
  RaggedArray_init zero (Rows data) dtype = Ok s ->
  (forall v x, In v data -> In x (datum_items v) -> astype dtype x = x) ->
  (forall x, eq_item x x = true) ->
  eq eq_item s (Other_objects (map Item data)) =
    Returns (repeat true (length data)) /\
  ne eq_item s (Other_objects (map Item data)) =
    Returns (repeat false (length data)).
Proof.
  intros Hs Hkept Hrefl.
  destruct (constructed_layout data dtype s Hs) as [_ [_ Hlen]].
  assert (eq eq_item s (Other_objects (map Item data)) =
          Returns (repeat true (length data))) as Heq.
  { unfold eq, len, np.len. rewrite length_map, Hlen, Z.eqb_refl.
    unfold _eq_ragged_ndarray1d. rewrite Hlen.
    rewrite (comprehension_all _ (fun _ => true)).
    - cbn [lift]. f_equal. apply map_all. reflexivity.
    - intros j Hj. cbv zeta.
      rewrite (nth_indep _ Scalar_item (Item NaN))
        by (rewrite length_map; exact Hj).
      rewrite (map_nth Item data NaN j). f_equal.
      rewrite kernel_slice by lia.
      destruct (kernel_bounds s j) as [-> ->]; [lia|].
      destruct (constructed_row data dtype s j Hs Hj) as [-> ->].
      assert (In (nth j data NaN) data) as Hin by (apply nth_In; exact Hj).
      set (v := nth j data NaN) in *.
      pose proof (datum_len_nonneg v).
      destruct (missing v || (datum_len v =? 0)) eqn:Hm.
      + apply Z.eqb_eq. apply orb_true_iff in Hm. destruct Hm as [Hm | Hm].
        * destruct v; try discriminate; simpl; lia.
        * lia.
      + assert (stored_items dtype v = datum_items v) as ->.
        { unfold stored_items. destruct v as [| | a]; try reflexivity.
          cbn [as_stored datum_items]. rewrite <- (map_id a) at 2.
          apply map_ext_in. intros x Hx. apply (Hkept (Row a) x Hin Hx). }
        apply array_equal_refl, Hrefl. }
  split; [exact Heq|].
  unfold ne. rewrite Heq. cbn [and_then]. rewrite map_negb_repeat.
  reflexivity.
Qed.

(** X19. The same round trip against a 2-D array: when construction from
    the rows of the array returns a store, and the conversion leaves
    their elements as they are, the store is equal to the array at every
    row. *)
Theorem eq_array2_round_trip (a : list (list E)) (dtype : np.dtype)
  (s : store') :
  RaggedArray_init zero (Rows (map (@Row E) a)) dtype = Ok s ->
  (forall row x, In row a -> In x row -> astype dtype x = x) ->
  (forall x, eq_item x x = true) ->
  eq eq_item s (Other_array2 a) = Returns (repeat true (length a)).
Proof.
  intros Hs Hkept Hrefl.
  destruct (constructed_layout _ dtype s Hs) as [_ [_ Hlen]].
  rewrite length_map in Hlen.
  unfold eq, len, np.len. rewrite Hlen, Z.eqb_refl. f_equal.
  unfold _eq_ragged_ndarray2d. rewrite Hlen. apply map_all. intros j Hj.
  cbv zeta. rewrite kernel_slice by lia.
  destruct (constructed_row _ dtype s j Hs) as [_ ->];
    [rewrite length_map; exact Hj|].
  rewrite (nth_indep _ NaN (Row [])) by (rewrite length_map; exact Hj).
  rewrite (map_nth (@Row E) a [] j).
  unfold stored_items. cbn [as_stored datum_items].
  assert (map (astype dtype) (nth j a []) = nth j a []) as ->.
  { rewrite <- (map_id (nth j a [])) at 2. apply map_ext_in. intros x Hx.
    apply (Hkept (nth j a [])); [apply nth_In; exact Hj | exact Hx]. }
  apply array_equal_refl, Hrefl.
Qed.

Lemma map_over_positions {A B : Type} (g : A -> B) (l : list A) (d : A)
  (f : nat -> B) :
  (forall j, (j < length l)%nat -> f j = g (nth j l d)) ->
  map f (seq 0 (length l)) = map g l.
Proof.
  intros H. apply (nth_ext _ _ (f 0%nat) (g d)).
  - rewrite !length_map, length_seq. reflexivity.
  - intros j Hj. rewrite length_map, length_seq in Hj.
    rewrite nth_map_seq, map_nth by exact Hj. apply H, Hj.
Qed.

(** X24. Comparison with one 1-D array of elements, of any length: in the
    store that construction from a sequence of rows returns, it marks
    the rows whose elements, converted to the dtype of the values, are
    equal to the array; a row that was None, NaN or empty is marked when
    the array is empty. *)
Theorem eq_scalar_marks_rows (data : list (@datum E)) (dtype : np.dtype)
  (s : store') (val : list E) :
  RaggedArray_init zero (Rows data) dtype = Ok s ->
  eq eq_item s (Other_array1 val) =
    Returns (map (fun v => np.array_equal eq_item (stored_items dtype v) val)
                 data).
Proof.
  intros Hs.
  destruct (constructed_layout data dtype s Hs) as [_ [_ Hlen]].
  unfold eq, _eq_ragged_scalar. rewrite Hlen. f_equal.
  apply (map_over_positions
           (fun v => np.array_equal eq_item (stored_items dtype v) val)
           data NaN).
  intros j Hj. cbv zeta. rewrite kernel_slice by lia.
  destruct (constructed_row data dtype s j Hs Hj) as [_ ->]. reflexivity.
Qed.

(** X20. A store compared with itself is equal at every row, and [!=] is
    false at every row, when [==] on elements is reflexive; with an
    element that is not equal to itself (a float nan) in row [j], the
    store is not equal to itself at row [j]. *)
Theorem eq_store_itself (s : store') :
  ((forall x, eq_item x x = true) ->
   eq eq_item s (Other_ragged s) =
     Returns (repeat true (length (np.items (start_indices s)))) /\
   ne eq_item s (Other_ragged s) =
     Returns (repeat false (length (np.items (start_indices s))))) /\
  (forall j x,
     (j < length (np.items (start_indices s)))%nat ->
     In x (subrange s j) -> eq_item x x = false ->
     exists mask,
       eq eq_item s (Other_ragged s) = Returns mask /\
       nth j mask true = false).
Proof.
  assert (eq eq_item s (Other_ragged s) =
          Returns (_eq_ragged_ragged eq_item s s)) as Hself.
  { unfold eq, RaggedArray_eq. rewrite Z.eqb_refl. reflexivity. }
  split.
  - intros Hrefl.
    assert (_eq_ragged_ragged eq_item s s =
            repeat true (length (np.items (start_indices s)))) as Hall.
    { unfold _eq_ragged_ragged. rewrite Nat2Z.id. apply map_all.
      intros j Hj. apply array_equal_refl, Hrefl. }
    split.
    + rewrite Hself, Hall. reflexivity.
    + unfold ne. rewrite Hself, Hall. cbn [and_then].
      rewrite map_negb_repeat. reflexivity.
  - intros j x Hj Hin Hx. eexists. split; [exact Hself|].
    rewrite (nth_indep _ true false)
      by (rewrite eq_ragged_ragged_length; exact Hj).
    rewrite eq_ragged_ragged_nth by (reflexivity || exact Hj).
    destruct (np.array_equal eq_item (subrange s j) (subrange s j)) eqn:Hae;
      [|reflexivity].
    apply array_equal_spec in Hae. destruct Hae as [_ Hall].
    exfalso. revert Hin Hall. generalize (subrange s j) as l.
    induction l as [| y l IH]; intros Hin Hall; [contradiction|].
    inversion Hall; subst. destruct Hin as [-> | Hin]; [congruence|].
    apply IH; assumption.
Qed.

End MoreEquality.

(** ** Row views: factorization and order *)

Lemma as_ragged_element_array_cells (s : store') :
  _as_ragged_element_array s =
    Ok (map (fun j => ragged_or_nan (row_value s j))
            (seq 0 (length (np.items (start_indices s))))).
Proof.
  unfold _as_ragged_element_array.
  rewrite (comprehension_map _
             (fun i => ragged_or_nan (row_value s (Z.to_nat i)))).
  - unfold len, np.len. rewrite Nat2Z.id, map_map. f_equal.
    apply map_ext. intros j. rewrite Nat2Z.id. reflexivity.
  - apply Forall_forall. intros i Hi. apply in_map_iff in Hi.
    destruct Hi as [j [<- Hj]]. apply in_seq in Hj.
    rewrite getitem_int_in_range by lia. reflexivity.
Qed.

Lemma array_or_nan_of_row (s : store') (j : nat) :
  array_or_nan (ragged_or_nan (row_value s j)) = row_value s j.
Proof. unfold row_value. destruct (_ =? _); reflexivity. Qed.

(** X22. Factorization round trip: [_as_ragged_element_array] never
    raises and returns one cell per row, [np.nan] exactly for the rows
    that read as missing; [_from_factorized] of these cells comes to
    construction from the rows of the store, and when it returns a store,
    that store has the same length and its row [i] is row [i] of the
    store, read back. *)
Theorem factorize_round_trip (s : store') :
  exists cells,
    _as_ragged_element_array s = Ok cells /\
    Z.of_nat (length cells) = len s /\
    (forall i, (Z.of_nat i < len s) ->
       (nth i cells Nan_cell = Nan_cell <->
        getitem_int s (Z.of_nat i) = Ok NaN)) /\
    _from_factorized zero cells s =
      store_of_rows (rows_of s) (np.dtype_of (flat_array s)) /\
    forall r, _from_factorized zero cells s = Ok r ->
      len r = len s /\
      forall i, (Z.of_nat i < len s) ->
        getitem_int r (Z.of_nat i) =
          Ok (as_read_back (np.dtype_of (flat_array s)) (row_value s i)).
Proof.
  set (n := length (np.items (start_indices s))).
  set (dtype := np.dtype_of (flat_array s)).
  assert (map array_or_nan
            (map (fun j => ragged_or_nan (row_value s j)) (seq 0 n)) =
          rows_of s) as Hrows.
  { rewrite map_map. unfold rows_of. apply map_ext. intros j.
    apply array_or_nan_of_row. }
  exists (map (fun j => ragged_or_nan (row_value s j)) (seq 0 n)).
  split; [apply as_ragged_element_array_cells|].
  split; [rewrite length_map, length_seq; reflexivity|].
  split.
  { intros i Hi. unfold len, np.len in Hi. fold n in Hi.
    rewrite nth_map_seq by lia.
    rewrite getitem_int_in_range by (unfold len, np.len; lia).
    rewrite Nat2Z.id. unfold row_value.
    destruct (_ =? _); cbn [ragged_or_nan]; split; congruence. }
  assert (_from_factorized zero
            (map (fun j => ragged_or_nan (row_value s j)) (seq 0 n)) s =
          store_of_rows (rows_of s) dtype) as Hf.
  { unfold _from_factorized. rewrite Hrows. apply init_rows_spec. }
  split; [exact Hf|].
  intros r Hr. rewrite Hf, <- (init_rows_spec zero) in Hr.
  destruct (constructed_layout (rows_of s) dtype r Hr) as [Hsi [Hfa Hlen]].
  rewrite cumulative_starts_stored in Hsi.
  rewrite <- flat_map_stored in Hfa.
  split.
  - unfold len, np.len. rewrite Hlen, rows_of_length. reflexivity.
  - intros i Hi. unfold len, np.len in Hi. fold n in Hi.
    rewrite (read_back_layout _ (rows_of s) dtype i Hsi Hfa)
      by (rewrite rows_of_length; fold n; lia).
    unfold rows_of. rewrite nth_map_seq by (fold n; lia). reflexivity.
Qed.

Section MoreOrdering.

Variable eq_item lt_item : E -> E -> bool.

(** The element type is ordered: [<] is a strict total order and [==] is
    equality. *)
Hypothesis lt_irrefl : forall x, lt_item x x = false.
Hypothesis lt_trans :
  forall x y z, lt_item x y = true -> lt_item y z = true ->
                lt_item x z = true.
Hypothesis lt_total :
  forall x y, lt_item x y = false -> lt_item y x = false -> x = y.
Hypothesis eq_spec : forall x y, eq_item x y = true <-> x = y.

Lemma lexograph_lt_irrefl (a : list E) : _lexograph_lt lt_item a a = false.
Proof.
  induction a as [| x a IH].
  - reflexivity.
  - rewrite lexograph_lt_cons, lt_irrefl. exact IH.
Qed.

Lemma lexograph_lt_nil_l (b : list E) :
  _lexograph_lt lt_item [] b = Nat.ltb 0 (length b).
Proof. reflexivity. Qed.

Lemma lexograph_lt_nil_r (a : list E) : _lexograph_lt lt_item a [] = false.
Proof. destruct a; reflexivity. Qed.

Lemma lexograph_lt_trans (a : list E) :
  forall b c,
    _lexograph_lt lt_item a b = true -> _lexograph_lt lt_item b c = true ->
    _lexograph_lt lt_item a c = true.
Proof.
  induction a as [| x a IH]; intros b c Hab Hbc.
  - destruct c as [| z c]; [|reflexivity].
    rewrite lexograph_lt_nil_r in Hbc. discriminate.
  - destruct b as [| y b]; [discriminate|].
    destruct c as [| z c]; [discriminate|].
    rewrite lexograph_lt_cons in *.
    destruct (lt_item x y) eqn:Hxy.
    + destruct (lt_item y z) eqn:Hyz.
      * rewrite (lt_trans x y z Hxy Hyz). reflexivity.
      * destruct (lt_item z y) eqn:Hzy; [discriminate|].
        rewrite <- (lt_total y z Hyz Hzy), Hxy. reflexivity.
    + destruct (lt_item y x) eqn:Hyx; [discriminate|].
      rewrite (lt_total x y Hxy Hyx).
      destruct (lt_item y z); [reflexivity|].
      destruct (lt_item z y); [discriminate|].
      apply (IH b c); assumption.
Qed.

Lemma lexograph_lt_total (a : list E) :
  forall b,
    _lexograph_lt lt_item a b = false -> _lexograph_lt lt_item b a = false ->
    a = b.
Proof.
  induction a as [| x a IH]; intros [| y b] Hab Hba; try discriminate.
  - reflexivity.
  - rewrite lexograph_lt_cons in *.
    destruct (lt_item x y) eqn:Hxy; [discriminate|].
    destruct (lt_item y x) eqn:Hyx; [discriminate|].
    rewrite (lt_total x y Hxy Hyx). f_equal. apply IH; assumption.
Qed.

Lemma array_equal_eq (a b : list E) :
  np.array_equal eq_item a b = true <-> a = b.
Proof.
  rewrite array_equal_spec. split.
  - intros [_ H]. induction H as [| x y a b Hxy _ IH]; [reflexivity|].
    apply eq_spec in Hxy. congruence.
  - intros <-. split; [reflexivity|].
    induction a as [| x a IH]; constructor; [apply eq_spec; reflexivity|].
    exact IH.
Qed.

(** X23. On an ordered element type the order of row views is a strict
    total order that agrees with their equality: no view is below itself,
    [<] is transitive, and of two views exactly one of [a < b], [a == b]
    and [b < a] holds. *)
Theorem view_order_is_strict_total (a b c : list E) :
  RaggedElement_lt lt_item a (RaggedElement a) = Some false /\
  (RaggedElement_lt lt_item a (RaggedElement b) = Some true ->
   RaggedElement_lt lt_item b (RaggedElement c) = Some true ->
   RaggedElement_lt lt_item a (RaggedElement c) = Some true) /\
  (RaggedElement_eq eq_item a (RaggedElement b) = true <->
   RaggedElement_lt lt_item a (RaggedElement b) = Some false /\
   RaggedElement_lt lt_item b (RaggedElement a) = Some false) /\
  (RaggedElement_lt lt_item a (RaggedElement b) = Some true ->
   RaggedElement_lt lt_item b (RaggedElement a) = Some false).
Proof.
  cbn [RaggedElement_lt RaggedElement_eq].
  split; [rewrite lexograph_lt_irrefl; reflexivity|].
  split.
  - intros Hab Hbc. f_equal.
    apply (lexograph_lt_trans a b c); congruence.
  - split.
    + rewrite array_equal_eq. split.
      * intros <-. rewrite lexograph_lt_irrefl. split; reflexivity.
      * intros [Hab Hba]. apply lexograph_lt_total; congruence.
    + intros Hab. f_equal.
      destruct (_lexograph_lt lt_item b a) eqn:Hba; [|reflexivity].
      assert (_lexograph_lt lt_item a a = true) as Haa
        by (apply (lexograph_lt_trans a b a); congruence).
      rewrite lexograph_lt_irrefl in Haa. discriminate.
Qed.

End MoreOrdering.

End MoreFacts.

(** ** The properties of the rest of the module at concrete inputs *)

Lemma example_store_valid : valid_store example_store.
Proof. apply valid_store_from_rows. vm_compute. discriminate. Qed.

(** X8 on the store of floats [[1, 2], None, [], [3]]: rows 3 and -4,
    then index 4. *)
Lemma take_by_position_witness :
  take 0 example_store [3; -4] false PyNone =
    Ok (from_rows [Row [3]; Row [1; 2]] np.float64) /\
  is_IndexError (take 0 example_store [4] false PyNone) = true.
Proof.
  split.
  - destruct (proj1 (take_by_position 0 example_store [3; -4] PyNone))
      as [H _].
    + repeat (apply Forall_cons;
              [split; [vm_compute; discriminate | reflexivity]|]).
      apply Forall_nil.
    + rewrite H. reflexivity.
  - apply (proj2 (take_by_position 0 example_store [4] PyNone)).
    apply Exists_cons_hd. right. vm_compute. discriminate.
Defined.

(** X9 on the same store: a step of 0, and [self[10:-10:-2]]. *)
Lemma slice_never_out_of_bounds_witness :
  getitem_slice 0 example_store (npx.mk_pyslice None None (Some 0)) =
    Raises ValueError_slice_step_zero /\
  exists selected,
    npx.arange_getitem (len example_store)
      (npx.mk_pyslice (Some 10) (Some (-10)) (Some (-2))) =
      Returns selected /\
    Forall (fun i => 0 <= i < len example_store) selected /\
    getitem_slice 0 example_store
      (npx.mk_pyslice (Some 10) (Some (-10)) (Some (-2))) =
      lift (store_of_rows
              (map (fun i => row_value example_store (Z.to_nat i)) selected)
              (np.dtype_of (flat_array example_store))).
Proof.
  split.
  - apply (proj1 (slice_never_out_of_bounds 0 example_store
                    (npx.mk_pyslice None None (Some 0)))).
    reflexivity.
  - apply (proj2 (slice_never_out_of_bounds 0 example_store
                    (npx.mk_pyslice (Some 10) (Some (-10)) (Some (-2))))).
    discriminate.
Defined.

(** X11 on the same store: all rows but the last, and the last row. *)
Lemma slice_from_the_end_witness :
  getitem_slice 0 example_store (npx.mk_pyslice None (Some (-1)) None) =
    Returns (from_rows [Row [1; 2]; NaN; NaN] np.float64) /\
  getitem_slice 0 example_store (npx.mk_pyslice (Some (-1)) None None) =
    Returns (from_rows [Row [3]] np.float64).
Proof.
  destruct (slice_from_the_end 0 example_store 1) as [H1 H2]; [lia|].
  split; [exact H1 | exact H2].
Defined.

(** X13 on the same store and the mask of its first and last rows. *)
Lemma mask_is_take_witness :
  getitem 0 example_store (Item_mask [true; false; false; true]) =
    getitem 0 example_store (Item_list [0; 3]) /\
  getitem 0 example_store (Item_mask [true; false; false; true]) =
    Returns (Store (from_rows [Row [1; 2]; Row [3]] np.float64)).
Proof.
  destruct (mask_is_take_of_true_positions 0 example_store
              [true; false; false; true]) as [H1 H2].
  - vm_compute. discriminate.
  - split; [exact H1 | rewrite H2; reflexivity].
Defined.

(** X14 on [[1, 2], None, [], [3]]. *)
Lemma isna_witness :
  exists mask,
    isna example_store = Returns mask /\
    Z.of_nat (length mask) = len example_store /\
    forall i, Z.of_nat i < len example_store ->
      (nth i mask false = true <->
       getitem_int example_store (Z.of_nat i) = Ok NaN).
Proof.
  apply (isna_iff_missing example_store).
  - exact example_store_valid.
  - reflexivity.
Defined.

(** X15 on the store of floats [[1, 2], None, [], [3]] and on the store
    of integers [[1, 2], [], [3]], shifted by one row. *)
Lemma shift_witness :
  (exists r,
     shift 0 example_store 1 PyNone = Returns r /\
     len r = len example_store /\
     forall i, 0 <= i < len example_store ->
       getitem_int r i =
         Ok (if (0 <=? i - 1) && (i - 1 <? len example_store)
             then as_read_back (np.dtype_of (flat_array example_store))
                    (row_value example_store (Z.to_nat (i - 1)))
             else NaN)) /\
  shift 0 int_store 1 PyNone =
    Raises (Of_exn (ValueError Cannot_convert_float_NaN_to_integer)).
Proof.
  split.
  - apply (shift_moves_rows 0 example_store 1 PyNone).
    + vm_compute. discriminate.
    + discriminate.
    + vm_compute. discriminate.
    + reflexivity.
    + reflexivity.
    + vm_compute. discriminate.
  - apply (shift_moves_rows 0 int_store 1 PyNone).
    + vm_compute. discriminate.
    + discriminate.
    + vm_compute. discriminate.
    + discriminate.
    + reflexivity.
Defined.

(** X16 on [[1, 2], None, [], [3]] shifted by no row. *)
Lemma shift_nothing_witness :
  copy 0 example_store = Ok example_store /\
  shift 0 example_store 0 PyNone = Returns example_store.
Proof.
  apply (shift_nothing 0 example_store 0 PyNone).
  - exact example_store_valid.
  - right. reflexivity.
Defined.

(** X18 on the rows [[1, 2], None, [], [3]] with float64 values. *)
Lemma eq_rows_witness :
  eq Z.eqb example_store
     (Other_objects
        [Item (Row [1; 2]); Item PyNone; Item (Row []); Item (Row [3])]) =
    Returns [true; true; true; true] /\
  ne Z.eqb example_store
     (Other_objects
        [Item (Row [1; 2]); Item PyNone; Item (Row []); Item (Row [3])]) =
    Returns [false; false; false; false].
Proof.
  apply (eq_rows_round_trip 0 Z.eqb
           [Row [1; 2]; PyNone; Row []; Row [3]] np.float64 example_store).
  - reflexivity.
  - intros v x Hv Hx.
    repeat (destruct Hv as [<- | Hv];
            [repeat (destruct Hx as [<- | Hx]; [reflexivity|]);
             contradiction|]).
    contradiction.
  - exact Z.eqb_refl.
Defined.

(** X19 on the 2-D array [[1, 2], [3, 4]] with int64 values. *)
Lemma eq_array2_witness :
  eq Z.eqb (rows_of_int64 [Row [1; 2]; Row [3; 4]])
     (Other_array2 [[1; 2]; [3; 4]]) =
    Returns [true; true].
Proof.
  apply (eq_array2_round_trip 0 Z.eqb [[1; 2]; [3; 4]] int64
           (rows_of_int64 [Row [1; 2]; Row [3; 4]])).
  - reflexivity.
  - intros row x Hr Hx.
    repeat (destruct Hr as [<- | Hr];
            [repeat (destruct Hx as [<- | Hx]; [reflexivity|]);
             contradiction|]).
    contradiction.
  - exact Z.eqb_refl.
Defined.

(** X20 on [[1, 2], None, [], [3]]; and on the same store with an
    element equality under which 3 is not equal to itself, at the last
    row. *)
Lemma eq_store_itself_witness :
  (eq Z.eqb example_store (Other_ragged example_store) =
     Returns [true; true; true; true] /\
   ne Z.eqb example_store (Other_ragged example_store) =
     Returns [false; false; false; false]) /\
  exists mask,
    eq (fun x y => negb (x =? 3) && (x =? y)) example_store
       (Other_ragged example_store) = Returns mask /\
    nth 3 mask true = false.
Proof.
  split.
  - apply (proj1 (eq_store_itself Z.eqb example_store)). exact Z.eqb_refl.
  - apply (proj2 (eq_store_itself (fun x y => negb (x =? 3) && (x =? y))
                    example_store) 3%nat 3).
    + vm_compute. lia.
    + left. reflexivity.
    + reflexivity.
Defined.

(** X24 on the rows [[1, 2], [], [3]] with int64 values and the array
    [3], then the empty array. *)
Lemma eq_scalar_witness :
  eq Z.eqb int_store (Other_array1 [3]) = Returns [false; false; true] /\
  eq Z.eqb int_store (Other_array1 []) = Returns [false; true; false].
Proof.
  split.
  - rewrite (eq_scalar_marks_rows 0 Z.eqb
               [Row [1; 2]; Row []; Row [3]] int64 int_store [3] eq_refl).
    reflexivity.
  - rewrite (eq_scalar_marks_rows 0 Z.eqb
               [Row [1; 2]; Row []; Row [3]] int64 int_store [] eq_refl).
    reflexivity.
Defined.

(** X22 on the store of floats [[1, 2], None, [], [3]]. *)
Lemma factorize_witness :
  exists cells,
    _as_ragged_element_array example_store = Ok cells /\
    Z.of_nat (length cells) = len example_store /\
    (forall i, (Z.of_nat i < len example_store) ->
       (nth i cells Nan_cell = Nan_cell <->
        getitem_int example_store (Z.of_nat i) = Ok NaN)) /\
    _from_factorized 0 cells example_store = Ok example_store /\
    forall r, _from_factorized 0 cells example_store = Ok r ->
      len r = len example_store /\
      forall i, (Z.of_nat i < len example_store) ->
        getitem_int r (Z.of_nat i) =
          Ok (as_read_back (np.dtype_of (flat_array example_store))
                           (row_value example_store i)).
Proof.
  destruct (factorize_round_trip 0 example_store)
    as [cells [H1 [H2 [H3 [H4 H5]]]]].
  exists cells. split; [exact H1|]. split; [exact H2|]. split; [exact H3|].
  split; [rewrite H4; reflexivity | exact H5].
Defined.

(** X23 on the rows [1, 2], [1, 3] and [2] of integers. *)
Lemma view_order_witness :
  RaggedElement_lt Z.ltb [1; 2] (RaggedElement [1; 2]) = Some false /\
  (RaggedElement_lt Z.ltb [1; 2] (RaggedElement [1; 3]) = Some true ->
   RaggedElement_lt Z.ltb [1; 3] (RaggedElement [2]) = Some true ->
   RaggedElement_lt Z.ltb [1; 2] (RaggedElement [2]) = Some true) /\
  (RaggedElement_eq Z.eqb [1; 2] (RaggedElement [1; 3]) = true <->
   RaggedElement_lt Z.ltb [1; 2] (RaggedElement [1; 3]) = Some false /\
   RaggedElement_lt Z.ltb [1; 3] (RaggedElement [1; 2]) = Some false) /\
  (RaggedElement_lt Z.ltb [1; 2] (RaggedElement [1; 3]) = Some true ->
   RaggedElement_lt Z.ltb [1; 3] (RaggedElement [1; 2]) = Some false).
Proof.
  apply (view_order_is_strict_total Z.eqb Z.ltb).
  - exact Z.ltb_irrefl.
  - intros x y z Hxy Hyz. apply Z.ltb_lt. apply Z.ltb_lt in Hxy, Hyz. lia.
  - intros x y Hxy Hyx. apply Z.ltb_ge in Hxy, Hyx. lia.
  - exact Z.eqb_eq.
Defined.
